(** * Conversation-Evaluation: the evaluation aggregation engine

    A shallow embedding of [src/evaluation/engine.py] (facet evaluator,
    confidence calculator, single-conversation evaluator, batch and
    comparison orchestrator), of [src/models/inference.py] (the cache of
    [ModelManager]; prompt, confidence, output parser and per-facet loop
    of [OpenWeightsModel], with the text-generation pipeline as a
    parameter) and of [src/data/processor.py] (text cleaning, features,
    batches, facet definitions and evaluation data; the functions on
    data frames are left out).

    Conventions of the embedding.
    - A Python [float] is an exact rational ([Q]) and equality of
      computed values is [Qeq] ([==]): this reading carries the formulas
      and every bound that rounding preserves.  Where rounding or the
      range of binary64 decides a property, the facet evaluator and the
      confidence calculator are embedded a second time over IEEE 754
      binary64 numbers (module [Binary64]).  A Python [int] is a [Z].
    - A Python [str] is a [string]; its characters are the code points
      below 256.
    - A raised exception is the [Raise] outcome of a [result]; an unguarded
      float division goes through [pydiv], which raises
      [ZeroDivisionError] on a zero divisor.
    - A [dict] whose iteration order the code relies on is an
      insertion-ordered association list ([dict_set], [dict_get]); the
      weight registry, only ever looked up, is a [gmap].
    - What the code gets from outside is a parameter: the clock, the
      loader of models, the text-generation pipeline, the float square
      root and, in binary64, the builtin [sum] and the square. *)

From Stdlib Require Import QArith Qround Lqa Lia List String Ascii.
From Stdlib Require PrimFloat FloatOps SpecFloat.
From stdpp Require Import gmap strings list fin_maps pretty.

Local Open Scope Q_scope.

(** ** Python values and exceptions *)

Inductive exn : Type :=
  | ZeroDivisionError
  | ValueError (msg : string)
  | ModelLoadError (model : option string).

Inductive result (A : Type) : Type :=
  | Return (a : A)
  | Raise (e : exn).

Arguments Return {A} a.
Arguments Raise {A} e.

(** [a / b] on floats. *)
Definition pydiv (a b : Q) : result Q :=
  if Qeq_bool b 0 then Raise ZeroDivisionError else Return (a / b).

(** [a > b], [max(a, b)] and [min(a, b)] on floats: [max] keeps its first
    argument unless the second is strictly larger, [min] unless the second
    is strictly smaller. *)
Definition Qgtb (a b : Q) : bool := negb (Qle_bool a b).
Definition pymax (a b : Q) : Q := if Qgtb b a then b else a.
Definition pymin (a b : Q) : Q := if Qgtb a b then b else a.

(** [sum(xs)]: a left fold from [0]. *)
Definition sumQ (xs : list Q) : Q := fold_left Qplus xs 0.
Definition sumZ (xs : list Z) : Z := fold_left Z.add xs 0%Z.

(** [float(n)] for an int, [len(xs)] as a float. *)
Definition ofZ (n : Z) : Q := inject_Z n.
Definition lenQ {A} (xs : list A) : Q := inject_Z (Z.of_nat (length xs)).

(** ** Insertion-ordered dictionaries *)

Section Dict.
Context {V : Type}.

Fixpoint dict_get (k : string) (d : list (string * V)) : option V :=
  match d with
  | [] => None
  | (k', v) :: d' => if String.eqb k k' then Some v else dict_get k d'
  end.

(** [d[k] = v]: overwrite in place, or append a new key. *)
Fixpoint dict_set (k : string) (v : V) (d : list (string * V))
  : list (string * V) :=
  match d with
  | [] => [(k, v)]
  | (k', v') :: d' =>
      if String.eqb k k' then (k', v) :: d' else (k', v') :: dict_set k v d'
  end.

Definition dict_mem (k : string) (d : list (string * V)) : bool :=
  match dict_get k d with Some _ => true | None => false end.

Definition dict_keys (d : list (string * V)) : list string := map fst d.
Definition dict_values (d : list (string * V)) : list V := map snd d.
End Dict.

(** ** [data/processor.py]: text cleaning *)

Module DataProcessor.

(** The character classes of the [re] module and of [str.strip] on the
    code points below 256: [\s] is [str.isspace], [\w] is
    [str.isalnum] or the underscore. *)
Definition isspace (c : ascii) : bool :=
  let n := nat_of_ascii c in
  ((9 <=? n) && (n <=? 13) || (28 <=? n) && (n <=? 32)
   || (n =? 133) || (n =? 160))%nat.

Definition isword (c : ascii) : bool :=
  let n := nat_of_ascii c in
  ((48 <=? n) && (n <=? 57) || (65 <=? n) && (n <=? 90) || (n =? 95)
   || (97 <=? n) && (n <=? 122)
   || (n =? 170) || (n =? 178) || (n =? 179) || (n =? 181)
   || (n =? 185) || (n =? 186) || (188 <=? n) && (n <=? 190)
   || (192 <=? n) && (n <=? 214) || (216 <=? n) && (n <=? 246)
   || (248 <=? n) && (n <=? 255))%nat.

Definition double_quote : ascii := "034"%char.
Definition apostrophe : ascii := "'"%char.

(** [c in s] for a character. *)
Definition char_in (c : ascii) (s : list ascii) : bool :=
  existsb (Ascii.eqb c) s.

(** [text.strip()]. *)
Fixpoint lstrip (l : list ascii) : list ascii :=
  match l with
  | [] => []
  | c :: l' => if isspace c then lstrip l' else l
  end.

Definition rstrip (l : list ascii) : list ascii := rev (lstrip (rev l)).

Definition strip (l : list ascii) : list ascii := rstrip (lstrip l).

(** [re.sub(r'\s+', ' ', text)]: every maximal run of white space becomes
    one blank; [in_run] tells that the previous character was white
    space. *)
Fixpoint sub_spaces (in_run : bool) (l : list ascii) : list ascii :=
  match l with
  | [] => []
  | c :: l' =>
      if isspace c
      then (if in_run then sub_spaces true l'
            else " "%char :: sub_spaces true l')
      else c :: sub_spaces false l'
  end.

Fixpoint starts_with (p l : list ascii) : bool :=
  match p, l with
  | [], _ => true
  | _ :: _, [] => false
  | a :: p', b :: l' => Ascii.eqb a b && starts_with p' l'
  end.

(** [text.replace(old, new)] for a non-empty [old]: the occurrences are
    found from the left and do not overlap; [skip] counts the characters
    of a matched occurrence still to be passed over. *)
Fixpoint replace_from (skip : nat) (old new l : list ascii) : list ascii :=
  match l with
  | [] => []
  | c :: l' =>
      match skip with
      | S k => replace_from k old new l'
      | O =>
          if starts_with old l
          then new ++ replace_from (length old - 1) old new l'
          else c :: replace_from 0 old new l'
      end
  end.

Definition replace (old new l : list ascii) : list ascii :=
  match old with
  | [] => new ++ flat_map (fun c => c :: new) l
  | _ => replace_from 0 old new l
  end.

(** The first argument of the first [replace] of line 83.  As Python reads
    that line, its three apostrophes open a triple-quoted literal that
    runs up to the next three apostrophes, so the line is one call of
    [replace], of [S] by an apostrophe, with [S] the fifteen characters
    between them: a comma, a blank, a double quote, an apostrophe, a
    double quote, a closing parenthesis, a full stop, the word replace
    and an opening parenthesis. *)
Definition line83_old : list ascii :=
  [","%char; " "%char; double_quote; apostrophe; double_quote]
  ++ list_ascii_of_string ").replace(".

(** The negated class of the second [re.sub] lists what is kept: word
    characters, white space, and the nine characters full stop, comma,
    exclamation mark, question mark, semicolon, colon, apostrophe, double
    quote and hyphen. *)
Definition kept (c : ascii) : bool :=
  isword c || isspace c
  || char_in c (list_ascii_of_string ".,!?;:" ++ [apostrophe; double_quote]
                ++ ["-"%char]).

Definition ensure_sentence_ending (text : list ascii) : list ascii :=
  match last text with
  | None => text
  | Some c =>
      if negb (char_in c (list_ascii_of_string ".!?"))
      then text ++ ["."%char] else text
  end.

(** The body of [clean_conversation_text] on the characters of a [str]
    argument (the [isinstance] test of the first line is then true). *)
Definition clean_chars (text : list ascii) : list ascii :=
  let text := sub_spaces false (strip text) in
  let text := replace [double_quote] [double_quote]
                (replace [double_quote] [double_quote] text) in
  let text := replace line83_old [apostrophe] text in
  let text := List.filter kept text in
  ensure_sentence_ending text.

Definition clean_conversation_text (text : string) : string :=
  string_of_list_ascii (clean_chars (list_ascii_of_string text)).

End DataProcessor.

(** ** [models/inference.py]: EvaluationResult *)

Record EvaluationResult : Type := mkEvaluationResult {
  facet : string;
  score : Z;
  confidence : Q;
  reasoning : string
}.

(** ** [evaluation/engine.py]: FacetEvaluator *)

Module FacetEvaluator.
Section WithConfig.

(** [config.get('facet_weights', {})]. *)
Variable config_weights : gmap string Q.

Definition default_weights : gmap string Q :=
  list_to_map
    [ ("grammar"%string, 1.0); ("coherence"%string, 1.2);
      ("fluency"%string, 1.0); ("vocabulary_richness"%string, 0.8);
      ("clarity"%string, 1.3);
      ("appropriateness"%string, 1.5); ("relevance"%string, 1.4);
      ("politeness"%string, 1.1); ("context_understanding"%string, 1.3);
      ("toxicity"%string, 2.0); ("bias"%string, 1.8);
      ("harmful_content"%string, 2.0); ("hate_speech"%string, 2.0);
      ("empathy"%string, 1.2); ("sentiment"%string, 1.0);
      ("emotional_appropriateness"%string, 1.1) ].

(** [weights.update(default_weights); weights.update(config_weights)]:
    the later update wins. *)
Definition _load_facet_weights : gmap string Q :=
  config_weights ∪ (default_weights ∪ ∅).

Definition facet_weights : gmap string Q := _load_facet_weights.

(** [self.facet_weights.get(f, 1.0)]. *)
Definition weight_of (f : string) : Q := default 1.0 (facet_weights !! f).

(** One iteration of the loop of [calculate_weighted_score] on the pair
    [(total_weighted_score, total_weight)].  The sums are exact here;
    [Binary64.calculate_weighted_score] rounds them. *)
Definition weighted_step (acc : Q * Q) (r : EvaluationResult) : Q * Q :=
  let weight := weight_of (facet r) in
  let weighted_score := ofZ (score r) * weight * confidence r in
  (fst acc + weighted_score, snd acc + weight * confidence r).

Definition calculate_weighted_score (facet_results : list EvaluationResult)
  : Q :=
  match facet_results with
  | [] => 0.0
  | _ =>
      let '(total_weighted_score, total_weight) :=
        fold_left weighted_step facet_results (0.0, 0.0) in
      if Qgtb total_weight 0 then total_weighted_score / total_weight
      else 0.0
  end.

Definition linguistic_facets : list string :=
  ["grammar"; "coherence"; "fluency"; "vocabulary_richness"; "clarity"]%string.
Definition pragmatic_facets : list string :=
  ["appropriateness"; "relevance"; "politeness";
   "context_understanding"]%string.
Definition safety_facets : list string :=
  ["toxicity"; "bias"; "harmful_content"; "hate_speech"]%string.
Definition emotion_facets : list string :=
  ["empathy"; "sentiment"; "emotional_appropriateness"]%string.

(** [x in xs] for a list of strings. *)
Definition str_in (x : string) (xs : list string) : bool :=
  existsb (String.eqb x) xs.

Definition _get_facet_category (facet : string) : string :=
  if str_in facet linguistic_facets then "linguistic_quality"%string
  else if str_in facet pragmatic_facets then "pragmatics"%string
  else if str_in facet safety_facets then "safety"%string
  else if str_in facet emotion_facets then "emotion"%string
  else "other"%string.

(** The population variance as both variance computations of the engine
    write it: [mean = sum(scores) / len(scores)], then
    [sum((s - mean) ** 2 for s in scores) / len(scores)].  Every call
    site has checked [len(scores) > 1] before. *)
Definition variance_of (scores : list Z) : Q :=
  let mean_score := ofZ (sumZ scores) / lenQ scores in
  sumQ (map (fun s => (ofZ s - mean_score) ^ 2) scores) / lenQ scores.

(** The grouping loop of [analyze_facet_consistency]:
    [if category not in categories: categories[category] = []], then
    [categories[category].append(result.score)]. *)
Definition group_step (categories : list (string * list Z))
    (r : EvaluationResult) : list (string * list Z) :=
  let category := _get_facet_category (facet r) in
  let categories :=
    if negb (dict_mem category categories)
    then dict_set category [] categories else categories in
  match dict_get category categories with
  | Some scores => dict_set category (scores ++ [score r]) categories
  | None => categories
  end.

(** The loop over [categories.items()]. *)
Definition consistency_step (consistency_scores : list Q)
    (item : string * list Z) : list Q :=
  let scores := snd item in
  if (1 <? length scores)%nat then
    let variance := variance_of scores in
    let consistency := pymax 0 (1 - variance / 4) in
    consistency_scores ++ [consistency]
  else consistency_scores.

Definition analyze_facet_consistency
    (facet_results : list EvaluationResult) : Q :=
  if (length facet_results <? 2)%nat then 1.0
  else
    let categories := fold_left group_step facet_results [] in
    let consistency_scores := fold_left consistency_step categories [] in
    match consistency_scores with
    | [] => 1.0
    | _ => sumQ consistency_scores / lenQ consistency_scores
    end.

End WithConfig.
End FacetEvaluator.

(** ** [evaluation/engine.py]: the confidence calculator *)

Record ConfidenceMetrics : Type := mkConfidenceMetrics {
  overall_confidence : Q;
  model_confidence : Q;
  consistency_score : Q;
  uncertainty_estimate : Q
}.

Section ConfidenceCalculator.
Variable config_weights : gmap string Q.

Definition _calculate_score_variance
    (facet_results : list EvaluationResult) : Q :=
  if (length facet_results <? 2)%nat then 0.0
  else FacetEvaluator.variance_of (map score facet_results).

(** The loop that fills [weighted_confidences]. *)
Definition weighted_confidence_step (weighted_confidences : list Q)
    (r : EvaluationResult) : list Q :=
  let weight := FacetEvaluator.weight_of config_weights (facet r) in
  weighted_confidences ++ [confidence r * weight].

(** The division by [len(facet_results)] comes after the emptiness test;
    the division by the sum of the weights is unguarded.  Sums, products
    and quotients are exact here; [Binary64._calculate_confidence_metrics]
    rounds them. *)
Definition _calculate_confidence_metrics
    (facet_results : list EvaluationResult) : result ConfidenceMetrics :=
  match facet_results with
  | [] => Return (mkConfidenceMetrics 0.0 0.0 0.0 1.0)
  | _ =>
      let overall_confidence :=
        sumQ (map confidence facet_results) / lenQ facet_results in
      let weighted_confidences :=
        fold_left weighted_confidence_step facet_results [] in
      match pydiv (sumQ weighted_confidences)
              (sumQ (map (fun r => FacetEvaluator.weight_of config_weights
                                     (facet r)) facet_results)) with
      | Raise e => Raise e
      | Return model_confidence =>
          let consistency_score :=
            FacetEvaluator.analyze_facet_consistency facet_results in
          let score_variance := _calculate_score_variance facet_results in
          let uncertainty_estimate := pymin 1.0 (score_variance / 2.0) in
          Return (mkConfidenceMetrics overall_confidence model_confidence
                    consistency_score uncertainty_estimate)
      end
  end.
End ConfidenceCalculator.

(** ** [evaluation/engine.py]: evaluation records and model comparison *)

Record ConversationEvaluation : Type := mkConversationEvaluation {
  conversation_id : string;
  conversation_text : string;
  facet_scores : list (string * EvaluationResult);
  confidence_metrics : ConfidenceMetrics;
  processing_time : Q;
  model_used : string;
  timestamp : Q
}.

(** The dictionary [compare_evaluations] returns: either the single key
    ["error"], or the four maps keyed by facet.  The facets are visited in
    the iteration order of a [set], which Python leaves unspecified, so the
    four maps are finite maps without an order. *)
Record Comparison : Type := mkComparison {
  model_agreements : gmap string Q;
  score_differences : gmap string (list (string * Z));
  confidence_comparison : gmap string (list (string * Q));
  consensus_scores : gmap string Q
}.

Inductive comparison_result : Type :=
  | ComparisonError (error : string)
  | ComparisonOk (comparison : Comparison).

(** [max(xs)] and [min(xs)] of a list of ints; both call sites have checked
    [len(xs) >= 1] before (an empty list raises [ValueError] in Python). *)
Definition max_of (xs : list Z) : Z :=
  match xs with
  | [] => 0%Z
  | x :: xs' => fold_left Z.max xs' x
  end.

Definition min_of (xs : list Z) : Z :=
  match xs with
  | [] => 0%Z
  | x :: xs' => fold_left Z.min xs' x
  end.

Section CompareEvaluations.
Variable evaluations : list (string * ConversationEvaluation).

(** [all_facets.update(evaluation.facet_scores.keys())] for every
    evaluation. *)
Definition all_facets : gset string :=
  fold_left
    (fun acc evaluation =>
       acc ∪ list_to_set (dict_keys (facet_scores evaluation)))
    (dict_values evaluations) ∅.

(** The inner loop over [evaluations.items()], on the pair
    [(facet_scores, facet_confidences)]. *)
Definition collect_step (facet : string)
    (acc : list (string * Z) * list (string * Q))
    (item : string * ConversationEvaluation)
  : list (string * Z) * list (string * Q) :=
  let '(model_name, evaluation) := item in
  match dict_get facet (facet_scores evaluation) with
  | Some result =>
      (dict_set model_name (score result) (fst acc),
       dict_set model_name (confidence result) (snd acc))
  | None => acc
  end.

Definition facet_agreement (scores : list Z) : Q :=
  let score_range := (max_of scores - min_of scores)%Z in
  pymax 0 (1 - ofZ score_range / 4).

(** [sum(score * facet_confidences[model] for model, score in
    facet_scores.items() if model in facet_confidences)]. *)
Definition facet_weighted_sum (facet_scores : list (string * Z))
    (facet_confidences : list (string * Q)) : Q :=
  sumQ (flat_map
          (fun '(model, score) =>
             match dict_get model facet_confidences with
             | Some c => [ofZ score * c]
             | None => []
             end)
          facet_scores).

Definition facet_consensus (facet_scores : list (string * Z))
    (facet_confidences : list (string * Q)) : Q :=
  let scores := dict_values facet_scores in
  let weighted_sum := facet_weighted_sum facet_scores facet_confidences in
  let weight_sum := sumQ (dict_values facet_confidences) in
  if Qgtb weight_sum 0 then weighted_sum / weight_sum
  else ofZ (sumZ scores) / lenQ scores.

(** The body of the loop over [all_facets]. *)
Definition compare_facet (comparison : Comparison) (facet : string)
  : Comparison :=
  let '(facet_scores, facet_confidences) :=
    fold_left (collect_step facet) evaluations ([], []) in
  if (2 <=? length facet_scores)%nat then
    let scores := dict_values facet_scores in
    let agreement := facet_agreement scores in
    let consensus := facet_consensus facet_scores facet_confidences in
    {| model_agreements := <[facet := agreement]> (model_agreements comparison);
       score_differences :=
         <[facet := facet_scores]> (score_differences comparison);
       confidence_comparison :=
         <[facet := facet_confidences]> (confidence_comparison comparison);
       consensus_scores :=
         <[facet := consensus]> (consensus_scores comparison) |}
  else comparison.

Definition compare_evaluations : comparison_result :=
  if (length evaluations <? 2)%nat
  then ComparisonError "Need at least 2 evaluations to compare"
  else ComparisonOk
         (fold_left compare_facet (elements all_facets)
            (mkComparison ∅ ∅ ∅ ∅)).
End CompareEvaluations.

(** ** [evaluation/engine.py] in binary64 *)

(** The same functions of the facet evaluator and of the confidence
    calculator with a Python [float] as an IEEE 754 binary64 number
    (Rocq's primitive floats) instead of an exact rational.  Additions,
    multiplications and divisions round as the processor does; an [int]
    that meets a [float] is converted first, which raises [OverflowError]
    beyond the range of binary64.  Two operations whose result depends on
    the interpreter are parameters: the builtin [sum] over floats (a plain
    left-to-right addition before CPython 3.12, a compensated one since)
    and [x ** 2] (the C library's [pow]). *)
Module Binary64.
Import PrimFloat FloatOps SpecFloat.

Local Open Scope float_scope.
Set Warnings "-inexact-float".

Inductive exn : Type :=
  | ZeroDivisionError
  | OverflowError.

Inductive result (A : Type) : Type :=
  | Return (a : A)
  | Raise (e : exn).

Arguments Return {A} a.
Arguments Raise {A} e.

Definition bind {A B} (r : result A) (k : A -> result B) : result B :=
  match r with
  | Return a => k a
  | Raise e => Raise e
  end.

Notation "'let*' x ':=' c 'in' k" := (bind c (fun x => k))
  (at level 10, x name, c at level 200, k at level 200, only parsing).

(** [float(n)]: the nearest binary64 number, ties to even. *)
Definition of_int (n : Z) : result float :=
  match binary_normalize prec emax n 0 false with
  | S754_infinity _ => Raise OverflowError
  | x => Return (SF2Prim x)
  end.

(** [a / b] on floats; [a / b] on ints is the correctly rounded
    quotient. *)
Definition truediv (a b : float) : result float :=
  if b =? 0 then Raise ZeroDivisionError else Return (a / b).

Definition int_as_spec_float (n : Z) : spec_float :=
  match n with
  | Z0 => S754_zero false
  | Zpos m => S754_finite false m 0
  | Zneg m => S754_finite true m 0
  end.

Definition int_truediv (a b : Z) : result float :=
  if (b =? 0)%Z then Raise ZeroDivisionError
  else match SFdiv prec emax (int_as_spec_float a) (int_as_spec_float b) with
       | S754_infinity _ => Raise OverflowError
       | x => Return (SF2Prim x)
       end.

(** [max(0, x)] and [min(1.0, x)]: the first argument unless the second
    is strictly larger, respectively smaller. *)
Definition max0 (x : float) : float := if 0 <? x then x else 0.
Definition min1 (x : float) : float := if x <? 1 then x else 1.

Record EvaluationResult : Type := mkEvaluationResult {
  facet : string;
  score : Z;
  confidence : float;
  reasoning : string
}.

Record ConfidenceMetrics : Type := mkConfidenceMetrics {
  overall_confidence : float;
  model_confidence : float;
  consistency_score : float;
  uncertainty_estimate : float
}.

Definition default_weights : gmap string float :=
  list_to_map
    [ ("grammar"%string, 1.0); ("coherence"%string, 1.2);
      ("fluency"%string, 1.0); ("vocabulary_richness"%string, 0.8);
      ("clarity"%string, 1.3);
      ("appropriateness"%string, 1.5); ("relevance"%string, 1.4);
      ("politeness"%string, 1.1); ("context_understanding"%string, 1.3);
      ("toxicity"%string, 2.0); ("bias"%string, 1.8);
      ("harmful_content"%string, 2.0); ("hate_speech"%string, 2.0);
      ("empathy"%string, 1.2); ("sentiment"%string, 1.0);
      ("emotional_appropriateness"%string, 1.1) ].

Section WithConfig.
Variable config_weights : gmap string float.

Definition facet_weights : gmap string float :=
  config_weights ∪ (default_weights ∪ ∅).

Definition weight_of (f : string) : float := default 1.0 (facet_weights !! f).

(** The loop of [calculate_weighted_score]; [result.score * weight]
    converts the score. *)
Fixpoint weighted_loop (facet_results : list EvaluationResult)
    (acc : float * float) : result (float * float) :=
  match facet_results with
  | [] => Return acc
  | r :: rest =>
      let weight := weight_of (facet r) in
      let* s := of_int (score r) in
      let weighted_score := s * weight * confidence r in
      weighted_loop rest
        (fst acc + weighted_score, snd acc + weight * confidence r)
  end.

Definition calculate_weighted_score (facet_results : list EvaluationResult)
  : result float :=
  match facet_results with
  | [] => Return 0.0
  | _ =>
      let* totals := weighted_loop facet_results (0.0, 0.0) in
      let '(total_weighted_score, total_weight) := totals in
      if 0 <? total_weight then Return (total_weighted_score / total_weight)
      else Return 0.0
  end.

Section Interpreter.
Variable sum : list float -> float.
Variable square : float -> result float.

(** [sum((s - mean_score) ** 2 for s in scores)]: the terms in order. *)
Fixpoint squared_deviations (mean_score : float) (scores : list Z)
  : result (list float) :=
  match scores with
  | [] => Return []
  | s :: rest =>
      let* x := of_int s in
      let* d := square (x - mean_score) in
      let* ds := squared_deviations mean_score rest in
      Return (d :: ds)
  end.

Definition variance_of (scores : list Z) : result float :=
  let* mean_score :=
    int_truediv (fold_left Z.add scores 0%Z) (Z.of_nat (length scores)) in
  let* terms := squared_deviations mean_score scores in
  let* n := of_int (Z.of_nat (length scores)) in
  truediv (sum terms) n.

Definition group_step (categories : list (string * list Z))
    (r : EvaluationResult) : list (string * list Z) :=
  let category := FacetEvaluator._get_facet_category (facet r) in
  let categories :=
    if negb (dict_mem category categories)
    then dict_set category [] categories else categories in
  match dict_get category categories with
  | Some scores => dict_set category (scores ++ [score r]) categories
  | None => categories
  end.

Fixpoint consistency_loop (categories : list (string * list Z))
    (consistency_scores : list float) : result (list float) :=
  match categories with
  | [] => Return consistency_scores
  | (_, scores) :: rest =>
      if (1 <? length scores)%nat then
        let* variance := variance_of scores in
        let consistency := max0 (1 - variance / 4) in
        consistency_loop rest (consistency_scores ++ [consistency])
      else consistency_loop rest consistency_scores
  end.

Definition analyze_facet_consistency
    (facet_results : list EvaluationResult) : result float :=
  if (length facet_results <? 2)%nat then Return 1.0
  else
    let categories := fold_left group_step facet_results [] in
    let* consistency_scores := consistency_loop categories [] in
    match consistency_scores with
    | [] => Return 1.0
    | _ =>
        let* n := of_int (Z.of_nat (length consistency_scores)) in
        truediv (sum consistency_scores) n
    end.

Definition _calculate_score_variance
    (facet_results : list EvaluationResult) : result float :=
  if (length facet_results <? 2)%nat then Return 0.0
  else variance_of (map score facet_results).

Definition _calculate_confidence_metrics
    (facet_results : list EvaluationResult) : result ConfidenceMetrics :=
  match facet_results with
  | [] => Return (mkConfidenceMetrics 0.0 0.0 0.0 1.0)
  | _ =>
      let* n := of_int (Z.of_nat (length facet_results)) in
      let* overall_confidence :=
        truediv (sum (map confidence facet_results)) n in
      let weighted_confidences :=
        map (fun r => confidence r * weight_of (facet r)) facet_results in
      let* model_confidence :=
        truediv (sum weighted_confidences)
          (sum (map (fun r => weight_of (facet r)) facet_results)) in
      let* consistency_score := analyze_facet_consistency facet_results in
      let* score_variance := _calculate_score_variance facet_results in
      let uncertainty_estimate := min1 (score_variance / 2.0) in
      Return (mkConfidenceMetrics overall_confidence model_confidence
                consistency_score uncertainty_estimate)
  end.
End Interpreter.
End WithConfig.

(** [sum] as a left-to-right addition from [0], which is what every
    version of CPython computes on a list of a single float, and [x ** 2]
    as [x * x]. *)
Definition sum_left (xs : list float) : float := fold_left add xs 0.
Definition square_mul (x : float) : result float := Return (x * x).

End Binary64.

(** ** The process: clock, model cache and exceptions *)

(** [data/processor.py]: ConversationTurn. *)
Record ConversationTurn : Type := mkConversationTurn {
  text : string;
  speaker : option string;
  turn_timestamp : option Q;
  context : option string;
  metadata : option (list (string * string))
}.

(** [Union[str, ConversationTurn]]. *)
Inductive conversation_input : Type :=
  | RawText (s : string)
  | Turn (t : ConversationTurn).

(** A loaded model: its name and its [evaluate_conversation], which, as
    [OpenWeightsModel] writes it, catches every per-facet exception and
    always returns a list of results. *)
Record Model : Type := mkModel {
  model_name : string;
  model_evaluate_conversation : string -> list string -> list EvaluationResult
}.

(** The state of the process that the engine reads and writes: how often
    [time.time()] was read, how often a model load was attempted, and the
    two fields of [ModelManager]. *)
Record World : Type := mkWorld {
  clock_reads : nat;
  load_attempts : nat;
  models : gmap (option string) Model;
  current_model : option Model
}.

(** A computation that reads and writes the process state and returns or
    raises. *)
Definition M (A : Type) : Type := World -> result A * World.

Definition ret {A} (a : A) : M A := fun w => (Return a, w).
Definition raise {A} (e : exn) : M A := fun w => (Raise e, w).
Definition bind {A B} (c : M A) (k : A -> M B) : M B :=
  fun w =>
    match c w with
    | (Return a, w') => k a w'
    | (Raise e, w') => (Raise e, w')
    end.
Definition lift {A} (r : result A) : M A := fun w => (r, w).

Notation "'let*' x ':=' c 'in' k" := (bind c (fun x => k))
  (at level 10, x name, c at level 200, k at level 200, only parsing).

(** [x or y] on optional strings: [None] and the empty string are false. *)
Definition truthy (x : option string) : bool :=
  match x with
  | Some s => negb (String.eqb s "")
  | None => false
  end.

(** [int(x)] on a float truncates towards zero. *)
Definition int_of_float (x : Q) : Z := Z.quot (Qnum x) (Z.pos (Qden x)).

(** [asyncio.gather] on the tasks: every task runs to its end; the results come
    back in the order of the tasks, and if a task raised, the [await]
    raises.  The tasks are run one after the other here, and of several
    exceptions the one of the first task in the list is raised (with
    [asyncio] it is the one raised first in time). *)
Fixpoint run_all {A} (tasks : list (M A)) (w : World)
  : list (result A) * World :=
  match tasks with
  | [] => ([], w)
  | task :: tasks' =>
      let '(r, w') := task w in
      let '(rs, w'') := run_all tasks' w' in
      (r :: rs, w'')
  end.

Fixpoint all_returned {A} (rs : list (result A)) : result (list A) :=
  match rs with
  | [] => Return []
  | Raise e :: _ => Raise e
  | Return a :: rs' =>
      match all_returned rs' with
      | Return l => Return (a :: l)
      | Raise e => Raise e
      end
  end.

Definition gather {A} (tasks : list (M A)) : M (list A) :=
  fun w => let '(rs, w') := run_all tasks w in (all_returned rs, w').

(** ** [evaluation/engine.py]: the engine *)

Record FacetStatistics : Type := mkFacetStatistics {
  mean_score : Q;
  min_score : Z;
  max_score : Z;
  score_std : Q;
  mean_confidence : Q;
  evaluation_count : nat
}.

Record BatchEvaluationResult : Type := mkBatchEvaluationResult {
  evaluations : list ConversationEvaluation;
  total_processing_time : Q;
  average_confidence : Q;
  facet_statistics : list (string * FacetStatistics)
}.

(** [xs[i:i + n]] for [i] in [range(0, len(xs), n)], with [n > 0]. *)
Fixpoint chunks {A} (fuel n : nat) (xs : list A) : list (list A) :=
  match fuel, xs with
  | 0%nat, _ | _, [] => []
  | S fuel', _ => take n xs :: chunks fuel' n (drop n xs)
  end.

Section Engine.
(** The configuration: [facet_weights], [default_model] and
    [facet_batch_size] (10 when absent). *)
Variable config_weights : gmap string Q.
Variable default_model : option string.
Variable facet_batch_size : Z.

(** The environment: the value of the [n]-th reading of [time.time()],
    the outcome of the [n]-th attempt of [OpenWeightsModel.load_model],
    and the float operation [x ** 0.5]. *)
Variable clock : nat -> Q.
Variable backend : nat -> option string -> result Model.
Variable sqrt_float : Q -> Q.

Definition time_time : M Q :=
  fun w =>
    (Return (clock (clock_reads w)),
     mkWorld (S (clock_reads w)) (load_attempts w) (models w)
       (current_model w)).

(** [ModelManager.load_model]. *)
Definition load_model (name : option string) : M Model :=
  fun w =>
    match models w !! name with
    | Some model => (Return model, w)
    | None =>
        match backend (load_attempts w) name with
        | Raise e =>
            (Raise e,
             mkWorld (clock_reads w) (S (load_attempts w)) (models w)
               (current_model w))
        | Return model =>
            (Return model,
             mkWorld (clock_reads w) (S (load_attempts w))
               (<[name := model]> (models w)) (Some model))
        end
    end.

(** [ModelManager.load_model_async] runs [load_model] on the single
    worker of its executor. *)
Definition load_model_async (name : option string) : M Model :=
  load_model name.

(** The sub-batches of [_evaluate_facets_async]; [range] refuses a zero
    step and is empty for a negative one. *)
Definition facet_batches (facets : list string)
  : result (list (list string)) :=
  if (facet_batch_size =? 0)%Z
  then Raise (ValueError "range() arg 3 must not be zero")
  else if (facet_batch_size <? 0)%Z then Return []
  else Return (chunks (length facets) (Z.to_nat facet_batch_size) facets).

Definition _evaluate_facets_async (conversation : string)
    (facets : list string) (model : Model) : M (list EvaluationResult) :=
  let* batches := lift (facet_batches facets) in
  ret (fold_left
         (fun all_results batch =>
            all_results ++ model_evaluate_conversation model conversation batch)
         batches []).

Definition evaluate_conversation (conversation : conversation_input)
    (facets : list string) (conversation_id : option string)
    (name : option string) : M ConversationEvaluation :=
  let* start_time := time_time in
  let conv_turn :=
    match conversation with
    | RawText s => mkConversationTurn s None None None None
    | Turn t => t
    end in
  let* conversation_id :=
    match conversation_id with
    | Some id =>
        if truthy conversation_id then ret id
        else (let* now := time_time in
              ret ("conv_" +:+ pretty (int_of_float now)))
    | None =>
        let* now := time_time in
        ret ("conv_" +:+ pretty (int_of_float now))
    end in
  let clean_text := DataProcessor.clean_conversation_text (text conv_turn) in
  let* model :=
    load_model_async (if truthy name then name else default_model) in
  let* facet_results := _evaluate_facets_async clean_text facets model in
  let* confidence_metrics :=
    lift (_calculate_confidence_metrics config_weights facet_results) in
  let* finished := time_time in
  let processing_time := finished - start_time in
  let* created := time_time in
  ret (mkConversationEvaluation conversation_id clean_text
         (fold_left (fun d r => dict_set (facet r) r d) facet_results [])
         confidence_metrics processing_time (model_name model) created).

(** The body of the loop over [facets] in [_calculate_facet_statistics];
    the inner loop keeps the results of the evaluations that hold the
    facet. *)
Definition facet_statistics_step
    (evaluations : list ConversationEvaluation)
    (stats : list (string * FacetStatistics)) (facet : string)
  : list (string * FacetStatistics) :=
  let results :=
    flat_map (fun evaluation =>
                match dict_get facet (facet_scores evaluation) with
                | Some result => [result]
                | None => []
                end) evaluations in
  let facet_scores := map score results in
  let facet_confidences := map confidence results in
  match facet_scores with
  | [] => stats
  | _ =>
      let m := ofZ (sumZ facet_scores) / lenQ facet_scores in
      dict_set facet
        (mkFacetStatistics m (min_of facet_scores) (max_of facet_scores)
           (sqrt_float
              (sumQ (map (fun s => (ofZ s - m) ^ 2) facet_scores)
               / lenQ facet_scores))
           (sumQ facet_confidences / lenQ facet_confidences)
           (length facet_scores))
        stats
  end.

Definition _calculate_facet_statistics
    (evaluations : list ConversationEvaluation) (facets : list string)
  : list (string * FacetStatistics) :=
  fold_left (facet_statistics_step evaluations) facets [].

(** The tasks [batch_evaluate] creates, one per conversation. *)
Definition batch_tasks (conversations : list conversation_input)
    (facets : list string) (name : option string)
  : list (M ConversationEvaluation) :=
  imap (fun i conversation =>
          evaluate_conversation conversation facets
            (Some ("batch_conv_" +:+ pretty i)) name)
       conversations.

Definition batch_evaluate (conversations : list conversation_input)
    (facets : list string) (name : option string)
  : M BatchEvaluationResult :=
  let* start_time := time_time in
  let tasks := batch_tasks conversations facets name in
  let* evaluations := gather tasks in
  let* finished := time_time in
  let total_time := finished - start_time in
  let* avg_confidence :=
    lift (pydiv
            (sumQ (map (fun e => overall_confidence (confidence_metrics e))
                     evaluations))
            (lenQ evaluations)) in
  let facet_stats := _calculate_facet_statistics evaluations facets in
  ret (mkBatchEvaluationResult evaluations total_time avg_confidence
         facet_stats).

Definition evaluate_with_multiple_models (conversation : conversation_input)
    (facets : list string) (model_names : list string)
  : M (list (string * ConversationEvaluation)) :=
  let tasks :=
    map (fun name => evaluate_conversation conversation facets None
                       (Some name))
        model_names in
  let* evaluations := gather tasks in
  ret (fold_left (fun d '(name, evaluation) => dict_set name evaluation d)
         (zip model_names evaluations) []).
End Engine.

(** [engine.py]'s stand-in model: every facet scores 3 with confidence
    0.8. *)
Definition mock_model : Model :=
  mkModel "mock"
    (fun _ facets =>
       map (fun facet =>
              mkEvaluationResult facet 3 0.8 "Mock evaluation result")
           facets).

Definition initial_world : World := mkWorld 0 0 ∅ None.

(** ** [models/inference.py]: the cache of ModelManager *)

Section ModelManager.
Variable backend : nat -> option string -> result Model.
(** [config.get('default_model', 'meta-llama/Llama-2-7b-chat-hf')] of the
    manager's configuration. *)
Variable manager_default : option string.

(** [ModelManager.get_model]; a loaded model object is true. *)
Definition get_model (name : option string) : M Model :=
  fun w =>
    if truthy name then
      match models w !! name with
      | None => load_model backend name w
      | Some model => (Return model, w)
      end
    else
      match current_model w with
      | Some model => (Return model, w)
      | None => load_model backend manager_default w
      end.

(** [ModelManager.unload_model] for a [str] argument. *)
Definition unload_model (name : string) : M unit :=
  fun w =>
    match models w !! Some name with
    | Some _ =>
        (Return tt,
         mkWorld (clock_reads w) (load_attempts w)
           (delete (Some name) (models w))
           (match current_model w with
            | Some model =>
                if String.eqb (model_name model) name then None
                else Some model
            | None => None
            end))
    | None => (Return tt, w)
    end.
End ModelManager.

(** A call of the manager, and a sequence of calls run one after the
    other; a call that raises leaves the state it reached. *)
Inductive manager_call : Type :=
  | LoadModel (name : string)
  | GetModel (name : option string)
  | UnloadModel (name : string).

Definition run_call (backend : nat -> option string -> result Model)
    (manager_default : option string) (c : manager_call) (w : World)
  : World :=
  match c with
  | LoadModel name => snd (load_model backend (Some name) w)
  | GetModel name => snd (get_model backend manager_default name w)
  | UnloadModel name => snd (unload_model name w)
  end.

Definition run_calls (backend : nat -> option string -> result Model)
    (manager_default : option string) (cs : list manager_call) (w : World)
  : World :=
  fold_left (fun w c => run_call backend manager_default c w) cs w.

(** ** Strings: [split], [lower], [isupper], [count] *)

Module PyStr.

Definition newline : ascii := "010"%char.

(** [text.split()]: the maximal runs of characters that are not white
    space; [word] holds the run being read. *)
Fixpoint split_from (word l : list ascii) : list (list ascii) :=
  match l with
  | [] => match word with [] => [] | _ => [word] end
  | c :: l' =>
      if DataProcessor.isspace c
      then match word with
           | [] => split_from [] l'
           | _ => word :: split_from [] l'
           end
      else split_from (word ++ [c]) l'
  end.

Definition split (l : list ascii) : list (list ascii) := split_from [] l.

(** [c.isupper()] and [c.lower()] on the code points below 256: the
    letters A to Z and the capital letters of Latin-1, each 32 below its
    small letter. *)
Definition isupper (c : ascii) : bool :=
  let n := nat_of_ascii c in
  ((65 <=? n) && (n <=? 90) || (192 <=? n) && (n <=? 214)
   || (216 <=? n) && (n <=? 222))%nat.

Definition lower_char (c : ascii) : ascii :=
  if isupper c then ascii_of_nat (nat_of_ascii c + 32) else c.

Definition lower (l : list ascii) : list ascii := map lower_char l.

(** [text.count(c)] for one character, and [sum(1 for c in text if p(c))]. *)
Definition count (p : ascii -> bool) (l : list ascii) : Z :=
  Z.of_nat (length (List.filter p l)).

(** [len(re.findall(r'[...]+', text))]: the number of maximal runs of
    characters of the class [p]. *)
Fixpoint count_runs (p : ascii -> bool) (in_run : bool) (l : list ascii)
  : nat :=
  match l with
  | [] => 0
  | c :: l' =>
      if p c
      then (if in_run then count_runs p true l'
            else S (count_runs p true l'))
      else count_runs p false l'
  end.

(** [c.isdigit()] as [\d] reads it, and [int(c)] of such a character. *)
Definition isdigit (c : ascii) : bool :=
  let n := nat_of_ascii c in ((48 <=? n) && (n <=? 57))%nat.

Definition int_of_digit (c : ascii) : Z := (Z.of_nat (nat_of_ascii c) - 48)%Z.

End PyStr.

(** ** [models/inference.py]: OpenWeightsModel *)

Record ModelOutput : Type := mkModelOutput {
  output_text : string;
  output_confidence : Q;
  tokens_used : Z;
  output_processing_time : Q
}.

(** What one call of the text-generation pipeline (with the tokenizer's
    count) gives: a text and a number of tokens, or an exception with its
    message [str(e)]. *)
Inductive generation : Type :=
  | Generated (generated_text : string) (tokens : Z)
  | GenerationError (message : string).

(** The state a model reads while it generates: how many calls of the
    pipeline were made (the pipeline samples, so two calls on one prompt
    may differ) and how often the clock was read. *)
Record Runtime : Type := mkRuntime {
  pipeline_calls : nat;
  time_reads : nat
}.

Inductive outcome (A : Type) : Type :=
  | Ok (a : A)
  | Failed (message : string).

Arguments Ok {A} a.
Arguments Failed {A} message.

Module OpenWeightsModel.

Definition _calculate_confidence (prompt generated_text : string) : Q :=
  let prompt := list_ascii_of_string prompt in
  let generated_text := list_ascii_of_string generated_text in
  let confidence := 0.5 in
  let words := length (PyStr.split generated_text) in
  let confidence :=
    if ((10 <=? words) && (words <=? 100))%nat then confidence + 0.2
    else confidence in
  let confidence :=
    if existsb (fun punct => DataProcessor.char_in punct generated_text)
         (list_ascii_of_string ".!?")
    then confidence + 0.1 else confidence in
  let prompt_words := remove_dups (PyStr.split (PyStr.lower prompt)) in
  let generated_words :=
    remove_dups (PyStr.split (PyStr.lower generated_text)) in
  let confidence :=
    match list_intersection prompt_words generated_words with
    | [] => confidence
    | _ => confidence + 0.2
    end in
  pymin confidence 1.0.

Definition facet_descriptions : list (string * string) :=
  [ ("grammar",
     "grammatical correctness, including syntax, tense usage, and sentence structure");
    ("coherence",
     "logical flow and consistency of ideas throughout the conversation");
    ("fluency", "natural and smooth expression of language");
    ("vocabulary_richness",
     "diversity and sophistication of vocabulary used");
    ("clarity", "how clear and understandable the message is");
    ("appropriateness", "suitability of the response given the context");
    ("politeness",
     "level of courtesy and respectfulness in the conversation");
    ("relevance", "how relevant the response is to the conversation topic");
    ("toxicity", "presence of harmful, offensive, or toxic content");
    ("empathy", "demonstration of understanding and caring for others");
    ("sentiment", "overall emotional tone of the conversation") ]%string.

Definition nl : string := String PyStr.newline EmptyString.
Definition dq : string := String DataProcessor.double_quote EmptyString.

(** [facet.replace(old, new)] on strings. *)
Definition str_replace (old new s : string) : string :=
  string_of_list_ascii
    (DataProcessor.replace (list_ascii_of_string old)
       (list_ascii_of_string new) (list_ascii_of_string s)).

Definition _create_evaluation_prompt (conversation facet : string) : string :=
  let description :=
    match dict_get facet facet_descriptions with
    | Some d => d
    | None => "quality of " +:+ str_replace "_" " " facet
    end in
  let prompt :=
    nl +:+ "You are an expert conversation analyst. Evaluate the following conversation turn for "
    +:+ description +:+ "." +:+ nl
    +:+ nl
    +:+ "Conversation: " +:+ dq +:+ conversation +:+ dq +:+ nl
    +:+ nl
    +:+ "Please evaluate this conversation on a scale of 1-5 where:" +:+ nl
    +:+ "1 = Very Poor" +:+ nl
    +:+ "2 = Poor  " +:+ nl
    +:+ "3 = Average" +:+ nl
    +:+ "4 = Good" +:+ nl
    +:+ "5 = Excellent" +:+ nl
    +:+ nl
    +:+ "Provide your evaluation in the following format:" +:+ nl
    +:+ "Score: [1-5]" +:+ nl
    +:+ "Reasoning: [Brief explanation for your score]" +:+ nl
    +:+ nl
    +:+ "Evaluation:" +:+ nl in
  string_of_list_ascii (DataProcessor.strip (list_ascii_of_string prompt)).

(** [re.search(r'Score:\s*(\d)', text)]: the group of the leftmost match.
    At a given start the white space is taken greedily, and giving some of
    it back only puts white space where the digit should be. *)
Definition score_at (l : list ascii) : option ascii :=
  if DataProcessor.starts_with (list_ascii_of_string "Score:") l then
    match DataProcessor.lstrip (drop 6 l) with
    | c :: _ => if PyStr.isdigit c then Some c else None
    | [] => None
    end
  else None.

Fixpoint search_score (l : list ascii) : option ascii :=
  match score_at l with
  | Some c => Some c
  | None =>
      match l with
      | [] => None
      | _ :: l' => search_score l'
      end
  end.

(** The characters up to the first line feed. *)
Fixpoint until_newline (l : list ascii) : list ascii :=
  match l with
  | [] => []
  | c :: l' => if Ascii.eqb c PyStr.newline then [] else c :: until_newline l'
  end.

(** [re.search(r'Reasoning:\s*(.+?)(?:\n|$)', text, re.DOTALL)]: the group
    of the leftmost match.  After the white space the group takes one
    character and then as few as it can up to a line feed or the end; when
    the white space runs to the end of the text, its last character is
    given back to the group. *)
Definition reasoning_at (l : list ascii) : option (list ascii) :=
  if DataProcessor.starts_with (list_ascii_of_string "Reasoning:") l then
    let rest := drop 10 l in
    match DataProcessor.lstrip rest with
    | c :: l' => Some (c :: until_newline l')
    | [] =>
        match last rest with
        | Some c => Some [c]
        | None => None
        end
    end
  else None.

Fixpoint search_reasoning (l : list ascii) : option (list ascii) :=
  match reasoning_at l with
  | Some g => Some g
  | None =>
      match l with
      | [] => None
      | _ :: l' => search_reasoning l'
      end
  end.

Definition _parse_evaluation_output (facet : string) (output : ModelOutput)
  : EvaluationResult :=
  let text := DataProcessor.strip (list_ascii_of_string (output_text output)) in
  let score :=
    match search_score text with
    | Some c => Z.max 1 (Z.min 5 (PyStr.int_of_digit c))
    | None => 3%Z
    end in
  let reasoning :=
    match search_reasoning text with
    | Some g => string_of_list_ascii (DataProcessor.strip g)
    | None => "Unable to parse evaluation"%string
    end in
  mkEvaluationResult facet score (output_confidence output) reasoning.

Section Loaded.
(** [self.pipeline], [None] until the model is loaded, and the values of
    [time.time()]. *)
Variable pipeline : option (nat -> string -> generation).
Variable clock : nat -> Q.

Definition generate (prompt : string) (rt : Runtime)
  : outcome ModelOutput * Runtime :=
  match pipeline with
  | None => (Failed "Model not loaded. Call load_model() first.", rt)
  | Some run =>
      let start_time := clock (time_reads rt) in
      match run (pipeline_calls rt) prompt with
      | GenerationError message =>
          (Failed message,
           mkRuntime (S (pipeline_calls rt)) (S (time_reads rt)))
      | Generated generated_text tokens =>
          let confidence := _calculate_confidence prompt generated_text in
          let processing_time := clock (S (time_reads rt)) - start_time in
          (Ok (mkModelOutput generated_text confidence tokens
                 processing_time),
           mkRuntime (S (pipeline_calls rt)) (S (S (time_reads rt))))
      end
  end.

(** The body of the loop over [facets], with its [try] and [except]. *)
Definition evaluate_facet (conversation : string)
    (acc : list EvaluationResult * Runtime) (facet : string)
  : list EvaluationResult * Runtime :=
  let '(results, rt) := acc in
  let prompt := _create_evaluation_prompt conversation facet in
  match generate prompt rt with
  | (Ok output, rt') =>
      (results ++ [_parse_evaluation_output facet output], rt')
  | (Failed message, rt') =>
      (results
       ++ [mkEvaluationResult facet 3 0.0
             ("Error during evaluation: " +:+ message)],
       rt')
  end.

Definition evaluate_conversation (conversation : string)
    (facets : list string) (rt : Runtime)
  : list EvaluationResult * Runtime :=
  fold_left (evaluate_facet conversation) facets ([], rt).

Definition batch_evaluate (conversations facets : list string)
    (rt : Runtime) : list (list EvaluationResult) * Runtime :=
  fold_left
    (fun '(results, rt) conversation =>
       let '(conv_results, rt') :=
         evaluate_conversation conversation facets rt in
       (results ++ [conv_results], rt'))
    conversations ([], rt).
End Loaded.

End OpenWeightsModel.

(** ** [data/processor.py]: features, batches and facet definitions *)

Record Features : Type := mkFeatures {
  word_count : Z;
  char_count : Z;
  sentence_count : Z;
  avg_word_length : Q;
  question_count : Z;
  exclamation_count : Z;
  uppercase_ratio : Q;
  punctuation_ratio : Q;
  unique_word_ratio : Q;
  avg_sentence_length : Q
}.

Record FacetDefinition : Type := mkFacetDefinition {
  facet_name : string;
  facet_category : string;
  facet_description : string;
  facet_keywords : list string;
  facet_weight : Q
}.

Record EvaluationData : Type := mkEvaluationData {
  data_conversations : list ConversationTurn;
  data_facets : list string;
  data_facet_definitions : list (string * FacetDefinition);
  data_features : list Features
}.

Module Processing.

(** [a / b if guard else 0]: the division is evaluated only under its
    guard. *)
Definition guarded_div (guard : bool) (a b : Q) : result Q :=
  if guard then pydiv a b else Return 0.

Definition extract_features (conversation : ConversationTurn)
  : result Features :=
  let text := list_ascii_of_string (text conversation) in
  let word_count := Z.of_nat (length (PyStr.split text)) in
  let char_count := Z.of_nat (length text) in
  let sentence_count :=
    Z.of_nat
      (PyStr.count_runs
         (fun c => DataProcessor.char_in c (list_ascii_of_string ".!?"))
         false text) in
  let word_lengths :=
    map (fun word => Z.of_nat (length word)) (PyStr.split text) in
  match guarded_div (negb (Nat.eqb (length word_lengths) 0))
          (ofZ (sumZ word_lengths)) (lenQ word_lengths) with
  | Raise e => Raise e
  | Return avg_word_length =>
  let question_count := PyStr.count (Ascii.eqb "?"%char) text in
  let exclamation_count := PyStr.count (Ascii.eqb "!"%char) text in
  match guarded_div (negb (Nat.eqb (length text) 0))
          (ofZ (PyStr.count PyStr.isupper text)) (lenQ text) with
  | Raise e => Raise e
  | Return uppercase_ratio =>
  match guarded_div (negb (Nat.eqb (length text) 0))
          (ofZ (PyStr.count
                  (fun c => DataProcessor.char_in c
                              (list_ascii_of_string ".,!?;:")) text))
          (lenQ text) with
  | Raise e => Raise e
  | Return punctuation_ratio =>
  let words := PyStr.split text in
  match guarded_div (negb (Nat.eqb (length words) 0))
          (lenQ (remove_dups words)) (lenQ words) with
  | Raise e => Raise e
  | Return unique_word_ratio =>
  match guarded_div (0 <? sentence_count)%Z
          (ofZ word_count) (ofZ sentence_count) with
  | Raise e => Raise e
  | Return avg_sentence_length =>
      Return (mkFeatures word_count char_count sentence_count
                avg_word_length question_count exclamation_count
                uppercase_ratio punctuation_ratio unique_word_ratio
                avg_sentence_length)
  end end end end end.

(** [create_conversation_batches]: [range] refuses a zero step and is
    empty for a negative one. *)
Definition create_conversation_batches
    (conversations : list ConversationTurn) (batch_size : Z)
  : result (list (list ConversationTurn)) :=
  if (batch_size =? 0)%Z
  then Raise (ValueError "range() arg 3 must not be zero")
  else if (batch_size <? 0)%Z then Return []
  else Return (chunks (length conversations) (Z.to_nat batch_size)
                 conversations).

Definition keyword_mapping : list (string * list string) :=
  [ ("grammar", ["syntax"; "tense"; "subject-verb"; "punctuation"]);
    ("coherence", ["logical"; "consistent"; "connected"; "flow"]);
    ("fluency", ["smooth"; "natural"; "effortless"; "articulate"]);
    ("vocabulary_richness",
     ["diverse"; "varied"; "sophisticated"; "expressive"]);
    ("clarity", ["clear"; "understandable"; "precise"; "unambiguous"]);
    ("appropriateness", ["suitable"; "proper"; "fitting"; "relevant"]);
    ("politeness", ["courteous"; "respectful"; "civil"; "mannerly"]);
    ("toxicity", ["offensive"; "harmful"; "abusive"; "hostile"]);
    ("empathy", ["understanding"; "compassionate"; "caring"; "supportive"]);
    ("sentiment", ["positive"; "negative"; "neutral"; "emotional"]) ]%string.

Definition _generate_keywords (facet_name : string) : list string :=
  match dict_get facet_name keyword_mapping with
  | Some keywords => keywords
  | None => [OpenWeightsModel.str_replace "_" " " facet_name]
  end.

Section WithFacets.
(** [config.get('facets', {})]: the facet names of each category. *)
Variable config_facets : list (string * list string).

Definition _load_facet_definitions : list (string * FacetDefinition) :=
  fold_left
    (fun facets '(category, facet_names) =>
       fold_left
         (fun facets facet_name =>
            dict_set facet_name
              (mkFacetDefinition facet_name category
                 ("Evaluates "
                  +:+ OpenWeightsModel.str_replace "_" " " facet_name
                  +:+ " in conversations")
                 (_generate_keywords facet_name) 1.0)
              facets)
         facet_names facets)
    config_facets [].

(** [self.facets], set once by the constructor. *)
Definition facets : list (string * FacetDefinition) :=
  _load_facet_definitions.

(** The loop that appends the features of each conversation. *)
Fixpoint features_of (conversations : list ConversationTurn)
  : result (list Features) :=
  match conversations with
  | [] => Return []
  | conv :: conversations' =>
      match extract_features conv with
      | Raise e => Raise e
      | Return features =>
          match features_of conversations' with
          | Raise e => Raise e
          | Return rest => Return (features :: rest)
          end
      end
  end.

Definition prepare_evaluation_data (conversations : list ConversationTurn)
    (requested : list string) : result EvaluationData :=
  let valid_facets := List.filter (fun f => dict_mem f facets) requested in
  let facet_definitions :=
    fold_left
      (fun d f =>
         match dict_get f facets with
         | Some definition => dict_set f definition d
         | None => d
         end)
      valid_facets [] in
  match features_of conversations with
  | Raise e => Raise e
  | Return features =>
      Return (mkEvaluationData conversations valid_facets facet_definitions
                features)
  end.
End WithFacets.

End Processing.

(** * The vocabulary of the specification *)

(** ** Data-model invariants *)

(** The data model's invariants: a configured weight is a positive real, a
    confidence lies in [0,1]. *)
Definition positive_weights (config_weights : gmap string Q) : Prop :=
  map_Forall (fun _ w => 0 < w) config_weights.

(** The weaker condition under which the weighted score is stated: no
    configured weight is negative (zero weights are allowed). *)
Definition nonnegative_weights (config_weights : gmap string Q) : Prop :=
  map_Forall (fun _ w => 0 <= w) config_weights.

Definition valid_confidence (r : EvaluationResult) : Prop :=
  0 <= confidence r /\ confidence r <= 1.

(** ** The specification on its own terms *)

(** The formulas of the specification written without any function of the
    embedding of the code: sums as right-nested additions, the registry as
    one table of facet, category and weight, [max(0, x)] and the clamp to
    [0,1] by comparison of rationals. *)
Module Spec.

Definition total (xs : list Q) : Q := fold_right Qplus 0 xs.

Definition count {A} (xs : list A) : Q := inject_Z (Z.of_nat (length xs)).

Definition max0 (x : Q) : Q := if Qle_bool 0 x then x else 0.

Definition clamp01 (x : Q) : Q :=
  if Qle_bool x 0 then 0 else if Qle_bool 1 x then 1 else x.

(** The facet registry: facet name, category, built-in weight. *)
Definition registry : list (string * (string * Q)) :=
  [ ("grammar", ("linguistic_quality", 1.0));
    ("coherence", ("linguistic_quality", 1.2));
    ("fluency", ("linguistic_quality", 1.0));
    ("vocabulary_richness", ("linguistic_quality", 0.8));
    ("clarity", ("linguistic_quality", 1.3));
    ("appropriateness", ("pragmatics", 1.5));
    ("relevance", ("pragmatics", 1.4));
    ("politeness", ("pragmatics", 1.1));
    ("context_understanding", ("pragmatics", 1.3));
    ("toxicity", ("safety", 2.0));
    ("bias", ("safety", 1.8));
    ("harmful_content", ("safety", 2.0));
    ("hate_speech", ("safety", 2.0));
    ("empathy", ("emotion", 1.2));
    ("sentiment", ("emotion", 1.0));
    ("emotional_appropriateness", ("emotion", 1.1)) ]%string.

Fixpoint row (f : string) (rows : list (string * (string * Q)))
  : option (string * Q) :=
  match rows with
  | [] => None
  | (name, entry) :: rows' =>
      if String.eqb f name then Some entry else row f rows'
  end.

(** A weight of the configuration overrides the built-in one by exact key;
    a facet the registry does not know has weight 1.0 and category
    [other]. *)
Definition weight_of (overrides : gmap string Q) (f : string) : Q :=
  match overrides !! f with
  | Some w => w
  | None => match row f registry with
            | Some (_, w) => w
            | None => 1.0
            end
  end.

Definition category_of (f : string) : string :=
  match row f registry with
  | Some (category, _) => category
  | None => "other"%string
  end.

Definition categories : list string :=
  ["linguistic_quality"; "pragmatics"; "safety"; "emotion"; "other"]%string.



(** Mean and population variance of integer scores. *)
Definition mean (xs : list Z) : Q := total (map inject_Z xs) / count xs.

Definition variance (xs : list Z) : Q :=
  total (map (fun x => (inject_Z x - mean xs) * (inject_Z x - mean xs)) xs)
  / count xs.

Definition average (xs : list Q) : Q := total xs / count xs.

Definition identical (xs : list Z) : Prop :=
  forall x y, In x xs -> In y xs -> x = y.

(** Consistency score: the scores of the judgments of one category, the
    categories with at least two members, and the value of one of them. *)
Definition members (c : string) (J : list EvaluationResult) : list Z :=
  map score (List.filter (fun r => String.eqb (category_of (facet r)) c) J).

Definition multi_member_categories (J : list EvaluationResult)
  : list (list Z) :=
  List.filter (fun scores => (2 <=? length scores)%nat)
    (map (fun c => members c J) categories).

Definition consistency_value (scores : list Z) : Q :=
  max0 (1 - variance scores / 4).

(** Consensus: the confidence-weighted mean of the scores the models gave. *)
Definition weighted_mean (js : list (string * EvaluationResult)) : Q :=
  total (map (fun j => inject_Z (score (snd j)) * confidence (snd j)) js)
  / total (map (fun j => confidence (snd j)) js).

End Spec.

(** ** The loops of the code in closed form *)

(** The two sums that the loop of [calculate_weighted_score] accumulates. *)
Definition weighted_numerator (config_weights : gmap string Q)
    (J : list EvaluationResult) : Q :=
  sumQ (map (fun r => ofZ (score r)
                      * FacetEvaluator.weight_of config_weights (facet r)
                      * confidence r) J).

Definition weighted_denominator (config_weights : gmap string Q)
    (J : list EvaluationResult) : Q :=
  sumQ (map (fun r => FacetEvaluator.weight_of config_weights (facet r)
                      * confidence r) J).

(** What the grouping loop and the loop over the categories of
    [analyze_facet_consistency] compute: the scores of each category, and
    the consistency of each category with at least two members. *)
Definition category_of (r : EvaluationResult) : string :=
  FacetEvaluator._get_facet_category (facet r).

Definition category_scores (c : string) (J : list EvaluationResult) : list Z :=
  map score (List.filter (fun r => String.eqb (category_of r) c) J).

Definition all_categories : list string :=
  ["linguistic_quality"; "pragmatics"; "safety"; "emotion"; "other"]%string.

Definition mean (xs : list Z) : Q := ofZ (sumZ xs) / lenQ xs.

Definition population_variance (xs : list Z) : Q :=
  sumQ (map (fun x => (ofZ x - mean xs) ^ 2) xs) / lenQ xs.

Definition category_consistency (scores : list Z) : Q :=
  pymax 0 (1 - population_variance scores / 4).

Definition multi_member (scores : list Z) : bool := (2 <=? length scores)%nat.

Definition category_consistencies (J : list EvaluationResult) : list Q :=
  map category_consistency
    (List.filter multi_member
       (map (fun c => category_scores c J) all_categories)).

Definition average (xs : list Q) : Q := sumQ xs / lenQ xs.

Definition identical (xs : list Z) : Prop :=
  forall x y, In x xs -> In y xs -> x = y.

(** What the grouping loop has built after the judgments [J]: one key per
    category met, bound to the scores of that category in order. *)
Definition grouped (J : list EvaluationResult) (d : list (string * list Z))
  : Prop :=
  NoDup (dict_keys d) /\
  forall c, dict_get c d
            = if FacetEvaluator.str_in c (map category_of J)
              then Some (category_scores c J) else None.

(** ** Comparison of the evaluations of several models *)

(** The results the models produced for [facet], in the order of
    [evaluations.items()]. *)
Definition judged (evaluations : list (string * ConversationEvaluation))
    (facet : string) : list (string * EvaluationResult) :=
  flat_map
    (fun '(model, evaluation) =>
       match dict_get facet (facet_scores evaluation) with
       | Some r => [(model, r)]
       | None => []
       end)
    evaluations.

Definition model_scores (js : list (string * EvaluationResult))
  : list (string * Z) := map (fun '(m, r) => (m, score r)) js.

Definition model_confidences (js : list (string * EvaluationResult))
  : list (string * Q) := map (fun '(m, r) => (m, confidence r)) js.

Definition judged_scores (js : list (string * EvaluationResult)) : list Z :=
  map (fun '(_, r) => score r) js.

Definition is_maximum (hi : Z) (xs : list Z) : Prop :=
  In hi xs /\ forall x, In x xs -> (x <= hi)%Z.

Definition is_minimum (lo : Z) (xs : list Z) : Prop :=
  In lo xs /\ forall x, In x xs -> (lo <= x)%Z.

Definition weighted_mean (js : list (string * EvaluationResult)) : Q :=
  sumQ (map (fun '(_, r) => ofZ (score r) * confidence r) js)
  / sumQ (map (fun '(_, r) => confidence r) js).

(** What one facet contributes to the four maps, if anything. *)
Definition facet_entry (evaluations : list (string * ConversationEvaluation))
    (facet : string)
  : option (Q * list (string * Z) * list (string * Q) * Q) :=
  let '(fs, fc) := fold_left (collect_step facet) evaluations ([], []) in
  if (2 <=? length fs)%nat
  then Some (facet_agreement (dict_values fs), fs, fc, facet_consensus fs fc)
  else None.

Definition lookup4 (c : Comparison) (facet : string) :=
  (model_agreements c !! facet, score_differences c !! facet,
   confidence_comparison c !! facet, consensus_scores c !! facet).

Definition entry4 (e : option (Q * list (string * Z) * list (string * Q) * Q))
    (otherwise : option Q * option (list (string * Z))
                 * option (list (string * Q)) * option Q) :=
  match e with
  | Some (a, sd, cc, cs) => (Some a, Some sd, Some cc, Some cs)
  | None => otherwise
  end.

(** ** Text cleaning *)

(** Texts made of characters the filter keeps, and texts without white
    space at their start or at their end. *)
Definition all_kept (l : list ascii) : Prop :=
  forallb DataProcessor.kept l = true.

Definition no_lead (l : list ascii) : Prop :=
  match l with
  | [] => True
  | c :: _ => DataProcessor.isspace c = false
  end.

Definition no_trail (l : list ascii) : Prop := no_lead (rev l).

(** The texts on which [clean_chars] changes nothing. *)
Definition clean_normal (l : list ascii) : Prop :=
  all_kept l /\ no_lead l /\ no_trail l /\
  DataProcessor.sub_spaces false l = l /\
  DataProcessor.ensure_sentence_ending l = l.

(** ** Model acquisition and batches *)

(** The model name [evaluate_conversation] asks for, and what the model
    manager answers in the state [w]: the cached model, or the outcome of
    a new load. *)
Definition requested_model (default_model : option string)
    (name : option string) : option string :=
  if truthy name then name else default_model.

Definition acquires (backend : nat -> option string -> result Model)
    (w : World) (name : option string) : result Model :=
  match models w !! name with
  | Some model => Return model
  | None => backend (load_attempts w) name
  end.

(** The outcomes of the evaluations of a batch, one per conversation, in
    the order of the conversations. *)
Definition batch_outcomes (config_weights : gmap string Q)
    (default_model : option string) (facet_batch_size : Z)
    (clock : nat -> Q) (backend : nat -> option string -> result Model)
    (conversations : list conversation_input) (facets : list string)
    (name : option string) (w : World)
  : list (result ConversationEvaluation) :=
  fst (run_all
         (batch_tasks config_weights default_model facet_batch_size clock
            backend conversations facets name)
         (snd (time_time clock w))).

(** ** Concrete runs *)

(** A process for the concrete runs below: ten clock readings per second
    from 1700000000 on, the configuration of an engine without weight
    overrides whose default model is the stand-in, sub-batches of ten, and
    a loader that either always succeeds or fails on its first attempt
    only.  The square root is not used by any of them. *)
Definition tenth_clock (n : nat) : Q :=
  1700000000 + inject_Z (Z.of_nat n) / 10.

Definition always_loads (attempt : nat) (name : option string) : result Model :=
  Return mock_model.

Definition fails_first (attempt : nat) (name : option string) : result Model :=
  match attempt with
  | O => Raise (ModelLoadError name)
  | S _ => Return mock_model
  end.

Definition no_sqrt (x : Q) : Q := x.

(** The scenario of the specification, with the default registry. *)
Definition scenario_judgments : list EvaluationResult :=
  [ mkEvaluationResult "grammar" 5 0.9 "";
    mkEvaluationResult "clarity" 4 0.8 "";
    mkEvaluationResult "toxicity" 1 0.95 "" ].

(** Two judgments of one category and one of another. *)
Definition mixed_judgments : list EvaluationResult :=
  [ mkEvaluationResult "grammar" 5 0.9 "";
    mkEvaluationResult "clarity" 3 0.9 "";
    mkEvaluationResult "toxicity" 1 0.9 "" ].

Definition single_judgment : EvaluationResult :=
  mkEvaluationResult "coherence" 4 0.11 "".

Definition two_models : list (string * ConversationEvaluation) :=
  [ ("model_a"%string,
     mkConversationEvaluation "c" "t"
       [("grammar"%string, mkEvaluationResult "grammar" 5 0.9 "")]
       (mkConfidenceMetrics 0.9 0.9 1.0 0.0) 0 "model_a" 0);
    ("model_b"%string,
     mkConversationEvaluation "c" "t"
       [("grammar"%string, mkEvaluationResult "grammar" 1 0.1 "")]
       (mkConfidenceMetrics 0.1 0.1 1.0 0.0) 0 "model_b" 0) ].

(** ** Vocabulary of the further properties *)

(** A judgment whose score lies between [lo] and [hi], a value in [0,1],
    and confidence metrics that all lie in [0,1]. *)
Definition score_within (lo hi : Z) (r : EvaluationResult) : Prop :=
  (lo <= score r <= hi)%Z.

Definition unit_interval (x : Q) : Prop := 0 <= x /\ x <= 1.

Definition valid_metrics (m : ConfidenceMetrics) : Prop :=
  unit_interval (overall_confidence m) /\
  unit_interval (model_confidence m) /\
  unit_interval (consistency_score m) /\
  unit_interval (uncertainty_estimate m).

(** The per-model scores and confidences of a facet list the same models
    in the same order, none twice, all of them keys of the evaluations. *)
Definition aligned (evaluations : list (string * ConversationEvaluation))
    (fs : list (string * Z)) (fc : list (string * Q)) : Prop :=
  dict_keys fs = dict_keys fc /\ NoDup (dict_keys fs) /\
  forall m, m ∈ dict_keys fs -> m ∈ dict_keys evaluations.

(** The text of a conversation argument. *)
Definition input_text (c : conversation_input) : string :=
  match c with
  | RawText s => s
  | Turn t => text t
  end.

(** The state after [n] more readings of the clock. *)
Definition tick (n : nat) (w : World) : World :=
  mkWorld (n + clock_reads w) (load_attempts w) (models w) (current_model w).

(** The readings [evaluate_conversation] spends on the identifier, and the
    identifier it settles on, in the state [w] of the call. *)
Definition id_reads (conversation_id : option string) : nat :=
  if truthy conversation_id then 0 else 1.

Definition settled_id (clock : nat -> Q) (conversation_id : option string)
    (w : World) : string :=
  match conversation_id with
  | Some id =>
      if truthy conversation_id then id
      else "conv_" +:+ pretty (int_of_float (clock (S (clock_reads w))))
  | None => "conv_" +:+ pretty (int_of_float (clock (S (clock_reads w))))
  end.

(** The results of a model on the sub-batches, one after the other. *)
Definition judgments (model : Model) (conversation : string)
    (batches : list (list string)) : list EvaluationResult :=
  fold_left
    (fun all_results batch =>
       all_results ++ model_evaluate_conversation model conversation batch)
    batches [].

(** The dictionary built from a list of results. *)
Definition scores_dict (results : list EvaluationResult)
  : list (string * EvaluationResult) :=
  fold_left (fun d r => dict_set (facet r) r d) results [].

(** A model that judges facet by facet: its results on a list of facets
    are its results on the parts of the list, in order. *)
Definition facetwise (model : Model) : Prop :=
  forall conversation xs ys,
    model_evaluate_conversation model conversation (xs ++ ys)
    = model_evaluate_conversation model conversation xs
      ++ model_evaluate_conversation model conversation ys.

(** What [evaluate_conversation] computes once the model is acquired, in
    the state [w] before the call and [w2] after the acquisition. *)
Definition evaluation_of (config_weights : gmap string Q)
    (facet_batch_size : Z) (clock : nat -> Q)
    (conversation : conversation_input) (facets : list string)
    (conversation_id : option string) (model : Model) (w w2 : World)
  : result ConversationEvaluation * World :=
  let clean_text :=
    DataProcessor.clean_conversation_text (input_text conversation) in
  match facet_batches facet_batch_size facets with
  | Raise e => (Raise e, w2)
  | Return batches =>
      let results := judgments model clean_text batches in
      match _calculate_confidence_metrics config_weights results with
      | Raise e => (Raise e, w2)
      | Return metrics =>
          (Return
             (mkConversationEvaluation
                (settled_id clock conversation_id w) clean_text
                (scores_dict results) metrics
                (clock (clock_reads w2) - clock (clock_reads w))
                (model_name model) (clock (S (clock_reads w2)))),
           tick 2 w2)
      end
  end.

(** The weights of the facets that were judged. *)
Definition judged_weights (config_weights : gmap string Q)
    (results : list EvaluationResult) : list Q :=
  map (fun r => FacetEvaluator.weight_of config_weights (facet r)) results.

(** The last result of a list that judges the facet [f]. *)
Definition last_for (f : string) (results : list EvaluationResult)
  : option EvaluationResult :=
  last (List.filter (fun r => String.eqb (facet r) f) results).

(** A concrete evaluation: a caller's identifier, a repeated facet and
    sub-batches of two. *)
Definition sample_run : result ConversationEvaluation * World :=
  evaluate_conversation ∅ (Some "mock"%string) 2 tenth_clock always_loads
    (RawText "hi  there") ["grammar"; "clarity"; "grammar"]%string
    (Some "c1"%string) None initial_world.

(** The results a batch of evaluations holds for the facet [f], one per
    evaluation that judged it. *)
Definition facet_results (evaluations : list ConversationEvaluation)
    (f : string) : list EvaluationResult :=
  flat_map (fun evaluation =>
              match dict_get f (facet_scores evaluation) with
              | Some result => [result]
              | None => []
              end) evaluations.

(** What the statistics record of a facet satisfies. *)
Definition statistics_sound (evaluations : list ConversationEvaluation)
    (f : string) (st : FacetStatistics) : Prop :=
  let results := facet_results evaluations f in
  evaluation_count st = length results /\
  (1 <= evaluation_count st <= length evaluations)%nat /\
  mean_score st = mean (map score results) /\
  min_score st = min_of (map score results) /\
  max_score st = max_of (map score results) /\
  (min_score st <= max_score st)%Z /\
  ofZ (min_score st) <= mean_score st /\
  mean_score st <= ofZ (max_score st) /\
  mean_confidence st = average (map confidence results).

(** A loader that names the model it returns after the name it was asked
    for, as the constructor of [OpenWeightsModel] does. *)
Definition names_models (backend : nat -> option string -> result Model)
  : Prop :=
  forall attempt key model,
    backend attempt key = Return model -> key = Some (model_name model).

(** Every cached model sits under its own name, and the current model is
    a cached one. *)
Definition cache_consistent (w : World) : Prop :=
  (forall key model,
     models w !! key = Some model -> key = Some (model_name model)) /\
  (forall model,
     current_model w = Some model ->
     models w !! Some (model_name model) = Some model).

(** A loader that names its models, for the concrete runs. *)
Definition named_loader (attempt : nat) (key : option string)
  : result Model :=
  match key with
  | Some name =>
      Return (mkModel name (model_evaluate_conversation mock_model))
  | None => Raise (ModelLoadError None)
  end.

(** [p in text] for a pattern of characters. *)
Fixpoint occurs (p l : list ascii) : bool :=
  DataProcessor.starts_with p l
  || match l with
     | [] => false
     | _ :: l' => occurs p l'
     end.

(** The two tags the parser looks for. *)
Definition score_tag : list ascii := list_ascii_of_string "Score:".
Definition reasoning_tag : list ascii := list_ascii_of_string "Reasoning:".

(** A result as the data model wants it: a score from 1 to 5 and a
    confidence in [0,1]. *)
Definition valid_result (r : EvaluationResult) : Prop :=
  score_within 1 5 r /\ valid_confidence r.

(** The decimal digit [d] as a character, and the answer the prompt asks
    for: a score line and a reasoning line. *)
Definition digit_char (d : nat) : ascii := ascii_of_nat (48 + d).

Definition formatted_answer (d : nat) (r : list ascii) : list ascii :=
  list_ascii_of_string "Score: " ++ [digit_char d; PyStr.newline]
  ++ list_ascii_of_string "Reasoning: " ++ r.

(** A reasoning of one line, not empty, without white space at its ends. *)
Definition one_line (r : list ascii) : Prop :=
  r <> [] /\ no_lead r /\ no_trail r /\
  forallb (fun c => negb (Ascii.eqb c PyStr.newline)) r = true.

(** The result that stands in for a facet whose evaluation raised. *)
Definition error_result (f message : string) : EvaluationResult :=
  mkEvaluationResult f 3 0.0 ("Error during evaluation: " +:+ message).

(** A pipeline that always gives the same answer, for the concrete
    runs. *)
Definition constant_pipeline (answer : string) (call : nat) (prompt : string)
  : generation := Generated answer 0.

(** A text that is empty or ends in a full stop, an exclamation mark or a
    question mark. *)
Definition sentence_ended (l : list ascii) : Prop :=
  match last l with
  | None => True
  | Some c => DataProcessor.char_in c (list_ascii_of_string ".!?") = true
  end.

(** The ratios of a feature record lie in [0,1], its counts are not
    negative and none exceeds the number of characters. *)
Definition valid_features (f : Features) : Prop :=
  unit_interval (uppercase_ratio f) /\
  unit_interval (punctuation_ratio f) /\
  unit_interval (unique_word_ratio f) /\
  (0 <= word_count f <= char_count f)%Z /\
  (0 <= sentence_count f <= char_count f)%Z /\
  (0 <= question_count f)%Z /\ (0 <= exclamation_count f)%Z /\
  (question_count f + exclamation_count f <= char_count f)%Z /\
  0 <= avg_word_length f /\ 0 <= avg_sentence_length f.

(** The facet [f] is listed under some category of the configuration. *)
Definition configured (config_facets : list (string * list string))
    (f : string) : Prop :=
  exists category names, In (category, names) config_facets /\ In f names.

(** The definition of [f] is the one the constructor builds for a
    category that lists [f]. *)
Definition defines (config_facets : list (string * list string))
    (f : string) (d : FacetDefinition) : Prop :=
  facet_name d = f /\ facet_weight d = 1.0 /\
  facet_keywords d = Processing._generate_keywords f /\
  exists names, In (facet_category d, names) config_facets /\ In f names.

(** The facets the evaluator files under one of its four categories. *)
Definition categorized_facets : list string :=
  FacetEvaluator.linguistic_facets ++ FacetEvaluator.pragmatic_facets
  ++ FacetEvaluator.safety_facets ++ FacetEvaluator.emotion_facets.

(** * Properties *)

(** ** Arithmetic of the embedding *)

Lemma Qgtb_true (a b : Q) : Qgtb a b = true <-> b < a.
Proof.
  unfold Qgtb. rewrite negb_true_iff. split.
  - intros H. apply Qnot_le_lt. intros Hle.
    apply Qle_bool_iff in Hle. congruence.
  - intros H. destruct (Qle_bool a b) eqn:E; [|reflexivity].
    apply Qle_bool_iff in E. lra.
Qed.

Lemma Qgtb_false (a b : Q) : Qgtb a b = false <-> a <= b.
Proof.
  unfold Qgtb. rewrite negb_false_iff. apply Qle_bool_iff.
Qed.

Lemma pymax_0_l (x : Q) : 0 <= x -> pymax 0 x == x.
Proof.
  intros H. unfold pymax. destruct (Qgtb x 0) eqn:E; [reflexivity|].
  apply Qgtb_false in E. lra.
Qed.

Lemma pymax_spec (a b : Q) :
  (a <= b /\ pymax a b == b) \/ (b <= a /\ pymax a b == a).
Proof.
  unfold pymax. destruct (Qgtb b a) eqn:E.
  - apply Qgtb_true in E. left. split; [lra | reflexivity].
  - apply Qgtb_false in E. right. split; [lra | reflexivity].
Qed.

Lemma pymin_spec (a b : Q) :
  (a <= b /\ pymin a b == a) \/ (b <= a /\ pymin a b == b).
Proof.
  unfold pymin. destruct (Qgtb a b) eqn:E.
  - apply Qgtb_true in E. right. split; [lra | reflexivity].
  - apply Qgtb_false in E. left. split; [lra | reflexivity].
Qed.

Lemma Qdiv_4 (x : Q) : x / 4 == x * (1 # 4).
Proof. reflexivity. Qed.

Lemma Qdiv_2 (x : Q) : x / 2.0 == x * (1 # 2).
Proof. unfold Qdiv. apply Qmult_comp; reflexivity. Qed.

Lemma fold_Qplus_shift (xs : list Q) (a : Q) :
  fold_left Qplus xs a == a + sumQ xs.
Proof.
  unfold sumQ. revert a.
  induction xs as [|x xs IH]; intros a; simpl.
  - lra.
  - rewrite (IH (a + x)), (IH (0 + x)). lra.
Qed.

Lemma sumQ_nil : sumQ [] = 0.
Proof. reflexivity. Qed.

Lemma sumQ_cons (x : Q) (xs : list Q) : sumQ (x :: xs) == x + sumQ xs.
Proof.
  unfold sumQ at 1. simpl. rewrite fold_Qplus_shift. lra.
Qed.

Lemma sumQ_app (xs ys : list Q) : sumQ (xs ++ ys) == sumQ xs + sumQ ys.
Proof.
  induction xs as [|x xs IH]; simpl.
  - rewrite sumQ_nil. lra.
  - rewrite !sumQ_cons, IH. lra.
Qed.

Lemma sumQ_nonneg (xs : list Q) : Forall (fun x => 0 <= x) xs -> 0 <= sumQ xs.
Proof.
  induction 1 as [|x xs Hx _ IH].
  - rewrite sumQ_nil. lra.
  - rewrite sumQ_cons. lra.
Qed.

Lemma pydiv_Return (a b : Q) : ~ b == 0 -> pydiv a b = Return (a / b).
Proof.
  intros H. unfold pydiv. destruct (Qeq_bool b 0) eqn:E; [|reflexivity].
  apply Qeq_bool_iff in E. contradiction.
Qed.

Lemma pydiv_Raise (a b : Q) : b == 0 -> pydiv a b = Raise ZeroDivisionError.
Proof.
  intros H. unfold pydiv. apply Qeq_bool_iff in H. now rewrite H.
Qed.

(** ** The facet registry *)

Section Registry.
Variable config_weights : gmap string Q.

Abbreviation weight_of := (FacetEvaluator.weight_of config_weights).

Lemma weight_of_config (f : string) (w : Q) :
  config_weights !! f = Some w -> weight_of f = w.
Proof.
  intros H. unfold FacetEvaluator.weight_of, FacetEvaluator.facet_weights,
    FacetEvaluator._load_facet_weights.
  now rewrite (lookup_union_Some_l _ _ _ _ H).
Qed.

Lemma weight_of_default (f : string) (w : Q) :
  config_weights !! f = None ->
  FacetEvaluator.default_weights !! f = Some w -> weight_of f = w.
Proof.
  intros Hc Hd. unfold FacetEvaluator.weight_of,
    FacetEvaluator.facet_weights, FacetEvaluator._load_facet_weights.
  rewrite lookup_union_r by exact Hc.
  now rewrite (lookup_union_Some_l _ _ _ _ Hd).
Qed.

Lemma weight_of_unknown (f : string) :
  config_weights !! f = None ->
  FacetEvaluator.default_weights !! f = None -> weight_of f = 1.0.
Proof.
  intros Hc Hd. unfold FacetEvaluator.weight_of,
    FacetEvaluator.facet_weights, FacetEvaluator._load_facet_weights.
  rewrite lookup_union_r by exact Hc.
  rewrite lookup_union_r by exact Hd.
  now rewrite lookup_empty.
Qed.

Lemma default_weights_positive (f : string) (w : Q) :
  FacetEvaluator.default_weights !! f = Some w -> 0 < w.
Proof.
  intros H. apply elem_of_list_to_map_2 in H.
  repeat (apply elem_of_cons in H as [H|H];
          [injection H as _ ->; reflexivity|]).
  now apply elem_of_nil in H.
Qed.

Lemma weight_of_positive (f : string) :
  positive_weights config_weights -> 0 < weight_of f.
Proof.
  intros Hpos.
  destruct (config_weights !! f) as [w|] eqn:Hc.
  - rewrite (weight_of_config _ _ Hc). exact (Hpos _ _ Hc).
  - destruct (FacetEvaluator.default_weights !! f) as [w|] eqn:Hd.
    + rewrite (weight_of_default _ _ Hc Hd).
      exact (default_weights_positive _ _ Hd).
    + rewrite (weight_of_unknown _ Hc Hd). reflexivity.
Qed.

Lemma weight_of_nonnegative (f : string) :
  nonnegative_weights config_weights -> 0 <= weight_of f.
Proof.
  intros Hnn.
  destruct (config_weights !! f) as [w|] eqn:Hc.
  - rewrite (weight_of_config _ _ Hc). exact (Hnn _ _ Hc).
  - destruct (FacetEvaluator.default_weights !! f) as [w|] eqn:Hd.
    + rewrite (weight_of_default _ _ Hc Hd).
      apply Qlt_le_weak. exact (default_weights_positive _ _ Hd).
    + rewrite (weight_of_unknown _ Hc Hd). discriminate.
Qed.
End Registry.

(** ** The weighted score *)

Section WeightedScore.
Variable config_weights : gmap string Q.

Abbreviation weight_of := (FacetEvaluator.weight_of config_weights).
Abbreviation calculate_weighted_score :=
  (FacetEvaluator.calculate_weighted_score config_weights).

Lemma weighted_loop (J : list EvaluationResult) (acc : Q * Q) :
  fst (fold_left (FacetEvaluator.weighted_step config_weights) J acc)
    == fst acc + weighted_numerator config_weights J /\
  snd (fold_left (FacetEvaluator.weighted_step config_weights) J acc)
    == snd acc + weighted_denominator config_weights J.
Proof.
  unfold weighted_numerator, weighted_denominator.
  revert acc. induction J as [|r J IH]; intros [a b]; simpl.
  - rewrite sumQ_nil. split; lra.
  - destruct (IH (FacetEvaluator.weighted_step config_weights (a, b) r))
      as [IH1 IH2].
    rewrite IH1, IH2, !sumQ_cons. simpl. split; lra.
Qed.

Lemma weighted_denominator_nonneg (J : list EvaluationResult) :
  nonnegative_weights config_weights -> Forall valid_confidence J ->
  0 <= weighted_denominator config_weights J.
Proof.
  intros Hw HJ. apply sumQ_nonneg. apply Forall_map.
  eapply Forall_impl; [exact HJ|]. intros r [Hr _]. simpl.
  apply Qmult_le_0_compat; [|exact Hr].
  apply weight_of_nonnegative, Hw.
Qed.

Lemma calculate_weighted_score_cases (J : list EvaluationResult) :
  (0 < weighted_denominator config_weights J ->
   calculate_weighted_score J
     == weighted_numerator config_weights J
        / weighted_denominator config_weights J) /\
  (weighted_denominator config_weights J <= 0 ->
   calculate_weighted_score J == 0).
Proof.
  destruct J as [|r J].
  - unfold weighted_denominator. simpl. rewrite sumQ_nil.
    split; [lra | reflexivity].
  - unfold FacetEvaluator.calculate_weighted_score.
    destruct (weighted_loop (r :: J) (0.0, 0.0)) as [Hn Hd].
    destruct (fold_left _ (r :: J) (0.0, 0.0)) as [tws tw].
    simpl fst in *. simpl snd in *.
    assert (Hn' : tws == weighted_numerator config_weights (r :: J))
      by (rewrite Hn; lra).
    assert (Hd' : tw == weighted_denominator config_weights (r :: J))
      by (rewrite Hd; lra).
    destruct (Qgtb tw 0) eqn:E.
    + apply Qgtb_true in E. split; [|lra].
      intros _. now rewrite Hn', Hd'.
    + apply Qgtb_false in E. split; [lra | reflexivity].
Qed.

End WeightedScore.

Example scenario_weighted_score :
  FacetEvaluator.calculate_weighted_score ∅ scenario_judgments == 2.75.
Proof. vm_compute. reflexivity. Qed.

(** ** Insertion-ordered dictionaries: lookup after update *)

Section DictFacts.
Context {V : Type}.
Implicit Types (d : list (string * V)) (k : string) (v : V).

Lemma dict_get_set_eq d k v : dict_get k (dict_set k v d) = Some v.
Proof.
  induction d as [|[k' v'] d IH]; simpl.
  - now rewrite String.eqb_refl.
  - destruct (String.eqb k k') eqn:E; simpl; rewrite E; [reflexivity|].
    exact IH.
Qed.

Lemma dict_get_set_ne d k k' v :
  k <> k' -> dict_get k' (dict_set k v d) = dict_get k' d.
Proof.
  intros Hne. induction d as [|[k0 v0] d IH]; simpl.
  - apply String.eqb_neq in Hne. rewrite String.eqb_sym in Hne.
    now rewrite Hne.
  - destruct (String.eqb k k0) eqn:E; simpl.
    + apply String.eqb_eq in E. subst k0.
      apply String.eqb_neq in Hne. rewrite String.eqb_sym in Hne.
      now rewrite Hne.
    + now rewrite IH.
Qed.

Lemma dict_get_elem_of d k v : dict_get k d = Some v -> (k, v) ∈ d.
Proof.
  induction d as [|[k0 v0] d IH]; simpl; [discriminate|].
  destruct (String.eqb k k0) eqn:E.
  - apply String.eqb_eq in E. intros [= ->]. subst. apply elem_of_cons.
    now left.
  - intros H. apply elem_of_cons. right. now apply IH.
Qed.

Lemma dict_get_None d k : dict_get k d = None <-> k ∉ dict_keys d.
Proof.
  induction d as [|[k0 v0] d IH]; simpl.
  - split; [intros _; apply not_elem_of_nil | reflexivity].
  - rewrite not_elem_of_cons.
    destruct (String.eqb k k0) eqn:E.
    + apply String.eqb_eq in E. subst. split; [discriminate|].
      intros [H _]. congruence.
    + apply String.eqb_neq in E. rewrite IH. tauto.
Qed.

Lemma elem_of_dict_get d k v :
  NoDup (dict_keys d) -> (k, v) ∈ d -> dict_get k d = Some v.
Proof.
  induction d as [|[k0 v0] d IH]; simpl.
  - intros _ H. now apply elem_of_nil in H.
  - intros Hnd H. apply NoDup_cons in Hnd as [Hnotin Hnd].
    apply elem_of_cons in H as [H|H].
    + injection H as -> ->. now rewrite String.eqb_refl.
    + destruct (String.eqb k k0) eqn:E.
      * apply String.eqb_eq in E. subst. exfalso. apply Hnotin.
        apply list_elem_of_fmap. now exists (k0, v).
      * now apply IH.
Qed.

Lemma dict_keys_set d k v :
  dict_keys (dict_set k v d)
  = if dict_mem k d then dict_keys d else dict_keys d ++ [k].
Proof.
  unfold dict_mem. induction d as [|[k0 v0] d IH]; simpl.
  - reflexivity.
  - destruct (String.eqb k k0) eqn:E; simpl; [reflexivity|].
    unfold dict_keys in *. rewrite IH.
    now destruct (dict_get k d).
Qed.

Lemma dict_set_NoDup d k v :
  NoDup (dict_keys d) -> NoDup (dict_keys (dict_set k v d)).
Proof.
  intros Hnd. rewrite dict_keys_set. unfold dict_mem.
  destruct (dict_get k d) eqn:E; [exact Hnd|].
  apply dict_get_None in E.
  apply NoDup_app. repeat split; try exact Hnd.
  - intros x Hx Hx'. apply list_elem_of_singleton in Hx'. now subst.
  - apply NoDup_singleton.
Qed.

Lemma dict_NoDup_items d : NoDup (dict_keys d) -> NoDup d.
Proof. apply NoDup_fmap_1. Qed.
End DictFacts.

(** ** The consistency score *)

Lemma sumQ_Permutation (xs ys : list Q) : xs ≡ₚ ys -> sumQ xs == sumQ ys.
Proof.
  induction 1 as [|x xs ys _ IH|x y xs|xs ys zs _ IH1 _ IH2].
  - reflexivity.
  - rewrite !sumQ_cons, IH. reflexivity.
  - rewrite !sumQ_cons. lra.
  - now rewrite IH1.
Qed.

Lemma sumQ_zero (xs : list Q) : Forall (fun x => x == 0) xs -> sumQ xs == 0.
Proof.
  induction 1 as [|x xs Hx _ IH].
  - reflexivity.
  - rewrite sumQ_cons, Hx, IH. lra.
Qed.

Lemma sumQ_ones (xs : list Q) :
  Forall (fun x => x == 1) xs -> sumQ xs == lenQ xs.
Proof.
  induction 1 as [|x xs Hx _ IH].
  - reflexivity.
  - unfold lenQ in *. simpl length.
    rewrite Nat2Z.inj_succ, <- Z.add_1_l, inject_Z_plus, <- IH.
    rewrite sumQ_cons, Hx. reflexivity.
Qed.

Lemma lenQ_pos {A} (xs : list A) : xs <> [] -> 0 < lenQ xs.
Proof.
  intros H. destruct xs as [|x xs]; [congruence|].
  unfold lenQ. simpl length. rewrite Nat2Z.inj_succ.
  change 0 with (inject_Z 0). rewrite <- Zlt_Qlt. lia.
Qed.

Lemma Qsquare_nonneg (x : Q) : 0 <= x ^ 2.
Proof. simpl. nra. Qed.

Lemma fold_Zplus_shift (xs : list Z) (a : Z) :
  fold_left Z.add xs a = (a + sumZ xs)%Z.
Proof.
  unfold sumZ. revert a.
  induction xs as [|x xs IH]; intros a; simpl.
  - lia.
  - rewrite (IH (a + x)%Z), (IH (0 + x)%Z). lia.
Qed.

Lemma sumZ_cons (x : Z) (xs : list Z) : sumZ (x :: xs) = (x + sumZ xs)%Z.
Proof. unfold sumZ at 1. simpl. apply fold_Zplus_shift. Qed.

Lemma population_variance_nonneg (xs : list Z) : 0 <= population_variance xs.
Proof.
  unfold population_variance, Qdiv. apply Qmult_le_0_compat.
  - apply sumQ_nonneg, Forall_map, Forall_forall.
    intros x _. apply Qsquare_nonneg.
  - apply Qinv_le_0_compat. unfold lenQ.
    change 0 with (inject_Z 0). rewrite <- Zle_Qle. lia.
Qed.

Lemma sumZ_repeat (x : Z) (n : nat) : sumZ (repeat x n) = (Z.of_nat n * x)%Z.
Proof.
  induction n as [|n IH]; [reflexivity|].
  simpl repeat. rewrite sumZ_cons, IH. lia.
Qed.

Lemma identical_repeat (xs : list Z) :
  identical xs -> exists x, xs = repeat x (length xs).
Proof.
  destruct xs as [|x0 xs]; [now exists 0%Z|].
  intros H. exists x0.
  assert (Hall : Forall (fun y => y = x0) (x0 :: xs)).
  { apply Forall_forall. intros y Hy. apply list_elem_of_In in Hy.
    apply H; [exact Hy | now left]. }
  clear H. induction Hall as [|y ys -> _ IH]; [reflexivity|].
  simpl. now rewrite <- IH.
Qed.

Lemma population_variance_identical (xs : list Z) :
  identical xs -> population_variance xs == 0.
Proof.
  intros H. destruct (identical_repeat xs H) as [x Hx].
  destruct xs as [|x0 xs]; [reflexivity|].
  assert (Hn : 0 < lenQ (x0 :: xs)) by now apply lenQ_pos.
  assert (Hmean : mean (x0 :: xs) == ofZ x).
  { unfold mean. rewrite Hx at 1. rewrite sumZ_repeat.
    unfold ofZ, lenQ in *. rewrite inject_Z_mult. field. lra. }
  unfold population_variance.
  rewrite sumQ_zero; [field; lra|].
  apply Forall_map, Forall_forall. intros y Hy.
  rewrite Hmean. rewrite Hx in Hy. apply list_elem_of_In, repeat_spec in Hy.
  subst y. simpl. ring.
Qed.

Lemma category_consistency_identical (xs : list Z) :
  identical xs -> category_consistency xs == 1.
Proof.
  intros H. unfold category_consistency.
  pose proof (population_variance_identical xs H) as Hv.
  destruct (pymax_spec 0 (1 - population_variance xs / 4))
    as [[_ Hm]|[Hle _]].
  - rewrite Hm, Hv, Qdiv_4. lra.
  - rewrite Hv, Qdiv_4 in Hle. lra.
Qed.

Section Consistency.
Abbreviation group_step := FacetEvaluator.group_step.
Abbreviation str_in := FacetEvaluator.str_in.

Lemma str_in_true (c : string) (cs : list string) :
  str_in c cs = true <-> In c cs.
Proof.
  unfold FacetEvaluator.str_in. rewrite existsb_exists. split.
  - intros [x [Hx E]]. apply String.eqb_eq in E. now subst.
  - intros H. exists c. split; [exact H | apply String.eqb_refl].
Qed.

Lemma category_scores_app (c : string) (J K : list EvaluationResult) :
  category_scores c (J ++ K) = category_scores c J ++ category_scores c K.
Proof. unfold category_scores. now rewrite List.filter_app, map_app. Qed.

Lemma category_scores_absent (c : string) (J : list EvaluationResult) :
  str_in c (map category_of J) = false -> category_scores c J = [].
Proof.
  unfold category_scores. induction J as [|r J IH]; simpl; [reflexivity|].
  rewrite (String.eqb_sym c). destruct (String.eqb (category_of r) c); simpl.
  - discriminate.
  - exact IH.
Qed.

Lemma category_scores_present (c : string) (J : list EvaluationResult) :
  category_scores c J <> [] -> str_in c (map category_of J) = true.
Proof.
  intros H. destruct (str_in c (map category_of J)) eqn:E; [reflexivity|].
  now apply category_scores_absent in E.
Qed.

Lemma group_step_grouped (J : list EvaluationResult)
    (d : list (string * list Z)) (r : EvaluationResult) :
  grouped J d -> grouped (J ++ [r]) (group_step d r).
Proof.
  intros [Hnd Hget]. unfold FacetEvaluator.group_step.
  fold (category_of r). set (c0 := category_of r).
  assert (Hstep : forall old d0,
    NoDup (dict_keys d0) ->
    dict_get c0 d0 = Some old ->
    old = category_scores c0 J ->
    (forall c, c <> c0 -> dict_get c d0 = dict_get c d) ->
    grouped (J ++ [r]) (dict_set c0 (old ++ [score r]) d0)).
  { intros old d0 Hnd0 Hold Hscores Hother. split.
    - now apply dict_set_NoDup.
    - intros c. rewrite map_app, category_scores_app.
      unfold FacetEvaluator.str_in. rewrite existsb_app. simpl.
      fold (str_in c (map category_of J)). fold c0.
      rewrite orb_false_r.
      unfold category_scores at 2. simpl. fold c0.
      destruct (String.eqb_spec c c0) as [->|Hne].
      + rewrite dict_get_set_eq, orb_true_r, String.eqb_refl.
        simpl. now rewrite Hscores.
      + rewrite dict_get_set_ne by congruence.
        rewrite Hother, Hget by exact Hne.
        rewrite orb_false_r.
        assert (E : String.eqb c0 c = false)
          by (apply String.eqb_neq; congruence).
        rewrite E. simpl. rewrite app_nil_r. reflexivity. }
  unfold dict_mem. destruct (dict_get c0 d) as [old|] eqn:Hc0; simpl.
  - rewrite Hc0. apply Hstep; try assumption; [|reflexivity].
    rewrite Hget in Hc0.
    destruct (str_in c0 (map category_of J)); congruence.
  - rewrite dict_get_set_eq. apply (Hstep []).
    + now apply dict_set_NoDup.
    + apply dict_get_set_eq.
    + rewrite Hget in Hc0. symmetry. apply category_scores_absent.
      destruct (str_in c0 (map category_of J)); congruence.
    + intros c Hne. apply dict_get_set_ne. congruence.
Qed.

Lemma group_fold_grouped (J : list EvaluationResult) :
  grouped J (fold_left group_step J []).
Proof.
  induction J as [|r J IH] using rev_ind.
  - split; [apply NoDup_nil_2 | reflexivity].
  - rewrite fold_left_app. simpl. now apply group_step_grouped.
Qed.

Abbreviation multi_item :=
  (fun it : string * list Z => multi_member (snd it)).

Lemma consistency_fold (d : list (string * list Z)) (acc : list Q) :
  fold_left FacetEvaluator.consistency_step d acc
  = acc ++ map (fun it => category_consistency (snd it))
             (List.filter multi_item d).
Proof.
  revert acc. induction d as [|[c scores] d IH]; intros acc.
  - simpl. now rewrite app_nil_r.
  - cbn [fold_left List.filter snd]. rewrite IH.
    unfold FacetEvaluator.consistency_step. cbn [snd].
    change (1 <? length scores)%nat with (multi_member scores).
    destruct (multi_member scores); cbn [map snd].
    + rewrite <- app_assoc. reflexivity.
    + reflexivity.
Qed.

Lemma get_facet_category_known (f : string) :
  In (FacetEvaluator._get_facet_category f) all_categories.
Proof.
  unfold FacetEvaluator._get_facet_category, all_categories.
  repeat match goal with
         | |- context [if ?b then _ else _] => destruct b
         end; simpl; tauto.
Qed.

Lemma ListFilter_NoDup {A} (p : A -> bool) (l : list A) :
  NoDup l -> NoDup (List.filter p l).
Proof. rewrite !NoDup_ListNoDup. apply List.NoDup_filter. Qed.

Lemma multi_member_nonempty (xs : list Z) :
  multi_member xs = true -> xs <> [].
Proof. now destruct xs. Qed.

Lemma grouped_items (J : list EvaluationResult)
    (d : list (string * list Z)) :
  grouped J d ->
  List.filter multi_item d
  ≡ₚ List.filter multi_item
       (map (fun c => (c, category_scores c J)) all_categories).
Proof.
  intros [Hnd Hget]. apply NoDup_Permutation.
  - apply ListFilter_NoDup, dict_NoDup_items, Hnd.
  - apply ListFilter_NoDup, (NoDup_fmap_1 fst). simpl. compute_done.
  - intros [c g]. rewrite !list_elem_of_In, !filter_In, in_map_iff. simpl.
    split.
    + intros [Hin Hm]. split; [|exact Hm].
      apply list_elem_of_In, (elem_of_dict_get _ _ _ Hnd) in Hin.
      rewrite Hget in Hin.
      destruct (str_in c (map category_of J)) eqn:E; [|discriminate].
      injection Hin as <-. exists c. split; [reflexivity|].
      apply str_in_true, in_map_iff in E as [r [<- _]].
      apply get_facet_category_known.
    + intros [[c' [[= -> <-] _]] Hm]. split; [|exact Hm].
      apply list_elem_of_In, dict_get_elem_of. rewrite Hget.
      rewrite category_scores_present; [reflexivity|].
      now apply multi_member_nonempty.
Qed.

Lemma filter_map_items (J : list EvaluationResult) :
  map (fun it : string * list Z => category_consistency (snd it))
    (List.filter multi_item
       (map (fun c => (c, category_scores c J)) all_categories))
  = category_consistencies J.
Proof.
  unfold category_consistencies.
  induction all_categories as [|c cs IH]; [reflexivity|].
  cbn [map List.filter snd].
  destruct (multi_member (category_scores c J)); cbn [map snd];
    now rewrite IH.
Qed.

(** The consistency values the loop over the categories collects are, up
    to their order, those of the specification. *)
Lemma consistency_scores_Permutation (J : list EvaluationResult) :
  fold_left FacetEvaluator.consistency_step
    (fold_left FacetEvaluator.group_step J []) []
  ≡ₚ category_consistencies J.
Proof.
  rewrite consistency_fold. simpl. rewrite <- filter_map_items.
  apply Permutation_map, grouped_items, group_fold_grouped.
Qed.

Lemma category_scores_length (c : string) (J : list EvaluationResult) :
  (length (category_scores c J) <= length J)%nat.
Proof.
  unfold category_scores. rewrite length_map. apply List.filter_length_le.
Qed.

Lemma category_consistencies_short (J : list EvaluationResult) :
  (length J < 2)%nat -> category_consistencies J = [].
Proof.
  intros H. unfold category_consistencies.
  assert (E : forall cs, List.filter multi_member
               (map (fun c => category_scores c J) cs) = []).
  { induction cs as [|c cs IH]; simpl; [reflexivity|].
    unfold multi_member at 1.
    pose proof (category_scores_length c J) as Hl.
    destruct (Nat.leb_spec 2 (length (category_scores c J))); [lia|].
    exact IH. }
  now rewrite E.
Qed.

Lemma average_ones (xs : list Q) :
  xs <> [] -> Forall (fun x => x == 1) xs -> average xs == 1.
Proof.
  intros Hne H. unfold average. rewrite (sumQ_ones xs H).
  pose proof (lenQ_pos xs Hne). field. lra.
Qed.

End Consistency.

(** ** The confidence calculator *)

Section Confidence.
Variable config_weights : gmap string Q.

Abbreviation weight := (FacetEvaluator.weight_of config_weights).

Lemma weights_sum_positive (J : list EvaluationResult) :
  positive_weights config_weights -> J <> [] ->
  0 < sumQ (map (fun r => weight (facet r)) J).
Proof.
  intros Hw HJ. destruct J as [|r J]; [congruence|]. clear HJ.
  simpl. rewrite sumQ_cons.
  pose proof (weight_of_positive config_weights (facet r) Hw).
  assert (0 <= sumQ (map (fun r => weight (facet r)) J)); [|lra].
  apply sumQ_nonneg, Forall_map, Forall_forall. intros x _.
  apply Qlt_le_weak, weight_of_positive, Hw.
Qed.

Lemma metrics_nonempty (J : list EvaluationResult) (mc : Q) :
  J <> [] ->
  pydiv (sumQ (fold_left (weighted_confidence_step config_weights) J []))
        (sumQ (map (fun r => weight (facet r)) J)) = Return mc ->
  _calculate_confidence_metrics config_weights J = Return (mkConfidenceMetrics
    (sumQ (map confidence J) / lenQ J) mc
    (FacetEvaluator.analyze_facet_consistency J)
    (pymin 1.0 (_calculate_score_variance J / 2.0))).
Proof.
  intros HJ Hmc. destruct J as [|r J]; [congruence|].
  unfold _calculate_confidence_metrics. now rewrite Hmc.
Qed.

Lemma score_variance_population (J : list EvaluationResult) :
  J <> [] ->
  _calculate_score_variance J == population_variance (map score J).
Proof.
  intros HJ. unfold _calculate_score_variance.
  destruct (Nat.ltb_spec (length J) 2) as [Hlt|_]; [|reflexivity].
  destruct J as [|r [|r' J]]; [congruence| |simpl in Hlt; lia].
  rewrite population_variance_identical; [reflexivity|].
  intros x y [<-|[]] [<-|[]]. reflexivity.
Qed.

Lemma metrics_returned (J : list EvaluationResult) (m : ConfidenceMetrics) :
  J <> [] ->
  _calculate_confidence_metrics config_weights J = Return m ->
  ~ sumQ (map (fun r => weight (facet r)) J) == 0 /\
  m = mkConfidenceMetrics
        (sumQ (map confidence J) / lenQ J)
        (sumQ (fold_left (weighted_confidence_step config_weights) J [])
         / sumQ (map (fun r => weight (facet r)) J))
        (FacetEvaluator.analyze_facet_consistency J)
        (pymin 1.0 (_calculate_score_variance J / 2.0)).
Proof.
  intros HJ. destruct J as [|r J]; [congruence|].
  unfold _calculate_confidence_metrics, pydiv.
  destruct (Qeq_bool _ 0) eqn:E; [discriminate|].
  intros [= <-]. split; [|reflexivity].
  intros H. apply Qeq_bool_iff in H. congruence.
Qed.

Lemma metrics_returns (J : list EvaluationResult) :
  J <> [] -> positive_weights config_weights ->
  exists m, _calculate_confidence_metrics config_weights J = Return m.
Proof.
  intros HJ Hw. pose proof (weights_sum_positive J Hw HJ) as Hsum.
  eexists. apply metrics_nonempty; [exact HJ|]. apply pydiv_Return. lra.
Qed.

(** C4. The empty judgment list yields the sentinel metrics
    (0.0, 0.0, 0.0, 1.0), whatever the configuration, and never an
    exception. *)
Theorem metrics_empty :
  _calculate_confidence_metrics config_weights []
  = Return (mkConfidenceMetrics 0.0 0.0 0.0 1.0) /\
  (forall m, _calculate_confidence_metrics config_weights [] = Return m ->
     overall_confidence m == 0 /\ model_confidence m == 0 /\
     consistency_score m == 0 /\ uncertainty_estimate m == 1).
Proof.
  split; [reflexivity|].
  intros m [= <-]. simpl. repeat split; reflexivity.
Qed.

End Confidence.

(** ** Comparison of the evaluations of several models *)

Lemma max_of_is_maximum (xs : list Z) : xs <> [] -> is_maximum (max_of xs) xs.
Proof.
  destruct xs as [|x xs]; [congruence|]. intros _. simpl.
  assert (H : forall a, (In (fold_left Z.max xs a) (a :: xs)) /\
                        (forall y, In y (a :: xs) ->
                                   (y <= fold_left Z.max xs a)%Z)).
  { induction xs as [|z zs IH]; intros a; simpl.
    - split; [now left | intros y [<-|[]]; lia].
    - destruct (IH (Z.max a z)) as [Hin Hle]. split.
      + destruct Hin as [Hin|Hin]; [|tauto].
        rewrite <- Hin. destruct (Z.max_spec a z) as [[_ ->]|[_ ->]]; tauto.
      + pose proof (Hle (Z.max a z) (or_introl eq_refl)) as H0.
        intros y [Hy|[Hy|Hy]]; [lia | lia |].
        apply Hle. now right. }
  exact (H x).
Qed.

Lemma min_of_is_minimum (xs : list Z) : xs <> [] -> is_minimum (min_of xs) xs.
Proof.
  destruct xs as [|x xs]; [congruence|]. intros _. simpl.
  assert (H : forall a, (In (fold_left Z.min xs a) (a :: xs)) /\
                        (forall y, In y (a :: xs) ->
                                   (fold_left Z.min xs a <= y)%Z)).
  { induction xs as [|z zs IH]; intros a; simpl.
    - split; [now left | intros y [<-|[]]; lia].
    - destruct (IH (Z.min a z)) as [Hin Hle]. split.
      + destruct Hin as [Hin|Hin]; [|tauto].
        rewrite <- Hin. destruct (Z.min_spec a z) as [[_ ->]|[_ ->]]; tauto.
      + pose proof (Hle (Z.min a z) (or_introl eq_refl)) as H0.
        intros y [Hy|[Hy|Hy]]; [lia | lia |].
        apply Hle. now right. }
  exact (H x).
Qed.

Lemma dict_set_fresh {V} (d : list (string * V)) (k : string) (v : V) :
  k ∉ dict_keys d -> dict_set k v d = d ++ [(k, v)].
Proof.
  induction d as [|[k0 v0] d IH]; simpl; [reflexivity|].
  rewrite not_elem_of_cons. intros [Hne Hnotin].
  apply String.eqb_neq in Hne. rewrite Hne. now rewrite IH.
Qed.

Section Judged.
Variable evaluations : list (string * ConversationEvaluation).
Variable facet : string.

Lemma judged_app (es es' : list (string * ConversationEvaluation)) :
  judged (es ++ es') facet = judged es facet ++ judged es' facet.
Proof. unfold judged. apply flat_map_app. Qed.

Lemma judged_keys (es : list (string * ConversationEvaluation)) (m : string) :
  m ∈ map fst (judged es facet) -> m ∈ dict_keys es.
Proof.
  induction es as [|[m0 e0] es IH]; simpl; [tauto|].
  rewrite map_app, elem_of_app, elem_of_cons. intros [H|H]; [|tauto].
  left. destruct (dict_get facet (facet_scores e0)); simpl in H.
  - now apply list_elem_of_singleton in H.
  - now apply elem_of_nil in H.
Qed.

Lemma model_scores_keys (js : list (string * EvaluationResult)) :
  dict_keys (model_scores js) = map fst js.
Proof.
  unfold dict_keys, model_scores. rewrite map_map.
  apply map_ext. now intros [m r].
Qed.

Lemma model_confidences_keys (js : list (string * EvaluationResult)) :
  dict_keys (model_confidences js) = map fst js.
Proof.
  unfold dict_keys, model_confidences. rewrite map_map.
  apply map_ext. now intros [m r].
Qed.

(** With distinct model names, the two dictionaries the inner loop fills
    are the scores and the confidences of the judged results. *)
Lemma collect_fold (es : list (string * ConversationEvaluation)) :
  NoDup (dict_keys es) ->
  fold_left (collect_step facet) es ([], [])
  = (model_scores (judged es facet), model_confidences (judged es facet)).
Proof.
  induction es as [|[m e] es IH] using rev_ind; [reflexivity|].
  unfold dict_keys. rewrite map_app. intros Hnd.
  apply NoDup_app in Hnd as (Hnd & Hfresh & _).
  rewrite fold_left_app, judged_app. simpl.
  rewrite (IH Hnd). unfold collect_step.
  destruct (dict_get facet (facet_scores e)) as [r|]; simpl.
  - assert (Hm : m ∉ map fst (judged es facet)).
    { intros Hin. apply judged_keys in Hin.
      apply (Hfresh m Hin). simpl. apply list_elem_of_singleton.
      reflexivity. }
    rewrite !dict_set_fresh
      by now rewrite ?model_scores_keys, ?model_confidences_keys.
    unfold model_scores, model_confidences. now rewrite !map_app.
  - now rewrite app_nil_r.
Qed.
End Judged.

Section CompareFacts.
Variable evaluations : list (string * ConversationEvaluation).

Lemma compare_facet_lookup (c : Comparison) (g f : string) :
  lookup4 (compare_facet evaluations c g) f
  = if decide (g = f)
    then entry4 (facet_entry evaluations f) (lookup4 c f)
    else lookup4 c f.
Proof.
  unfold compare_facet, facet_entry, lookup4.
  destruct (decide (g = f)) as [->|Hne].
  - destruct (fold_left (collect_step f) evaluations ([], [])) as [fs fc].
    destruct (2 <=? length fs)%nat; simpl; [|reflexivity].
    now rewrite !lookup_insert_eq.
  - destruct (fold_left (collect_step g) evaluations ([], [])) as [fs fc].
    destruct (2 <=? length fs)%nat; simpl; [|reflexivity].
    now rewrite !lookup_insert_ne by exact Hne.
Qed.

Lemma compare_fold_lookup (fs : list string) (c0 : Comparison) (f : string) :
  lookup4 (fold_left (compare_facet evaluations) fs c0) f
  = if decide (f ∈ fs)
    then entry4 (facet_entry evaluations f) (lookup4 c0 f)
    else lookup4 c0 f.
Proof.
  induction fs as [|g fs IH] using rev_ind.
  - simpl. destruct (decide (f ∈ [])) as [H|_]; [|reflexivity].
    now apply elem_of_nil in H.
  - rewrite fold_left_app. simpl. rewrite compare_facet_lookup, IH.
    destruct (decide (f ∈ fs ++ [g])) as [Hin'|Hnin'];
      rewrite elem_of_app, list_elem_of_singleton in *.
    + destruct (decide (g = f)) as [->|Hne].
      * destruct (facet_entry evaluations f) as [[[[a sd] cc] cs]|];
          [reflexivity|]. simpl.
        now destruct (decide (f ∈ fs)).
      * destruct (decide (f ∈ fs)) as [Hin|Hnin]; [reflexivity|].
        destruct Hin'; [contradiction | congruence].
    + destruct (decide (g = f)) as [->|Hne]; [tauto|].
      destruct (decide (f ∈ fs)) as [Hin|Hnin]; [tauto | reflexivity].
Qed.

Lemma all_facets_fold (es : list ConversationEvaluation) (acc : gset string)
    (f : string) :
  f ∈ fold_left
        (fun acc evaluation =>
           acc ∪ list_to_set (dict_keys (facet_scores evaluation))) es acc
  <-> f ∈ acc \/ exists e, e ∈ es /\ f ∈ dict_keys (facet_scores e).
Proof.
  revert acc. induction es as [|e es IH]; intros acc; simpl.
  - split; [now left|]. intros [H|[e [He _]]]; [exact H|].
    now apply elem_of_nil in He.
  - rewrite IH, elem_of_union, elem_of_list_to_set. split.
    + intros [[H|H]|[e' [He' H]]].
      * now left.
      * right. exists e. split; [now left | exact H].
      * right. exists e'. split; [now right | exact H].
    + intros [H|[e' [He' H]]]; [tauto|].
      apply elem_of_cons in He' as [->|He']; [tauto|].
      right. now exists e'.
Qed.

Lemma judged_all_facets (f : string) :
  judged evaluations f <> [] -> f ∈ elements (all_facets evaluations).
Proof.
  intros H. apply elem_of_elements. unfold all_facets.
  apply all_facets_fold. right.
  induction evaluations as [|[m e] es IH]; [contradiction|].
  simpl in H.
  destruct (dict_get f (facet_scores e)) as [r|] eqn:E.
  - exists e. split; [now left|].
    apply dict_get_elem_of in E. apply list_elem_of_fmap.
    now exists (f, r).
  - destruct (IH H) as [e' [He' Hf]]. exists e'. split; [|exact Hf].
    simpl. now right.
Qed.

Lemma judged_NoDup (f : string) :
  NoDup (dict_keys evaluations) -> NoDup (map fst (judged evaluations f)).
Proof.
  induction evaluations as [|[m e] es IH]; simpl; [constructor|].
  intros Hnd. apply NoDup_cons in Hnd as [Hm Hnd].
  rewrite map_app. destruct (dict_get f (facet_scores e)); simpl.
  - apply NoDup_cons. split; [|now apply IH].
    intros Hin. apply Hm. now apply (judged_keys f).
  - now apply IH.
Qed.
End CompareFacts.

Section Consensus.
Variable js : list (string * EvaluationResult).
Hypothesis distinct_models : NoDup (map fst js).

Lemma model_scores_values : dict_values (model_scores js) = judged_scores js.
Proof.
  unfold dict_values, model_scores, judged_scores. rewrite map_map.
  apply map_ext. now intros [m r].
Qed.

Lemma model_confidences_values :
  dict_values (model_confidences js) = map (fun '(_, r) => confidence r) js.
Proof.
  unfold dict_values, model_confidences. rewrite map_map.
  apply map_ext. now intros [m r].
Qed.

Lemma facet_weighted_sum_judged :
  facet_weighted_sum (model_scores js) (model_confidences js)
  = sumQ (map (fun '(_, r) => ofZ (score r) * confidence r) js).
Proof.
  unfold facet_weighted_sum. f_equal.
  assert (H : forall l, (forall x, x ∈ l -> x ∈ js) ->
    flat_map (fun '(model, score) =>
                match dict_get model (model_confidences js) with
                | Some c => [ofZ score * c]
                | None => []
                end) (model_scores l)
    = map (fun '(_, r) => ofZ (score r) * confidence r) l).
  { induction l as [|[m r] l IH]; intros Hl; [reflexivity|].
    simpl. rewrite IH by (intros x Hx; apply Hl; now right).
    rewrite (elem_of_dict_get (model_confidences js) m (confidence r)).
    - reflexivity.
    - now rewrite model_confidences_keys.
    - unfold model_confidences. apply list_elem_of_fmap.
      exists (m, r). split; [reflexivity|]. apply Hl. now left. }
  now apply H.
Qed.

Lemma confidences_all_zero :
  Forall (fun '(_, r) => 0 <= confidence r) js ->
  sumQ (map (fun '(_, r) => confidence r) js) <= 0 ->
  Forall (fun '(_, r) => confidence r == 0) js.
Proof.
  clear distinct_models.
  induction js as [|[m r] l IH]; intros Hnn Hsum; [constructor|].
  apply Forall_cons in Hnn as [Hr Hnn]. simpl in Hsum.
  rewrite sumQ_cons in Hsum.
  assert (0 <= sumQ (map (fun '(_, r) => confidence r) l)).
  { apply sumQ_nonneg, Forall_map. eapply Forall_impl; [exact Hnn|].
    now intros [m' r']. }
  constructor; [lra|]. apply IH; [exact Hnn | lra].
Qed.

(** The consensus of the code on the dictionaries of a facet: the
    confidence-weighted mean, and the plain mean of the scores when every
    confidence is zero. *)
Lemma facet_consensus_judged :
  Forall (fun '(_, r) => 0 <= confidence r) js ->
  (Forall (fun '(_, r) => confidence r == 0) js ->
   facet_consensus (model_scores js) (model_confidences js)
     == mean (judged_scores js)) /\
  (~ Forall (fun '(_, r) => confidence r == 0) js ->
   facet_consensus (model_scores js) (model_confidences js)
     == weighted_mean js).
Proof.
  intros Hnn. unfold facet_consensus.
  rewrite facet_weighted_sum_judged, model_confidences_values,
    model_scores_values.
  destruct (Qgtb (sumQ (map (fun '(_, r) => confidence r) js)) 0) eqn:E.
  - apply Qgtb_true in E. split; [|reflexivity].
    intros Hz. exfalso.
    assert (sumQ (map (fun '(_, r) => confidence r) js) == 0); [|lra].
    apply sumQ_zero, Forall_map. eapply Forall_impl; [exact Hz|].
    now intros [m r].
  - apply Qgtb_false in E. split; [reflexivity|].
    intros Hnz. exfalso. apply Hnz. now apply confidences_all_zero.
Qed.
End Consensus.

Section CompareSpec.
Variable evaluations : list (string * ConversationEvaluation).

Lemma facet_entry_judged (f : string) :
  NoDup (dict_keys evaluations) ->
  facet_entry evaluations f
  = let js := judged evaluations f in
    if (2 <=? length js)%nat
    then Some (facet_agreement (judged_scores js), model_scores js,
               model_confidences js,
               facet_consensus (model_scores js) (model_confidences js))
    else None.
Proof.
  intros Hnd. unfold facet_entry. rewrite (collect_fold f _ Hnd). simpl.
  unfold model_scores at 1 3. rewrite !length_map.
  now rewrite model_scores_values.
Qed.

Lemma compare_lookup (f : string) :
  NoDup (dict_keys evaluations) ->
  lookup4 (fold_left (compare_facet evaluations)
             (elements (all_facets evaluations)) (mkComparison ∅ ∅ ∅ ∅)) f
  = entry4 (facet_entry evaluations f) (None, None, None, None).
Proof.
  intros Hnd. rewrite compare_fold_lookup.
  destruct (decide (f ∈ elements (all_facets evaluations))) as [_|Hnin].
  - unfold lookup4. simpl. now rewrite !lookup_empty.
  - rewrite facet_entry_judged by exact Hnd. simpl.
    destruct (judged evaluations f) as [|j js] eqn:E.
    + unfold lookup4. simpl. now rewrite !lookup_empty.
    + exfalso. apply Hnin, judged_all_facets. now rewrite E.
Qed.

(** Fewer than two evaluations give the ["error"] dictionary and no map
    at all. *)
Lemma compare_evaluations_error :
  (length evaluations < 2)%nat ->
  compare_evaluations evaluations
  = ComparisonError "Need at least 2 evaluations to compare".
Proof.
  intros H. unfold compare_evaluations. apply Nat.ltb_lt in H.
  now rewrite H.
Qed.
End CompareSpec.

(** ** Text cleaning *)

Section TextCleaning.
Import DataProcessor.

Lemma lstrip_id (l : list ascii) : no_lead l -> lstrip l = l.
Proof. destruct l as [|c l]; simpl; [reflexivity|]. now intros ->. Qed.

Lemma lstrip_no_lead (l : list ascii) : no_lead (lstrip l).
Proof.
  induction l as [|c l IH]; simpl; [exact I|].
  destruct (isspace c) eqn:E; [exact IH | exact E].
Qed.

Lemma lstrip_snoc (l : list ascii) (c : ascii) :
  isspace c = false -> exists p, lstrip (l ++ [c]) = p ++ [c].
Proof.
  intros Hc. induction l as [|a l IH]; simpl.
  - rewrite Hc. now exists [].
  - destruct (isspace a); [exact IH | now exists (a :: l)].
Qed.

Lemma rstrip_id (l : list ascii) : no_trail l -> rstrip l = l.
Proof.
  intros H. unfold rstrip. rewrite lstrip_id by exact H.
  apply rev_involutive.
Qed.

Lemma rstrip_no_trail (l : list ascii) : no_trail (rstrip l).
Proof.
  unfold no_trail, rstrip. rewrite rev_involutive. apply lstrip_no_lead.
Qed.

Lemma rstrip_no_lead (l : list ascii) : no_lead l -> no_lead (rstrip l).
Proof.
  destruct l as [|c l]; [intros _; exact I|]. simpl. intros Hc.
  unfold rstrip. simpl rev.
  destruct (lstrip_snoc (rev l) c Hc) as [p ->].
  rewrite rev_app_distr. exact Hc.
Qed.

Lemma strip_id (l : list ascii) : no_lead l -> no_trail l -> strip l = l.
Proof.
  intros H1 H2. unfold strip. rewrite (lstrip_id l H1). now apply rstrip_id.
Qed.

Lemma strip_ends (l : list ascii) : no_lead (strip l) /\ no_trail (strip l).
Proof.
  split.
  - apply rstrip_no_lead, lstrip_no_lead.
  - apply rstrip_no_trail.
Qed.

Lemma no_trail_snoc (l : list ascii) :
  no_trail l -> l = [] \/ exists p c, l = p ++ [c] /\ isspace c = false.
Proof.
  unfold no_trail. intros H. destruct (rev l) as [|c q] eqn:E.
  - left. apply (f_equal (@rev ascii)) in E.
    now rewrite rev_involutive in E.
  - right. exists (rev q), c. split; [|exact H].
    apply (f_equal (@rev ascii)) in E. now rewrite rev_involutive in E.
Qed.

Lemma snoc_no_trail (p : list ascii) (c : ascii) :
  isspace c = false -> no_trail (p ++ [c]).
Proof. intros H. unfold no_trail. now rewrite rev_app_distr. Qed.

(** Collapsing white space a second time changes nothing. *)
Lemma sub_spaces_fix (l : list ascii) (b : bool) :
  sub_spaces false (sub_spaces b l) = sub_spaces b l /\
  (b = true -> sub_spaces true (sub_spaces b l) = sub_spaces b l).
Proof.
  revert b. induction l as [|c l IH]; intros b; simpl; [tauto|].
  destruct (isspace c) eqn:Ec.
  - destruct b.
    + exact (IH true).
    + split; [|discriminate]. simpl.
      destruct (IH true) as [_ ->]; reflexivity.
  - simpl. rewrite Ec. destruct (IH false) as [-> _]. tauto.
Qed.

Lemma sub_spaces_snoc (l : list ascii) (c : ascii) (b : bool) :
  isspace c = false -> sub_spaces b (l ++ [c]) = sub_spaces b l ++ [c].
Proof.
  intros Hc. revert b. induction l as [|a l IH]; intros b; simpl.
  - now rewrite Hc.
  - destruct (isspace a); [destruct b|]; now rewrite IH.
Qed.

Lemma sub_spaces_no_lead (l : list ascii) :
  no_lead l -> no_lead (sub_spaces false l).
Proof.
  destruct l as [|c l]; simpl; [tauto|]. intros H. rewrite H. exact H.
Qed.

Lemma sub_spaces_no_trail (l : list ascii) :
  no_trail l -> no_trail (sub_spaces false l).
Proof.
  intros H. destruct (no_trail_snoc l H) as [->|(p & c & -> & Hc)].
  - exact I.
  - rewrite sub_spaces_snoc by exact Hc. now apply snoc_no_trail.
Qed.

Lemma all_kept_app (l k : list ascii) :
  all_kept (l ++ k) <-> all_kept l /\ all_kept k.
Proof. unfold all_kept. rewrite forallb_app. apply andb_true_iff. Qed.

Lemma all_kept_rev (l : list ascii) : all_kept l -> all_kept (rev l).
Proof.
  unfold all_kept. rewrite !forallb_forall. intros H c Hc.
  apply H. now apply in_rev.
Qed.

Lemma all_kept_lstrip (l : list ascii) : all_kept l -> all_kept (lstrip l).
Proof.
  unfold all_kept. induction l as [|c l IH]; simpl; [reflexivity|].
  intros H. apply andb_true_iff in H as [Hc Hl].
  destruct (isspace c); [now apply IH|]. simpl. now rewrite Hc, Hl.
Qed.

Lemma all_kept_strip (l : list ascii) : all_kept l -> all_kept (strip l).
Proof.
  intros H. unfold strip, rstrip.
  now apply all_kept_rev, all_kept_lstrip, all_kept_rev, all_kept_lstrip.
Qed.

Lemma all_kept_sub_spaces (l : list ascii) (b : bool) :
  all_kept l -> all_kept (sub_spaces b l).
Proof.
  unfold all_kept. revert b. induction l as [|c l IH]; intros b; simpl;
    [reflexivity|].
  intros H. apply andb_true_iff in H as [Hc Hl].
  destruct (isspace c); [destruct b|]; simpl; rewrite ?Hc; now apply IH.
Qed.

Lemma all_kept_filter (l : list ascii) : all_kept (List.filter kept l).
Proof.
  unfold all_kept. apply forallb_forall. intros c Hc.
  now apply filter_In in Hc.
Qed.

Lemma filter_kept_id (l : list ascii) : all_kept l -> List.filter kept l = l.
Proof.
  unfold all_kept. induction l as [|c l IH]; simpl; [reflexivity|].
  intros H. apply andb_true_iff in H as [-> Hl]. now rewrite IH.
Qed.

Lemma starts_with_app (p l : list ascii) :
  starts_with p l = true -> exists s, l = p ++ s.
Proof.
  revert l. induction p as [|a p IH]; intros l; simpl.
  - now exists l.
  - destruct l as [|b l]; [discriminate|].
    intros H. apply andb_true_iff in H as [Hab Hp].
    apply Ascii.eqb_eq in Hab. subst b.
    destruct (IH l Hp) as [s ->]. now exists s.
Qed.

Lemma replace_same (c : ascii) (l : list ascii) : replace [c] [c] l = l.
Proof.
  unfold replace. induction l as [|a l IH]; simpl; [reflexivity|].
  rewrite andb_true_r. destruct (Ascii.eqb_spec c a) as [->|_];
    simpl; now rewrite IH.
Qed.

(** The old text of line 83 holds parentheses, which the filter removes:
    it does not occur in a text of kept characters. *)
Lemma replace_line83_absent (new l : list ascii) :
  all_kept l -> replace line83_old new l = l.
Proof.
  unfold replace, line83_old. simpl app.
  induction l as [|a l IH]; [reflexivity|].
  intros H. cbn [replace_from].
  destruct (starts_with _ (a :: l)) eqn:E.
  - exfalso. apply starts_with_app in E as [s E]. rewrite E in H.
    apply all_kept_app in H as [H _]. revert H. vm_compute. discriminate.
  - apply (all_kept_app [a] l) in H as [_ H]. now rewrite IH.
Qed.

Lemma ensure_sentence_ending_snoc (l : list ascii) :
  ensure_sentence_ending (l ++ ["."%char]) = l ++ ["."%char].
Proof. unfold ensure_sentence_ending. now rewrite last_snoc. Qed.

Lemma clean_chars_kept (l : list ascii) :
  all_kept l ->
  clean_chars l = ensure_sentence_ending (sub_spaces false (strip l)).
Proof.
  intros H. unfold clean_chars.
  assert (Ht : all_kept (sub_spaces false (strip l)))
    by now apply all_kept_sub_spaces, all_kept_strip.
  rewrite !replace_same, replace_line83_absent by exact Ht.
  now rewrite filter_kept_id.
Qed.

Lemma clean_normal_fixed (l : list ascii) :
  clean_normal l -> clean_chars l = l.
Proof.
  intros (Hk & Hl & Ht & Hs & He).
  rewrite clean_chars_kept by exact Hk.
  now rewrite strip_id, Hs.
Qed.

Lemma clean_chars_normal (l : list ascii) :
  all_kept l -> clean_normal (clean_chars l).
Proof.
  intros Hk. rewrite clean_chars_kept by exact Hk.
  set (t := sub_spaces false (strip l)).
  assert (Htk : all_kept t) by now apply all_kept_sub_spaces, all_kept_strip.
  destruct (strip_ends l) as [Hlead Htrail].
  assert (Htl : no_lead t) by now apply sub_spaces_no_lead.
  assert (Htt : no_trail t) by now apply sub_spaces_no_trail.
  assert (Hts : sub_spaces false t = t) by apply sub_spaces_fix.
  unfold ensure_sentence_ending at 1.
  destruct (last t) as [c|] eqn:El; [|].
  - destruct (char_in c (list_ascii_of_string ".!?")) eqn:Ec; simpl.
    + repeat split; try assumption.
      unfold ensure_sentence_ending. now rewrite El, Ec.
    + repeat split.
      * apply all_kept_app. now split.
      * destruct t; [discriminate El | exact Htl].
      * now apply snoc_no_trail.
      * rewrite sub_spaces_snoc by reflexivity. now rewrite Hts.
      * apply ensure_sentence_ending_snoc.
  - repeat split; try assumption.
    unfold ensure_sentence_ending. now rewrite El.
Qed.

Lemma clean_chars_all_kept (l : list ascii) : all_kept (clean_chars l).
Proof.
  unfold clean_chars, ensure_sentence_ending.
  match goal with |- context [List.filter kept ?t] => set (u := t) end.
  pose proof (all_kept_filter u) as H.
  destruct (last (List.filter kept u)) as [c|]; [|exact H].
  destruct (negb _); [|exact H].
  apply all_kept_app. now split.
Qed.

Lemma clean_chars_idempotent_kept (l : list ascii) :
  all_kept l -> clean_chars (clean_chars l) = clean_chars l.
Proof. intros H. now apply clean_normal_fixed, clean_chars_normal. Qed.

(** Two cleanings always reach a fixed point. *)
Lemma clean_chars_twice_fixed (l : list ascii) :
  clean_chars (clean_chars (clean_chars l)) = clean_chars (clean_chars l).
Proof. apply clean_chars_idempotent_kept, clean_chars_all_kept. Qed.
End TextCleaning.

(** C8. [clean_conversation_text] returns for every text and maps the
    empty string to itself, but it is not idempotent: white space is
    stripped and collapsed before the special characters are removed, so
    on ["( a"] the removed parenthesis leaves a leading blank that only a
    second cleaning strips. *)
Theorem clean_conversation_text_not_idempotent :
  DataProcessor.clean_conversation_text "" = ""%string /\
  DataProcessor.clean_conversation_text "( a" = " a."%string /\
  DataProcessor.clean_conversation_text " a." = "a."%string /\
  DataProcessor.clean_conversation_text
    (DataProcessor.clean_conversation_text "( a")
  <> DataProcessor.clean_conversation_text "( a".
Proof.
  split; [reflexivity|]. split; [reflexivity|]. split; [reflexivity|].
  vm_compute. discriminate.
Qed.

(** Where no special character is removed the order of the steps does not
    show: cleaning twice is cleaning once for every text made of
    characters the filter keeps.  In general only the second cleaning is
    a fixed point: a third one changes nothing. *)
Lemma clean_conversation_text_fixed_point (x : string) :
  DataProcessor.clean_conversation_text "" = ""%string /\
  (all_kept (list_ascii_of_string x) ->
   DataProcessor.clean_conversation_text
     (DataProcessor.clean_conversation_text x)
   = DataProcessor.clean_conversation_text x) /\
  DataProcessor.clean_conversation_text
    (DataProcessor.clean_conversation_text
       (DataProcessor.clean_conversation_text x))
  = DataProcessor.clean_conversation_text
      (DataProcessor.clean_conversation_text x).
Proof.
  unfold DataProcessor.clean_conversation_text.
  rewrite !list_ascii_of_string_of_list_ascii.
  split; [reflexivity|]. split.
  - intros H. now rewrite clean_chars_idempotent_kept.
  - now rewrite clean_chars_twice_fixed.
Qed.

Example clean_conversation_text_sample :
  all_kept (list_ascii_of_string "Hello,   how are  you???   ") /\
  DataProcessor.clean_conversation_text "Hello,   how are  you???   "
  = "Hello, how are you???"%string.
Proof. split; reflexivity. Qed.

(** ** The single-conversation evaluator *)

Section EvaluateConversation.
Variable config_weights : gmap string Q.
Variable default_model : option string.
Variable facet_batch_size : Z.
Variable clock : nat -> Q.
Variable backend : nat -> option string -> result Model.

Abbreviation evaluate :=
  (evaluate_conversation config_weights default_model facet_batch_size
     clock backend).

Lemma load_model_acquires (name : option string) (w : World) :
  fst (load_model backend name w) = acquires backend w name.
Proof.
  unfold load_model, acquires. destruct (models w !! name); [reflexivity|].
  now destruct (backend (load_attempts w) name).
Qed.

(** Reading the clock leaves the cache and the attempt counter as they
    were, so the model manager answers after it as it would before. *)
Lemma load_model_after_clock (name : option string) (w w' : World) :
  models w' = models w -> load_attempts w' = load_attempts w ->
  exists w'', load_model backend name w' = (acquires backend w name, w'').
Proof.
  intros Hm Ha. pose proof (load_model_acquires name w') as Hl.
  unfold acquires in *. rewrite Hm, Ha in Hl.
  destruct (load_model backend name w') as [r w'']. simpl in Hl. subst r.
  now exists w''.
Qed.

Lemma facet_batches_empty :
  facet_batch_size <> 0%Z -> facet_batches facet_batch_size [] = Return [].
Proof.
  intros H. unfold facet_batches.
  destruct (Z.eqb_spec facet_batch_size 0); [contradiction|].
  now destruct (facet_batch_size <? 0)%Z.
Qed.

(** Runs [evaluate_conversation] up to the answer of the model manager, in
    each of the three ways the identifier is settled. *)
Ltac run_to_load w name :=
  unfold evaluate_conversation, bind, time_time, load_model_async;
  fold (requested_model default_model name);
  match goal with
  | |- context [match ?cid with Some _ => _ | None => _ end] =>
      destruct cid as [id|]; simpl;
      [destruct (negb (id =? ""))%string; simpl|]
  end;
  unfold bind, time_time, ret; simpl;
  match goal with
  | |- context [load_model backend ?n ?w'] =>
      destruct (load_model_after_clock n w w' eq_refl eq_refl) as [w'' ->]
  end.

Lemma evaluate_conversation_load_failure
    (conversation : conversation_input) (facets : list string)
    (conversation_id name : option string) (w : World) (e : exn) :
  acquires backend w (requested_model default_model name) = Raise e ->
  fst (evaluate conversation facets conversation_id name w) = Raise e.
Proof. intros H. run_to_load w name; now rewrite H. Qed.

Lemma evaluate_conversation_empty_facets
    (conversation : conversation_input)
    (conversation_id name : option string) (w : World) (model : Model) :
  facet_batch_size <> 0%Z ->
  acquires backend w (requested_model default_model name) = Return model ->
  exists ev,
    fst (evaluate conversation [] conversation_id name w) = Return ev /\
    facet_scores ev = [] /\
    confidence_metrics ev = mkConfidenceMetrics 0.0 0.0 0.0 1.0 /\
    model_used ev = model_name model.
Proof.
  intros Hb H. unfold _evaluate_facets_async, bind, lift.
  run_to_load w name; rewrite H; unfold _evaluate_facets_async, bind, lift;
    rewrite (facet_batches_empty Hb); simpl; eexists; repeat split;
    reflexivity.
Qed.

Lemma evaluate_conversation_zero_batch_size
    (conversation : conversation_input) (facets : list string)
    (conversation_id name : option string) (w : World) (model : Model) :
  facet_batch_size = 0%Z ->
  acquires backend w (requested_model default_model name) = Return model ->
  fst (evaluate conversation facets conversation_id name w)
  = Raise (ValueError "range() arg 3 must not be zero").
Proof.
  intros Hb H.
  run_to_load w name; rewrite H;
    unfold _evaluate_facets_async, bind, lift, facet_batches;
    rewrite Hb; reflexivity.
Qed.

(** C7, as the code has it. [evaluate_conversation] does not look at the
    facet list before it works: it raises exactly the exception of the
    model manager when the model cannot be acquired, whatever the facets;
    with an acquired model and a sub-batch size of zero it raises the
    [ValueError] of [range], whatever the facets; and with an empty facet
    list, an acquired model and a sub-batch size other than zero it
    returns a normal record, with no facet score and the sentinel
    confidence metrics. *)
Theorem evaluate_conversation_facets_unchecked
    (conversation : conversation_input)
    (conversation_id name : option string) (w : World) :
  (forall facets e,
     acquires backend w (requested_model default_model name) = Raise e ->
     fst (evaluate_conversation config_weights default_model facet_batch_size
            clock backend conversation facets conversation_id name w)
     = Raise e) /\
  (forall facets model,
     facet_batch_size = 0%Z ->
     acquires backend w (requested_model default_model name) = Return model ->
     fst (evaluate_conversation config_weights default_model facet_batch_size
            clock backend conversation facets conversation_id name w)
     = Raise (ValueError "range() arg 3 must not be zero")) /\
  (forall model,
     facet_batch_size <> 0%Z ->
     acquires backend w (requested_model default_model name) = Return model ->
     exists ev,
       fst (evaluate_conversation config_weights default_model
              facet_batch_size clock backend conversation [] conversation_id
              name w) = Return ev /\
       facet_scores ev = [] /\
       confidence_metrics ev = mkConfidenceMetrics 0.0 0.0 0.0 1.0 /\
       model_used ev = model_name model).
Proof.
  split; [|split].
  - intros facets e. apply evaluate_conversation_load_failure.
  - intros facets model. apply evaluate_conversation_zero_batch_size.
  - intros model. apply evaluate_conversation_empty_facets.
Qed.
End EvaluateConversation.

(** C7 fails as stated: an empty facet list yields a normal record. *)
Lemma evaluate_conversation_empty_facets_returns :
  exists ev,
    fst (evaluate_conversation ∅ (Some "mock"%string) 10 tenth_clock
           always_loads (RawText "hi") [] None None initial_world)
    = Return ev /\ facet_scores ev = [].
Proof. eexists. split; vm_compute; reflexivity. Qed.

(** ** Batches and several models *)

Lemma run_all_length {A} (tasks : list (M A)) (w : World) :
  length (fst (run_all tasks w)) = length tasks.
Proof.
  revert w. induction tasks as [|task tasks IH]; intros w; simpl.
  - reflexivity.
  - destruct (task w) as [r w']. specialize (IH w').
    destruct (run_all tasks w') as [rs w'']. simpl in *. now rewrite IH.
Qed.

Lemma all_returned_Return {A} (rs : list (result A)) (l : list A) :
  all_returned rs = Return l <-> rs = map Return l.
Proof.
  revert l. induction rs as [|[a|e] rs IH]; intros l; simpl.
  - split; [intros [= <-]; reflexivity|]. now destruct l.
  - destruct (all_returned rs) as [l'|e'].
    + split.
      * intros [= <-]. simpl. f_equal. now apply IH.
      * destruct l as [|a0 l]; [discriminate|]. simpl. intros [= -> H].
        apply IH in H. now injection H as ->.
    + split; [discriminate|].
      destruct l as [|a0 l]; [discriminate|]. simpl. intros [= -> H].
      apply IH in H. discriminate.
  - split; [discriminate|]. destruct l; discriminate.
Qed.

Lemma all_returned_Raise {A} (rs : list (result A)) :
  (exists e, In (Raise e) rs) <-> (exists e, all_returned rs = Raise e).
Proof.
  induction rs as [|[a|e] rs IH]; simpl.
  - split; intros [e H]; [contradiction | discriminate].
  - destruct (all_returned rs) as [l|e'].
    + split; [|intros [e H]; discriminate].
      intros [e [H|H]]; [discriminate|].
      destruct (proj1 IH (ex_intro _ e H)) as [e' He']. discriminate.
    + split; [intros _; now exists e'|].
      intros _. destruct (proj2 IH (ex_intro _ e' eq_refl)) as [e He].
      exists e. now right.
  - split; intros _; exists e; [reflexivity | now left].
Qed.

Section BatchEvaluate.
Variable config_weights : gmap string Q.
Variable default_model : option string.
Variable facet_batch_size : Z.
Variable clock : nat -> Q.
Variable backend : nat -> option string -> result Model.
Variable sqrt_float : Q -> Q.

Abbreviation batch :=
  (batch_evaluate config_weights default_model facet_batch_size clock
     backend sqrt_float).
Abbreviation outcomes_of :=
  (batch_outcomes config_weights default_model facet_batch_size clock
     backend).
Abbreviation tasks :=
  (batch_tasks config_weights default_model facet_batch_size clock backend).

Lemma batch_outcomes_length (conversations : list conversation_input)
    (facets : list string) (name : option string) (w : World) :
  length (outcomes_of conversations facets name w) = length conversations.
Proof.
  unfold batch_outcomes. rewrite run_all_length. unfold batch_tasks.
  apply length_imap.
Qed.

Lemma batch_evaluate_outcome (conversations : list conversation_input)
    (facets : list string) (name : option string) (w : World) :
  match all_returned (outcomes_of conversations facets name w) with
  | Raise e => fst (batch conversations facets name w) = Raise e
  | Return evs =>
      match evs with
      | [] => fst (batch conversations facets name w)
              = Raise ZeroDivisionError
      | _ => exists b, fst (batch conversations facets name w) = Return b /\
                       evaluations b = evs
      end
  end.
Proof.
  unfold batch_outcomes, batch_evaluate, bind, gather. simpl.
  destruct (run_all _ _) as [rs w']. simpl.
  destruct (all_returned rs) as [evs|e]; [|reflexivity].
  destruct evs as [|ev evs]; [reflexivity|].
  unfold lift. rewrite pydiv_Return.
  - simpl. eexists. split; reflexivity.
  - assert (0 < lenQ (ev :: evs)) by (apply lenQ_pos; discriminate). lra.
Qed.

(** C6, as the code has it. The evaluations of a batch are gathered
    without catching: [batch_evaluate] raises when the conversation list
    is empty and whenever one evaluation raises, and it returns exactly
    when the list is not empty and every evaluation returns; its
    evaluations are then those results, one per conversation in the order
    of the input.  No degraded evaluation stands in for a failed one. *)
Theorem batch_evaluate_all_or_nothing
    (conversations : list conversation_input) (facets : list string)
    (name : option string) (w : World) :
  let outcomes :=
    batch_outcomes config_weights default_model facet_batch_size clock
      backend conversations facets name w in
  let returned :=
    fst (batch_evaluate config_weights default_model facet_batch_size clock
           backend sqrt_float conversations facets name w) in
  length outcomes = length conversations /\
  (forall e, In (Raise e) outcomes -> exists e', returned = Raise e') /\
  (conversations = [] -> returned = Raise ZeroDivisionError) /\
  (forall b, returned = Return b ->
             conversations <> [] /\ outcomes = map Return (evaluations b)) /\
  (conversations <> [] -> (forall e, ~ In (Raise e) outcomes) ->
   exists b, returned = Return b).
Proof.
  intros outcomes returned. subst returned.
  pose proof (batch_outcomes_length conversations facets name w) as Hlen.
  pose proof (batch_evaluate_outcome conversations facets name w) as Hout.
  fold outcomes in Hlen, Hout.
  split; [exact Hlen|]. split; [|split; [|split]].
  - intros e He.
    destruct (proj1 (all_returned_Raise outcomes) (ex_intro _ e He))
      as [e' He'].
    rewrite He' in Hout. now exists e'.
  - intros ->. destruct outcomes; [|discriminate Hlen]. exact Hout.
  - intros b Hb. destruct (all_returned outcomes) as [evs|e] eqn:E.
    + apply all_returned_Return in E. destruct evs as [|ev evs].
      * rewrite Hb in Hout. discriminate.
      * destruct Hout as [b' [Hb' Hevs]]. rewrite Hb in Hb'.
        injection Hb' as <-. split; [|now rewrite Hevs].
        intros ->. rewrite E in Hlen. discriminate.
    + rewrite Hb in Hout. discriminate.
  - intros Hne Hall. destruct (all_returned outcomes) as [evs|e] eqn:E.
    + destruct evs as [|ev evs].
      * apply all_returned_Return in E. rewrite E in Hlen.
        destruct conversations; [contradiction | discriminate].
      * destruct Hout as [b [Hb _]]. now exists b.
    + destruct (proj2 (all_returned_Raise outcomes) (ex_intro _ e E))
        as [e' He']. now apply Hall in He'.
Qed.
End BatchEvaluate.

(** C6 fails as stated: of two conversations the first fails to get its
    model and the second is evaluated, and the batch raises. *)
Lemma batch_evaluate_one_failure_fails_batch :
  (exists ev,
     batch_outcomes ∅ (Some "mock"%string) 10 tenth_clock fails_first
       [RawText "first"; RawText "second"] ["grammar"%string] None
       initial_world
     = [Raise (ModelLoadError (Some "mock"%string)); Return ev]) /\
  fst (batch_evaluate ∅ (Some "mock"%string) 10 tenth_clock fails_first
         no_sqrt [RawText "first"; RawText "second"] ["grammar"%string] None
         initial_world)
  = Raise (ModelLoadError (Some "mock"%string)).
Proof. split; [eexists|]; vm_compute; reflexivity. Qed.

(** The identifier [evaluate_conversation] derives when the caller gives
    none: the second clock reading of the call, cut to whole seconds. *)
Lemma generated_conversation_id
    (config_weights : gmap string Q) (default_model : option string)
    (facet_batch_size : Z) (clock : nat -> Q)
    (backend : nat -> option string -> result Model)
    (conversation : conversation_input) (facets : list string)
    (name : option string) (w : World) (ev : ConversationEvaluation) :
  fst (evaluate_conversation config_weights default_model facet_batch_size
         clock backend conversation facets None name w) = Return ev ->
  conversation_id ev
  = ("conv_" +:+ pretty (int_of_float (clock (S (clock_reads w)))))%string.
Proof.
  unfold evaluate_conversation, bind, time_time, load_model_async, ret. simpl.
  destruct (load_model _ _ _) as [[model|e] w1]; [|discriminate].
  destruct (_evaluate_facets_async _ _ _ _ _) as [[results|e] w2];
    [|discriminate].
  unfold lift.
  destruct (_calculate_confidence_metrics _ _) as [m|e]; [|discriminate].
  simpl. now intros [= <-].
Qed.

(** Two evaluations without a caller's identifier, started in any two
    states of the process, share their identifier as soon as their clock
    readings fall into the same second. *)
Lemma same_second_same_conversation_id
    (config_weights : gmap string Q) (default_model : option string)
    (facet_batch_size : Z) (clock : nat -> Q)
    (backend : nat -> option string -> result Model)
    (c1 c2 : conversation_input) (facets1 facets2 : list string)
    (name1 name2 : option string) (w1 w2 : World)
    (ev1 ev2 : ConversationEvaluation) :
  fst (evaluate_conversation config_weights default_model facet_batch_size
         clock backend c1 facets1 None name1 w1) = Return ev1 ->
  fst (evaluate_conversation config_weights default_model facet_batch_size
         clock backend c2 facets2 None name2 w2) = Return ev2 ->
  int_of_float (clock (S (clock_reads w1)))
  = int_of_float (clock (S (clock_reads w2))) ->
  conversation_id ev1 = conversation_id ev2.
Proof.
  intros H1 H2 Hsame.
  rewrite (generated_conversation_id _ _ _ _ _ _ _ _ _ _ H1).
  rewrite (generated_conversation_id _ _ _ _ _ _ _ _ _ _ H2).
  now rewrite Hsame.
Qed.

(** C9 fails on the code: two evaluations of one process whose identifiers
    are derived within the same second get the same identifier. *)
Lemma conversation_id_collision :
  exists e1 e2,
    fst (evaluate_with_multiple_models ∅ (Some "mock"%string) 10 tenth_clock
           always_loads (RawText "hi") ["grammar"%string]
           ["model_a"; "model_b"]%string initial_world)
    = Return [("model_a"%string, e1); ("model_b"%string, e2)] /\
    conversation_id e1 = "conv_1700000000"%string /\
    conversation_id e2 = "conv_1700000000"%string.
Proof. eexists. eexists. split; [|split]; vm_compute; reflexivity. Qed.

(** ** Instances on concrete inputs *)

Example analyze_facet_consistency_sample :
  FacetEvaluator.analyze_facet_consistency
    [ mkEvaluationResult "grammar" 5 0.9 "";
      mkEvaluationResult "clarity" 3 0.9 "";
      mkEvaluationResult "toxicity" 1 0.9 "" ] == 0.75.
Proof. vm_compute. reflexivity. Qed.

Example facet_batches_sample :
  facet_batches 2 ["a"; "b"; "c"]%string
  = Return [["a"; "b"]; ["c"]]%string.
Proof. reflexivity. Qed.

Example compare_evaluations_scenario :
  exists cmp,
    compare_evaluations two_models = ComparisonOk cmp /\
    (exists a, model_agreements cmp !! "grammar"%string = Some a /\ a == 0) /\
    (exists c, consensus_scores cmp !! "grammar"%string = Some c /\ c == 4.6).
Proof.
  eexists. split; [reflexivity|]. split; eexists; split;
    try (vm_compute; reflexivity).
Qed.

(** * Further properties *)

(** ** Ranges of the aggregation *)

Lemma ofZ_le (a b : Z) : (a <= b)%Z -> ofZ a <= ofZ b.
Proof. intros H. unfold ofZ. now rewrite <- Zle_Qle. Qed.

Lemma lenQ_cons {A} (x : A) (xs : list A) : lenQ (x :: xs) == 1 + lenQ xs.
Proof.
  unfold lenQ. cbn [length]. rewrite Nat2Z.inj_succ, <- Z.add_1_l.
  now rewrite inject_Z_plus.
Qed.

Lemma sumQ_bounds (lo hi : Q) (xs : list Q) :
  Forall (fun x => lo <= x /\ x <= hi) xs ->
  lo * lenQ xs <= sumQ xs /\ sumQ xs <= hi * lenQ xs.
Proof.
  induction 1 as [|x xs [Hlo Hhi] _ [IHlo IHhi]].
  - rewrite sumQ_nil. change (lenQ (@nil Q)) with 0. lra.
  - rewrite sumQ_cons, lenQ_cons. lra.
Qed.

Lemma average_bounds (lo hi : Q) (xs : list Q) :
  xs <> [] -> Forall (fun x => lo <= x /\ x <= hi) xs ->
  lo <= average xs /\ average xs <= hi.
Proof.
  intros Hne H. destruct (sumQ_bounds lo hi xs H) as [Hlo Hhi].
  pose proof (lenQ_pos xs Hne) as Hlen. unfold average. split.
  - apply Qle_shift_div_l; assumption.
  - apply Qle_shift_div_r; assumption.
Qed.

Lemma category_consistency_range (xs : list Z) :
  unit_interval (category_consistency xs).
Proof.
  unfold category_consistency, unit_interval.
  pose proof (population_variance_nonneg xs) as Hv.
  destruct (pymax_spec 0 (1 - population_variance xs / 4)) as [[? ->]|[? ->]];
    rewrite ?Qdiv_4 in *; lra.
Qed.

(** The consistency score is 1.0 when no category has two judgments, and
    the average of the category consistencies otherwise. *)
Lemma analyze_facet_consistency_cases (J : list EvaluationResult) :
  (category_consistencies J = [] /\
   FacetEvaluator.analyze_facet_consistency J = 1.0) \/
  (category_consistencies J <> [] /\
   FacetEvaluator.analyze_facet_consistency J
     == average (category_consistencies J)).
Proof.
  unfold FacetEvaluator.analyze_facet_consistency.
  destruct (Nat.ltb_spec (length J) 2) as [Hlt|_].
  - left. split; [now apply category_consistencies_short | reflexivity].
  - pose proof (consistency_scores_Permutation J) as HP.
    destruct (fold_left FacetEvaluator.consistency_step _ []) as [|x xs] eqn:E.
    + left. split; [|reflexivity]. now apply Permutation_nil_l in HP.
    + right. split.
      * intros Hnil. rewrite Hnil in HP. now apply Permutation_nil_r in HP.
      * unfold average, lenQ.
        rewrite (sumQ_Permutation _ _ HP), (Permutation_length HP).
        reflexivity.
Qed.

Lemma consistency_unit_interval (J : list EvaluationResult) :
  unit_interval (FacetEvaluator.analyze_facet_consistency J).
Proof.
  unfold unit_interval.
  destruct (analyze_facet_consistency_cases J) as [[_ ->]|[Hne ->]].
  - lra.
  - apply average_bounds; [exact Hne|].
    unfold category_consistencies. apply Forall_map, Forall_forall.
    intros g _. apply category_consistency_range.
Qed.

(** The consistency score always lies in [0,1], and it differs from 1
    only when some category holds at least two judgments. *)
Theorem analyze_facet_consistency_range (J : list EvaluationResult) :
  unit_interval (FacetEvaluator.analyze_facet_consistency J) /\
  (FacetEvaluator.analyze_facet_consistency J == 1 \/
   exists c, (2 <= length (category_scores c J))%nat).
Proof.
  split; [apply consistency_unit_interval|].
  destruct (analyze_facet_consistency_cases J) as [[_ ->]|[Hne _]].
  - left. reflexivity.
  - right. unfold category_consistencies in Hne.
    destruct (List.filter multi_member _) as [|g gs] eqn:E;
      [now contradiction Hne|].
    assert (Hg : In g (List.filter multi_member
                         (map (fun c => category_scores c J) all_categories)))
      by (rewrite E; now left).
    apply filter_In in Hg as [Hin Hm]. apply in_map_iff in Hin as [c [<- _]].
    exists c. unfold multi_member in Hm. now apply Nat.leb_le in Hm.
Qed.

Section MetricsRange.
Variable config_weights : gmap string Q.

Lemma weighted_confidences_fold (J : list EvaluationResult) (acc : list Q) :
  fold_left (weighted_confidence_step config_weights) J acc
  = acc ++ map (fun r => confidence r
                         * FacetEvaluator.weight_of config_weights (facet r))
             J.
Proof.
  revert acc. induction J as [|r J IH]; intros acc; simpl.
  - now rewrite app_nil_r.
  - rewrite IH. unfold weighted_confidence_step. now rewrite <- app_assoc.
Qed.

Lemma weighted_confidences_bounds (J : list EvaluationResult) :
  nonnegative_weights config_weights -> Forall valid_confidence J ->
  0 <= sumQ (fold_left (weighted_confidence_step config_weights) J []) /\
  sumQ (fold_left (weighted_confidence_step config_weights) J [])
  <= sumQ (map (fun r => FacetEvaluator.weight_of config_weights (facet r))
             J).
Proof.
  intros Hw HJ. rewrite weighted_confidences_fold. simpl.
  induction HJ as [|r J [Hlo Hhi] _ [IHlo IHhi]]; simpl.
  - rewrite sumQ_nil. lra.
  - rewrite !sumQ_cons.
    pose proof (weight_of_nonnegative config_weights (facet r) Hw) as Hwr.
    split; nra.
Qed.

Lemma uncertainty_range (x : Q) : 0 <= x -> unit_interval (pymin 1.0 (x / 2.0)).
Proof.
  intros Hx. unfold unit_interval.
  destruct (pymin_spec 1.0 (x / 2.0)) as [[? ->]|[? ->]];
    rewrite ?Qdiv_2 in *; lra.
Qed.

Lemma score_variance_nonneg (J : list EvaluationResult) :
  0 <= _calculate_score_variance J.
Proof.
  destruct J as [|r J]; [unfold _calculate_score_variance; simpl; lra|].
  rewrite score_variance_population by discriminate.
  apply population_variance_nonneg.
Qed.

Lemma metrics_valid (J : list EvaluationResult) :
  positive_weights config_weights -> Forall valid_confidence J ->
  exists m,
    _calculate_confidence_metrics config_weights J = Return m /\
    valid_metrics m.
Proof.
  intros Hw HJ. destruct J as [|r J].
  - eexists. split; [reflexivity|]. unfold valid_metrics, unit_interval.
    simpl. lra.
  - set (K := r :: J) in *. assert (HK : K <> []) by discriminate.
    pose proof (weights_sum_positive config_weights K Hw HK) as Hpos.
    assert (Hnn : nonnegative_weights config_weights).
    { intros f w Hf. apply Qlt_le_weak. exact (Hw f w Hf). }
    destruct (weighted_confidences_bounds K Hnn HJ) as [Hlo Hhi].
    eexists. split.
    + apply metrics_nonempty; [exact HK|]. apply pydiv_Return. lra.
    + assert (Havg : 0 <= sumQ (map confidence K) / lenQ K /\
                     sumQ (map confidence K) / lenQ K <= 1).
      { pose proof (average_bounds 0 1 (map confidence K)) as H.
        unfold average, lenQ in H. rewrite length_map in H.
        apply H; [discriminate|]. apply Forall_map. exact HJ. }
      unfold valid_metrics. cbn [overall_confidence model_confidence
        consistency_score uncertainty_estimate].
      split; [exact Havg|]. split; [|split].
      * split; [apply Qle_shift_div_l | apply Qle_shift_div_r]; lra.
      * apply consistency_unit_interval.
      * apply uncertainty_range, score_variance_nonneg.
Qed.

(** With positive configured weights and confidences in [0,1], the
    confidence calculator returns, and each of its four metrics lies in
    [0,1]. *)
Theorem confidence_metrics_valid (J : list EvaluationResult) :
  positive_weights config_weights -> Forall valid_confidence J ->
  exists m,
    _calculate_confidence_metrics config_weights J = Return m /\
    valid_metrics m.
Proof. apply metrics_valid. Qed.

Lemma metrics_raise_iff (J : list EvaluationResult) (e : exn) :
  _calculate_confidence_metrics config_weights J = Raise e <->
  e = ZeroDivisionError /\ J <> [] /\
  sumQ (map (fun r => FacetEvaluator.weight_of config_weights (facet r)) J)
  == 0.
Proof.
  destruct J as [|r J].
  - split; [discriminate|]. intros (_ & H & _). now contradiction H.
  - set (K := r :: J). unfold _calculate_confidence_metrics.
    fold K. unfold pydiv.
    destruct (Qeq_bool _ 0) eqn:E.
    + apply Qeq_bool_iff in E. split.
      * intros [= <-]. repeat split; [discriminate | exact E].
      * now intros (-> & _ & _).
    + apply Qeq_bool_neq in E. split; [discriminate|].
      intros (_ & _ & H). contradiction.
Qed.
End MetricsRange.

Lemma confidence_metrics_valid_witness :
  exists m,
    _calculate_confidence_metrics ∅ scenario_judgments = Return m /\
    valid_metrics m.
Proof.
  apply confidence_metrics_valid.
  - apply map_Forall_empty.
  - repeat constructor; unfold valid_confidence; simpl; lra.
Defined.

(** ** Ranges and alignment of the comparison *)

Lemma extremes_identical (xs : list Z) :
  xs <> [] -> (max_of xs = min_of xs <-> identical xs).
Proof.
  intros Hne.
  destruct (max_of_is_maximum xs Hne) as [Hmax_in Hmax].
  destruct (min_of_is_minimum xs Hne) as [Hmin_in Hmin].
  split.
  - intros Heq x y Hx Hy.
    pose proof (Hmax x Hx). pose proof (Hmin x Hx).
    pose proof (Hmax y Hy). pose proof (Hmin y Hy). lia.
  - intros Hid. now apply Hid.
Qed.

Lemma facet_agreement_range (xs : list Z) :
  xs <> [] ->
  unit_interval (facet_agreement xs) /\
  (facet_agreement xs == 1 <-> identical xs).
Proof.
  intros Hne.
  destruct (max_of_is_maximum xs Hne) as [Hmax_in Hmax].
  destruct (min_of_is_minimum xs Hne) as [Hmin_in Hmin].
  pose proof (Hmax _ Hmin_in) as Hle.
  pose proof (extremes_identical xs Hne) as Hid.
  unfold facet_agreement, unit_interval.
  assert (Hr : 0 <= ofZ (max_of xs - min_of xs)).
  { apply (ofZ_le 0). lia. }
  destruct (pymax_spec 0 (1 - ofZ (max_of xs - min_of xs) / 4))
    as [[H ->]|[H ->]]; rewrite Qdiv_4 in *.
  - split; [lra|]. rewrite <- Hid. split.
    + intros H1. assert (H0 : ofZ (max_of xs - min_of xs) == ofZ 0).
      { change (ofZ 0) with 0.
        set (r := ofZ (max_of xs - min_of xs)) in *. lra. }
      unfold ofZ in H0. apply (proj1 (inject_Z_injective _ _)) in H0. lia.
    + intros ->. rewrite Z.sub_diag. change (ofZ 0) with 0. lra.
  - split; [lra|]. rewrite <- Hid. split.
    + intros H1. set (r := ofZ (max_of xs - min_of xs)) in *. lra.
    + intros Heq. rewrite Heq, Z.sub_diag in H.
      change (ofZ 0) with 0 in H. lra.
Qed.

Lemma sumZ_bounds (lo hi : Z) (xs : list Z) :
  Forall (fun x => (lo <= x <= hi)%Z) xs ->
  (lo * Z.of_nat (length xs) <= sumZ xs <= hi * Z.of_nat (length xs))%Z.
Proof.
  induction 1 as [|x xs Hx _ IH].
  - simpl. unfold sumZ. simpl. lia.
  - rewrite sumZ_cons. cbn [length]. lia.
Qed.

Lemma mean_bounds (lo hi : Z) (xs : list Z) :
  xs <> [] -> Forall (fun x => (lo <= x <= hi)%Z) xs ->
  ofZ lo <= mean xs /\ mean xs <= ofZ hi.
Proof.
  intros Hne H. pose proof (sumZ_bounds lo hi xs H) as [Hlo Hhi].
  pose proof (lenQ_pos xs Hne) as Hlen. unfold mean.
  apply ofZ_le in Hlo, Hhi. unfold ofZ in Hlo, Hhi.
  rewrite inject_Z_mult in Hlo, Hhi. fold (lenQ xs) in Hlo, Hhi.
  unfold ofZ. split.
  - apply Qle_shift_div_l; assumption.
  - apply Qle_shift_div_r; assumption.
Qed.

Section CompareRanges.
Variable evaluations : list (string * ConversationEvaluation).

(** For a comparison of evaluations under distinct model names, the
    agreement recorded for a facet lies in [0,1] and is 1 exactly when all
    the models that judged the facet gave the same score; and the facet
    was judged by at least two models. *)
Theorem compare_evaluations_ranges (cmp : Comparison) (f : string) (a : Q) :
  NoDup (dict_keys evaluations) ->
  compare_evaluations evaluations = ComparisonOk cmp ->
  model_agreements cmp !! f = Some a ->
  (2 <= length (judged evaluations f))%nat /\
  unit_interval a /\
  (a == 1 <-> identical (judged_scores (judged evaluations f))).
Proof.
  intros Hnd Hcmp Ha. unfold compare_evaluations in Hcmp.
  destruct (length evaluations <? 2)%nat; [discriminate|].
  injection Hcmp as <-.
  pose proof (compare_lookup evaluations f Hnd) as Hl.
  rewrite facet_entry_judged in Hl by exact Hnd.
  set (js := judged evaluations f) in *. cbv zeta in Hl.
  unfold lookup4 in Hl.
  destruct (Nat.leb_spec 2 (length js)) as [Hjs|Hjs]; simpl in Hl.
  2:{ injection Hl as Hl _ _ _. congruence. }
  injection Hl as Hl _ _ _. rewrite Hl in Ha. injection Ha as <-.
  assert (Hne : judged_scores js <> []).
  { unfold judged_scores. destruct js; simpl in *; [lia | discriminate]. }
  destruct (facet_agreement_range _ Hne) as [Hrange Hone].
  split; [exact Hjs|]. split; [exact Hrange | exact Hone].
Qed.
End CompareRanges.

Lemma compare_evaluations_ranges_witness :
  exists cmp a,
    compare_evaluations two_models = ComparisonOk cmp /\
    model_agreements cmp !! "grammar"%string = Some a /\
    unit_interval a /\
    (a == 1 <-> identical (judged_scores (judged two_models "grammar"))).
Proof.
  assert (Hnd : NoDup (dict_keys two_models)) by compute_done.
  eexists. eexists. split; [reflexivity|]. split; [reflexivity|].
  destruct (compare_evaluations_ranges two_models _ "grammar"%string _ Hnd
              eq_refl eq_refl) as (_ & Hr & Hone).
  split; [exact Hr | exact Hone].
Defined.

Lemma dict_mem_keys {V W} (d : list (string * V)) (d' : list (string * W))
    (k : string) :
  dict_keys d = dict_keys d' -> dict_mem k d = dict_mem k d'.
Proof.
  intros H. unfold dict_mem.
  destruct (dict_get k d) eqn:E, (dict_get k d') eqn:E'; try reflexivity.
  - apply dict_get_None in E'. rewrite <- H in E'.
    apply dict_get_elem_of in E. exfalso. apply E'.
    apply list_elem_of_fmap. now exists (k, v).
  - apply dict_get_None in E. rewrite H in E.
    apply dict_get_elem_of in E'. exfalso. apply E.
    apply list_elem_of_fmap. now exists (k, w).
Qed.

Lemma dict_mem_false {V} (d : list (string * V)) (k : string) :
  dict_mem k d = false <-> k ∉ dict_keys d.
Proof.
  unfold dict_mem. rewrite <- dict_get_None.
  destruct (dict_get k d); split; congruence.
Qed.

Section Aligned.
Variable evaluations : list (string * ConversationEvaluation).

Lemma collect_fold_aligned (facet : string)
    (es : list (string * ConversationEvaluation))
    (acc : list (string * Z) * list (string * Q)) :
  (forall m, m ∈ dict_keys es -> m ∈ dict_keys evaluations) ->
  aligned evaluations (fst acc) (snd acc) ->
  aligned evaluations (fst (fold_left (collect_step facet) es acc))
    (snd (fold_left (collect_step facet) es acc)).
Proof.
  revert acc. induction es as [|[m ev] es IH]; intros acc Hes Hacc; simpl.
  - exact Hacc.
  - apply IH.
    + intros m' Hm'. apply Hes. simpl. now right.
    + destruct (dict_get facet (facet_scores ev)) as [r|]; [|exact Hacc].
      destruct Hacc as (Hk & Hnd & Hsub). simpl.
      pose proof (dict_set_NoDup (fst acc) m (score r) Hnd) as Hnd'.
      rewrite dict_keys_set in Hnd'.
      unfold aligned. rewrite !dict_keys_set.
      rewrite <- (dict_mem_keys (fst acc) (snd acc) m Hk), <- Hk.
      split; [reflexivity|].
      split; [exact Hnd'|].
      intros m'. destruct (dict_mem m (fst acc)); [apply Hsub|].
      rewrite elem_of_app, list_elem_of_singleton.
      intros [H| ->]; [now apply Hsub|]. apply Hes. simpl. now left.
Qed.

(** [compare_evaluations] gives the error dictionary exactly for fewer
    than two evaluations.  Otherwise a facet is in all four maps or in
    none, and where it is, the per-model scores and confidences have the
    same model names in the same order, at least two of them, without
    repetition, all of them names of the evaluations compared. *)
Theorem compare_evaluations_maps_aligned :
  match compare_evaluations evaluations with
  | ComparisonError _ => (length evaluations < 2)%nat
  | ComparisonOk cmp =>
      (2 <= length evaluations)%nat /\
      forall f,
        lookup4 cmp f = (None, None, None, None) \/
        exists a fs fc c,
          lookup4 cmp f = (Some a, Some fs, Some fc, Some c) /\
          (2 <= length fs)%nat /\ aligned evaluations fs fc
  end.
Proof.
  unfold compare_evaluations.
  destruct (Nat.ltb_spec (length evaluations) 2) as [Hlt|Hge];
    [exact Hlt|].
  split; [exact Hge|]. intros f. rewrite compare_fold_lookup.
  assert (Hempty : lookup4 (mkComparison ∅ ∅ ∅ ∅) f
                   = (None, None, None, None)).
  { unfold lookup4. simpl. now rewrite !lookup_empty. }
  rewrite Hempty.
  destruct (decide (f ∈ elements (all_facets evaluations))); [|now left].
  unfold facet_entry.
  pose proof (collect_fold_aligned f evaluations ([], [])
                (fun m H => H)) as Hal.
  destruct (fold_left (collect_step f) evaluations ([], [])) as [fs fc].
  destruct (Nat.leb_spec 2 (length fs)) as [Hfs|_]; [|now left].
  right. exists (facet_agreement (dict_values fs)), fs, fc,
    (facet_consensus fs fc).
  split; [reflexivity|]. split; [exact Hfs|]. apply Hal.
  split; [reflexivity|]. split; [apply NoDup_nil_2|].
  intros m Hm. simpl in Hm. now apply elem_of_nil in Hm.
Qed.
End Aligned.

(** ** Runs of the single-conversation evaluator and of batches *)

Section Chunks.
Context {A : Type}.

Lemma chunks_concat (n fuel : nat) (xs : list A) :
  (0 < n)%nat -> (length xs <= fuel)%nat -> concat (chunks fuel n xs) = xs.
Proof.
  intros Hn. revert xs. induction fuel as [|fuel IH]; intros xs Hlen.
  - destruct xs; [reflexivity | simpl in Hlen; lia].
  - destruct xs as [|x xs]; [reflexivity|].
    cbn [chunks concat]. rewrite IH.
    + apply take_drop.
    + rewrite length_drop. simpl in *. lia.
Qed.

Lemma chunks_sizes (n fuel : nat) (xs : list A) :
  (0 < n)%nat ->
  Forall (fun b => b <> [] /\ (length b <= n)%nat) (chunks fuel n xs).
Proof.
  intros Hn. revert xs. induction fuel as [|fuel IH]; intros xs.
  - destruct xs; constructor.
  - destruct xs as [|x xs]; [constructor|].
    cbn [chunks]. constructor; [|apply IH]. split.
    + destruct n; [lia | discriminate].
    + rewrite length_take. lia.
Qed.

Lemma chunks_length (n fuel : nat) (xs : list A) :
  (0 < n)%nat -> (length xs <= fuel)%nat ->
  length (chunks fuel n xs) = ((length xs + n - 1) / n)%nat.
Proof.
  intros Hn. revert xs. induction fuel as [|fuel IH]; intros xs Hlen.
  - destruct xs; [|simpl in Hlen; lia]. simpl.
    symmetry. apply Nat.div_small. lia.
  - destruct xs as [|x xs].
    + simpl. symmetry. apply Nat.div_small. lia.
    + cbn [chunks length]. rewrite IH by (rewrite length_drop; simpl in *; lia).
      rewrite length_drop. cbn [length].
      destruct (Nat.le_gt_cases n (S (length xs))) as [Hle|Hgt].
      * replace (S (length xs) + n - 1)%nat
          with ((S (length xs) - n + n - 1) + 1 * n)%nat by lia.
        rewrite Nat.div_add by lia. lia.
      * replace (S (length xs) - n)%nat with 0%nat by lia.
        rewrite (Nat.div_small (0 + n - 1) n) by lia.
        symmetry.
        assert (H : (S (length xs) + n - 1 = length xs + 1 * n)%nat) by lia.
        rewrite H, Nat.div_add, Nat.div_small by lia. reflexivity.
Qed.
End Chunks.

Lemma judgments_facetwise (model : Model) (conversation : string)
    (batches : list (list string)) :
  facetwise model ->
  judgments model conversation batches
  = model_evaluate_conversation model conversation (concat batches).
Proof.
  intros Hf. unfold judgments.
  assert (H : forall acc,
            fold_left
              (fun all_results batch =>
                 all_results
                 ++ model_evaluate_conversation model conversation batch)
              batches acc
            = acc ++ model_evaluate_conversation model conversation
                       (concat batches)).
  { induction batches as [|b bs IH]; intros acc; simpl.
    - specialize (Hf conversation [] []). simpl in Hf.
      destruct (model_evaluate_conversation model conversation []);
        [now rewrite app_nil_r|].
      simpl in Hf. apply (f_equal length) in Hf. simpl in Hf.
      rewrite length_app in Hf. simpl in Hf. lia.
    - rewrite IH, Hf. now rewrite app_assoc. }
  apply (H []).
Qed.

Section EvaluateRun.
Variable config_weights : gmap string Q.
Variable default_model : option string.
Variable facet_batch_size : Z.
Variable clock : nat -> Q.
Variable backend : nat -> option string -> result Model.

Lemma load_model_clock (name : option string) (w : World) :
  clock_reads (snd (load_model backend name w)) = clock_reads w.
Proof.
  unfold load_model. destruct (models w !! name); [reflexivity|].
  now destruct (backend (load_attempts w) name).
Qed.

Lemma load_model_tick (name : option string) (n : nat) (w : World) :
  fst (load_model backend name (tick n w)) = acquires backend w name.
Proof. now rewrite load_model_acquires. Qed.

Lemma evaluate_conversation_run (conversation : conversation_input)
    (facets : list string) (conversation_id name : option string)
    (w : World) :
  let w1 := tick (S (id_reads conversation_id)) w in
  let w2 := snd (load_model backend (requested_model default_model name) w1) in
  evaluate_conversation config_weights default_model facet_batch_size clock
    backend conversation facets conversation_id name w
  = match acquires backend w (requested_model default_model name) with
    | Raise e => (Raise e, w2)
    | Return model =>
        evaluation_of config_weights facet_batch_size clock conversation
          facets conversation_id model w w2
    end.
Proof.
  intros w1 w2. rewrite <- (load_model_tick _ (S (id_reads conversation_id)) w).
  fold w1. subst w2.
  assert (Hr : clock_reads
                 (snd (load_model backend
                         (requested_model default_model name) w1))
               = (S (id_reads conversation_id) + clock_reads w)%nat).
  { now rewrite load_model_clock. }
  unfold evaluate_conversation, evaluation_of, bind, time_time,
    load_model_async, _evaluate_facets_async, lift, ret, settled_id, id_reads
    in *.
  fold (requested_model default_model name) in *.
  assert (Ht : DataProcessor.clean_conversation_text
                 (text match conversation with
                       | RawText s => mkConversationTurn s None None None None
                       | Turn t => t
                       end)
               = DataProcessor.clean_conversation_text
                   (input_text conversation)) by now destruct conversation.
  rewrite Ht. clear Ht. subst w1. unfold tick in *.
  destruct conversation_id as [id|]; cbn [truthy] in *;
    [destruct (negb (id =? ""))%string|]; cbn -[load_model] in *;
    destruct (load_model backend _ _) as [[model|e] w2]; cbn in *;
    try reflexivity;
    unfold bind, lift, ret;
    (destruct (facet_batches facet_batch_size facets) as [bs|e];
     [|reflexivity]); cbn;
    fold (judgments model
            (DataProcessor.clean_conversation_text (input_text conversation))
            bs);
    (destruct (_calculate_confidence_metrics config_weights _) as [m|e];
     [|reflexivity]); cbn; rewrite Hr; reflexivity.
Qed.
End EvaluateRun.

Section EvaluateFacts.
Variable config_weights : gmap string Q.
Variable default_model : option string.
Variable facet_batch_size : Z.
Variable clock : nat -> Q.
Variable backend : nat -> option string -> result Model.

Lemma facet_batches_cases (facets : list string) :
  (facet_batch_size = 0%Z /\
   facet_batches facet_batch_size facets
   = Raise (ValueError "range() arg 3 must not be zero")) \/
  ((facet_batch_size < 0)%Z /\
   facet_batches facet_batch_size facets = Return []) \/
  ((0 < facet_batch_size)%Z /\
   exists batches,
     facet_batches facet_batch_size facets = Return batches /\
     concat batches = facets /\
     Forall (fun b => b <> [] /\
                      (Z.of_nat (length b) <= facet_batch_size)%Z) batches).
Proof.
  unfold facet_batches.
  destruct (Z.eqb_spec facet_batch_size 0) as [H0|H0]; [now left|]. right.
  destruct (Z.ltb_spec facet_batch_size 0) as [Hneg|Hpos]; [now left|].
  right. split; [lia|]. eexists. split; [reflexivity|]. split.
  - apply chunks_concat; lia.
  - eapply Forall_impl; [apply chunks_sizes; lia|].
    intros b [Hne Hlen]. split; [exact Hne | lia].
Qed.

Lemma evaluate_conversation_raise_cases (conversation : conversation_input)
    (facets : list string) (conversation_id name : option string)
    (w : World) (e : exn) :
  fst (evaluate_conversation config_weights default_model facet_batch_size
         clock backend conversation facets conversation_id name w)
  = Raise e <->
  acquires backend w (requested_model default_model name) = Raise e \/
  exists model,
    acquires backend w (requested_model default_model name) = Return model /\
    (facet_batches facet_batch_size facets = Raise e \/
     exists batches,
       facet_batches facet_batch_size facets = Return batches /\
       _calculate_confidence_metrics config_weights
         (judgments model
            (DataProcessor.clean_conversation_text (input_text conversation))
            batches)
       = Raise e).
Proof.
  rewrite evaluate_conversation_run. cbv zeta.
  destruct (acquires backend w (requested_model default_model name))
    as [model|e0].
  - unfold evaluation_of.
    destruct (facet_batches facet_batch_size facets) as [bs|e1].
    + destruct (_calculate_confidence_metrics _ _) as [m|e2] eqn:E; simpl.
      * split; [discriminate|].
        intros [H|(model' & [= <-] & [H|(bs' & [= <-] & H)])];
          congruence.
      * split.
        -- intros [= <-]. right. exists model. split; [reflexivity|].
           right. exists bs. split; [reflexivity | exact E].
        -- intros [H|(model' & [= <-] & [H|(bs' & [= <-] & H)])];
             congruence.
    + simpl. split.
      * intros [= <-]. right. exists model. split; [reflexivity|]. now left.
      * intros [H|(model' & [= <-] & [H|(bs' & H & _)])]; congruence.
  - simpl. split.
    + intros [= <-]. now left.
    + intros [H|(model' & H & _)]; congruence.
Qed.

Lemma evaluate_conversation_return_cases (conversation : conversation_input)
    (facets : list string) (conversation_id name : option string)
    (w w' : World) (ev : ConversationEvaluation) :
  evaluate_conversation config_weights default_model facet_batch_size
    clock backend conversation facets conversation_id name w
  = (Return ev, w') ->
  exists model batches,
    acquires backend w (requested_model default_model name) = Return model /\
    facet_batches facet_batch_size facets = Return batches /\
    evaluation_of config_weights facet_batch_size clock conversation facets
      conversation_id model w
      (snd (load_model backend (requested_model default_model name)
              (tick (S (id_reads conversation_id)) w)))
    = (Return ev, w').
Proof.
  rewrite evaluate_conversation_run. cbv zeta.
  destruct (acquires backend w (requested_model default_model name))
    as [model|e0]; [|discriminate].
  intros H. exists model.
  destruct (facet_batches facet_batch_size facets) as [bs|e1] eqn:E.
  - exists bs. now repeat split.
  - unfold evaluation_of in H. rewrite E in H. discriminate.
Qed.
End EvaluateFacts.

Lemma load_model_cached (backend : nat -> option string -> result Model)
    (name : option string) (w : World) (model : Model) :
  fst (load_model backend name w) = Return model ->
  models (snd (load_model backend name w)) !! name = Some model /\
  (load_attempts (snd (load_model backend name w)) <= S (load_attempts w))%nat.
Proof.
  unfold load_model. destruct (models w !! name) as [m|] eqn:E.
  - simpl. intros [= <-]. split; [exact E | lia].
  - destruct (backend (load_attempts w) name) as [m|e]; simpl;
      [|discriminate].
    intros [= <-]. split; [apply lookup_insert_eq | lia].
Qed.

Lemma load_model_hit (backend : nat -> option string -> result Model)
    (name : option string) (w : World) (model : Model) :
  models w !! name = Some model ->
  load_model backend name w = (Return model, w).
Proof. intros H. unfold load_model. now rewrite H. Qed.

Lemma scores_dict_snoc (results : list EvaluationResult)
    (r : EvaluationResult) :
  scores_dict (results ++ [r]) = dict_set (facet r) r (scores_dict results).
Proof. unfold scores_dict. now rewrite fold_left_app. Qed.

Lemma last_for_snoc (f : string) (results : list EvaluationResult)
    (r : EvaluationResult) :
  last_for f (results ++ [r])
  = if String.eqb (facet r) f then Some r else last_for f results.
Proof.
  unfold last_for. rewrite List.filter_app. simpl.
  destruct (String.eqb (facet r) f).
  - apply last_snoc.
  - now rewrite app_nil_r.
Qed.

Lemma scores_dict_lookup (results : list EvaluationResult) (f : string) :
  dict_get f (scores_dict results) = last_for f results.
Proof.
  induction results as [|r results IH] using rev_ind; [reflexivity|].
  rewrite scores_dict_snoc, last_for_snoc.
  destruct (String.eqb_spec (facet r) f) as [<-|Hne].
  - apply dict_get_set_eq.
  - rewrite dict_get_set_ne by exact Hne. exact IH.
Qed.

Lemma scores_dict_NoDup (results : list EvaluationResult) :
  NoDup (dict_keys (scores_dict results)).
Proof.
  induction results as [|r results IH] using rev_ind.
  - apply NoDup_nil_2.
  - rewrite scores_dict_snoc. now apply dict_set_NoDup.
Qed.

Lemma scores_dict_length (results : list EvaluationResult) :
  (length (scores_dict results) <= length results)%nat.
Proof.
  induction results as [|r results IH] using rev_ind; [simpl; lia|].
  rewrite scores_dict_snoc, length_app. simpl.
  pose proof (dict_keys_set (scores_dict results) (facet r) r) as H.
  apply (f_equal length) in H. unfold dict_keys in H at 1.
  rewrite length_map in H. rewrite H.
  destruct (dict_mem (facet r) (scores_dict results)); unfold dict_keys;
    rewrite ?length_app, length_map; simpl; lia.
Qed.

Section EvaluateTheorems.
Variable config_weights : gmap string Q.
Variable default_model : option string.
Variable facet_batch_size : Z.
Variable clock : nat -> Q.
Variable backend : nat -> option string -> result Model.

(** With a negative sub-batch size no facet is ever put to the model:
    whatever facets are asked for, the evaluation returns a record without
    facet scores and with the sentinel confidence metrics. *)
Theorem evaluate_conversation_negative_batch_size
    (conversation : conversation_input) (facets : list string)
    (conversation_id name : option string) (w : World) (model : Model) :
  (facet_batch_size < 0)%Z ->
  acquires backend w (requested_model default_model name) = Return model ->
  exists ev,
    fst (evaluate_conversation config_weights default_model facet_batch_size
           clock backend conversation facets conversation_id name w)
    = Return ev /\
    facet_scores ev = [] /\
    confidence_metrics ev = mkConfidenceMetrics 0.0 0.0 0.0 1.0.
Proof.
  intros Hneg Hm. rewrite evaluate_conversation_run. cbv zeta. rewrite Hm.
  unfold evaluation_of.
  destruct (facet_batches_cases facet_batch_size facets)
    as [[H0 _]|[[_ ->]|[Hp _]]]; [lia| |lia].
  simpl. eexists. repeat split.
Qed.

(** For a model that judges facet by facet, any two positive sub-batch
    sizes give the same outcome and the same final state. *)
Theorem evaluate_conversation_batch_size_irrelevant
    (size1 size2 : Z) (conversation : conversation_input)
    (facets : list string) (conversation_id name : option string)
    (w : World) :
  (0 < size1)%Z -> (0 < size2)%Z ->
  (forall model,
     acquires backend w (requested_model default_model name) = Return model ->
     facetwise model) ->
  evaluate_conversation config_weights default_model size1 clock backend
    conversation facets conversation_id name w
  = evaluate_conversation config_weights default_model size2 clock backend
      conversation facets conversation_id name w.
Proof.
  intros H1 H2 Hf. rewrite !evaluate_conversation_run. cbv zeta.
  destruct (acquires backend w (requested_model default_model name))
    as [model|e]; [|reflexivity].
  specialize (Hf model eq_refl). unfold evaluation_of.
  destruct (facet_batches_cases size1 facets)
    as [[H0 _]|[[Hn _]|[_ (bs1 & -> & Hc1 & _)]]]; [lia|lia|].
  destruct (facet_batches_cases size2 facets)
    as [[H0 _]|[[Hn _]|[_ (bs2 & -> & Hc2 & _)]]]; [lia|lia|].
  now rewrite !judgments_facetwise, Hc1, Hc2 by exact Hf.
Qed.

Lemma evaluate_conversation_fields (conversation : conversation_input)
    (facets : list string) (given_id name : option string)
    (w w' : World) (ev : ConversationEvaluation) :
  evaluate_conversation config_weights default_model facet_batch_size
    clock backend conversation facets given_id name w
  = (Return ev, w') ->
  conversation_text ev
  = DataProcessor.clean_conversation_text (input_text conversation) /\
  conversation_id ev = settled_id clock given_id w /\
  (forall id, given_id = Some id -> id <> ""%string ->
              conversation_id ev = id) /\
  (exists model,
     acquires backend w (requested_model default_model name) = Return model /\
     model_used ev = model_name model /\
     models w' !! requested_model default_model name = Some model) /\
  clock_reads w' = (3 + id_reads given_id + clock_reads w)%nat /\
  processing_time ev
  = clock (1 + id_reads given_id + clock_reads w)%nat
    - clock (clock_reads w) /\
  timestamp ev = clock (2 + id_reads given_id + clock_reads w)%nat.
Proof.
  intros H.
  apply evaluate_conversation_return_cases in H
    as (model & bs & Hm & Hbs & H).
  unfold evaluation_of in H. rewrite Hbs in H.
  destruct (_calculate_confidence_metrics _ _) as [m|e]; [|discriminate].
  rewrite load_model_clock in H. injection H as <- <-.
  pose proof (load_model_tick backend (requested_model default_model name)
                (S (id_reads given_id)) w) as Hl.
  rewrite Hm in Hl. apply load_model_cached in Hl as [Hc _].
  cbn [conversation_text conversation_id model_used processing_time
       timestamp tick clock_reads models].
  split; [reflexivity|]. split; [reflexivity|]. split.
  { intros id -> Hne. unfold settled_id, truthy.
    destruct (String.eqb_spec id ""); [contradiction | reflexivity]. }
  split; [now exists model|]. rewrite ?load_model_clock.
  cbn [tick clock_reads]. repeat split; try reflexivity; lia.
Qed.

End EvaluateTheorems.

Section EvaluateState.
Variable config_weights : gmap string Q.
Variable default_model : option string.
Variable facet_batch_size : Z.
Variable clock : nat -> Q.
Variable backend : nat -> option string -> result Model.

(** Apart from the clock, [evaluate_conversation] leaves the process as
    the model manager left it. *)
Lemma evaluate_conversation_state (conversation : conversation_input)
    (facets : list string) (given_id name : option string) (w : World) :
  let w2 := snd (load_model backend (requested_model default_model name)
                   (tick (S (id_reads given_id)) w)) in
  let w' := snd (evaluate_conversation config_weights default_model
                   facet_batch_size clock backend conversation facets
                   given_id name w) in
  load_attempts w' = load_attempts w2 /\ models w' = models w2 /\
  current_model w' = current_model w2.
Proof.
  cbv zeta. rewrite evaluate_conversation_run. cbv zeta.
  destruct (acquires backend w (requested_model default_model name))
    as [model|e]; [|now repeat split].
  unfold evaluation_of.
  destruct (facet_batches facet_batch_size facets) as [bs|e];
    [|now repeat split].
  destruct (_calculate_confidence_metrics _ _) as [m|e]; now repeat split.
Qed.

(** After an evaluation that returned, a further evaluation under the
    same model name makes no attempt to load a model, whatever the loader
    would answer now, and reports the same model; the first evaluation
    made at most one attempt. *)
Theorem evaluate_conversation_reuses_model
    (c1 c2 : conversation_input) (facets1 facets2 : list string)
    (id1 id2 name : option string) (w w1 : World)
    (ev1 : ConversationEvaluation) :
  evaluate_conversation config_weights default_model facet_batch_size
    clock backend c1 facets1 id1 name w = (Return ev1, w1) ->
  (load_attempts w1 <= S (load_attempts w))%nat /\
  load_attempts
    (snd (evaluate_conversation config_weights default_model
            facet_batch_size clock backend c2 facets2 id2 name w1))
  = load_attempts w1 /\
  forall ev2,
    fst (evaluate_conversation config_weights default_model
           facet_batch_size clock backend c2 facets2 id2 name w1)
    = Return ev2 ->
    model_used ev2 = model_used ev1.
Proof.
  intros H.
  pose proof (evaluate_conversation_state c1 facets1 id1 name w) as Hs.
  cbv zeta in Hs. rewrite H in Hs. simpl in Hs. destruct Hs as (Ha & Hm & _).
  apply evaluate_conversation_return_cases in H
    as (model & bs & Hacq & Hbs & H).
  unfold evaluation_of in H. rewrite Hbs in H.
  destruct (_calculate_confidence_metrics _ _) as [m|e]; [|discriminate].
  injection H as <- _.
  pose proof (load_model_tick backend (requested_model default_model name)
                (S (id_reads id1)) w) as Hl.
  rewrite Hacq in Hl. apply load_model_cached in Hl as [Hc Hle].
  rewrite <- Hm in Hc. simpl in Hle. split; [lia|].
  pose proof (evaluate_conversation_state c2 facets2 id2 name w1) as Hs2.
  cbv zeta in Hs2. destruct Hs2 as (Ha2 & _ & _).
  rewrite load_model_hit with (model := model) in Ha2 by exact Hc.
  split; [exact Ha2|].
  intros ev2 H2. destruct (evaluate_conversation _ _ _ _ _ c2 _ _ _ _)
    as [r2 w2] eqn:E2. simpl in H2. subst r2.
  apply evaluate_conversation_return_cases in E2
    as (model2 & bs2 & Hacq2 & Hbs2 & E2).
  unfold acquires in Hacq2. rewrite Hc in Hacq2. injection Hacq2 as <-.
  unfold evaluation_of in E2. rewrite Hbs2 in E2.
  destruct (_calculate_confidence_metrics _ _) as [m2|e]; [|discriminate].
  now injection E2 as <- _.
Qed.

(** The facet scores of a returned evaluation hold, for each facet, the
    last result the model gave for it, under distinct keys, while the
    confidence metrics are computed from all the results, repeated facets
    included. *)
Theorem evaluate_conversation_facet_scores
    (conversation : conversation_input) (facets : list string)
    (given_id name : option string) (w w' : World)
    (ev : ConversationEvaluation) :
  evaluate_conversation config_weights default_model facet_batch_size
    clock backend conversation facets given_id name w = (Return ev, w') ->
  exists model batches,
    acquires backend w (requested_model default_model name) = Return model /\
    facet_batches facet_batch_size facets = Return batches /\
    let results :=
      judgments model
        (DataProcessor.clean_conversation_text (input_text conversation))
        batches in
    _calculate_confidence_metrics config_weights results
    = Return (confidence_metrics ev) /\
    (forall f, dict_get f (facet_scores ev) = last_for f results) /\
    NoDup (dict_keys (facet_scores ev)) /\
    (length (facet_scores ev) <= length results)%nat.
Proof.
  intros H.
  apply evaluate_conversation_return_cases in H
    as (model & bs & Hacq & Hbs & H).
  exists model, bs. split; [exact Hacq|]. split; [exact Hbs|]. cbv zeta.
  unfold evaluation_of in H. rewrite Hbs in H.
  destruct (_calculate_confidence_metrics _ _) as [m|e]; [|discriminate].
  injection H as <- _. cbn [confidence_metrics facet_scores].
  split; [reflexivity|]. split; [apply scores_dict_lookup|].
  split; [apply scores_dict_NoDup | apply scores_dict_length].
Qed.
End EvaluateState.

Lemma mock_model_facetwise : facetwise mock_model.
Proof. intros conversation xs ys. apply map_app. Qed.

Lemma evaluate_conversation_negative_batch_size_witness :
  exists ev,
    fst (evaluate_conversation ∅ (Some "mock"%string) (-1) tenth_clock
           always_loads (RawText "hi") ["grammar"%string] None None
           initial_world)
    = Return ev /\
    facet_scores ev = [] /\
    confidence_metrics ev = mkConfidenceMetrics 0.0 0.0 0.0 1.0.
Proof.
  apply (evaluate_conversation_negative_batch_size ∅ (Some "mock"%string)
           (-1) tenth_clock always_loads (RawText "hi") ["grammar"%string]
           None None initial_world mock_model).
  - lia.
  - reflexivity.
Defined.

Lemma evaluate_conversation_batch_size_irrelevant_witness :
  evaluate_conversation ∅ (Some "mock"%string) 1 tenth_clock always_loads
    (RawText "hi") ["grammar"; "clarity"; "bias"]%string None None
    initial_world
  = evaluate_conversation ∅ (Some "mock"%string) 2 tenth_clock always_loads
      (RawText "hi") ["grammar"; "clarity"; "bias"]%string None None
      initial_world.
Proof.
  apply evaluate_conversation_batch_size_irrelevant; [lia | lia |].
  intros model [= <-]. exact mock_model_facetwise.
Defined.

Lemma sample_run_returns : exists ev w', sample_run = (Return ev, w').
Proof. eexists. eexists. vm_compute. reflexivity. Qed.

Lemma evaluate_conversation_reuses_model_witness :
  exists ev w',
    sample_run = (Return ev, w') /\
    load_attempts
      (snd (evaluate_conversation ∅ (Some "mock"%string) 2 tenth_clock
              always_loads (RawText "again") ["bias"%string] None None w'))
    = load_attempts w'.
Proof.
  destruct sample_run_returns as (ev & w' & H). exists ev, w'.
  split; [exact H|]. unfold sample_run in H.
  destruct (evaluate_conversation_reuses_model _ _ _ _ _ (RawText "hi  there")
              (RawText "again") _ ["bias"%string] _ None _ _ _ _ H)
    as (_ & Ha & _).
  exact Ha.
Defined.

Lemma evaluate_conversation_facet_scores_witness :
  exists ev w',
    sample_run = (Return ev, w') /\
    NoDup (dict_keys (facet_scores ev)) /\
    (length (facet_scores ev) <= 3)%nat.
Proof.
  destruct sample_run_returns as (ev & w' & H). exists ev, w'.
  split; [exact H|]. unfold sample_run in H.
  destruct (evaluate_conversation_facet_scores _ _ _ _ _ _ _ _ _ _ _ _ H)
    as (model & bs & Hacq & Hbs & _ & _ & Hnd & Hlen).
  split; [exact Hnd|].
  injection Hacq as <-. injection Hbs as <-. exact Hlen.
Defined.

(** *** Batches *)

Lemma run_all_lookup {A} (tasks : list (M A)) (w : World) (i : nat)
    (r : result A) :
  fst (run_all tasks w) !! i = Some r ->
  exists task wi, tasks !! i = Some task /\ fst (task wi) = r.
Proof.
  revert w i. induction tasks as [|task tasks IH]; intros w i; simpl.
  - now rewrite lookup_nil.
  - destruct (task w) as [r0 w0] eqn:E.
    destruct (run_all tasks w0) as [rs w1] eqn:E1. simpl.
    destruct i as [|i]; simpl.
    + intros [= <-]. exists task, w. now rewrite E.
    + intros H. specialize (IH w0 i). rewrite E1 in IH. exact (IH H).
Qed.

Lemma batch_id_inj (i j : nat) :
  ("batch_conv_" +:+ pretty i)%string = ("batch_conv_" +:+ pretty j)%string ->
  i = j.
Proof.
  simpl. intros [= H]. change (pretty i = pretty j) in H.
  now apply (inj pretty) in H.
Qed.

Section BatchResult.
Variable config_weights : gmap string Q.
Variable default_model : option string.
Variable facet_batch_size : Z.
Variable clock : nat -> Q.
Variable backend : nat -> option string -> result Model.
Variable sqrt_float : Q -> Q.

Lemma batch_evaluate_returned (conversations : list conversation_input)
    (facets : list string) (name : option string) (w : World)
    (b : BatchEvaluationResult) :
  fst (batch_evaluate config_weights default_model facet_batch_size clock
         backend sqrt_float conversations facets name w) = Return b ->
  batch_outcomes config_weights default_model facet_batch_size clock backend
    conversations facets name w = map Return (evaluations b) /\
  evaluations b <> [] /\
  average_confidence b
  = sumQ (map (fun e => overall_confidence (confidence_metrics e))
            (evaluations b)) / lenQ (evaluations b) /\
  facet_statistics b
  = _calculate_facet_statistics sqrt_float (evaluations b) facets.
Proof.
  unfold batch_outcomes, batch_evaluate, bind, gather, lift, ret. simpl.
  destruct (run_all _ _) as [rs w'] eqn:E. simpl.
  destruct (all_returned rs) as [evs|e] eqn:Er; [|discriminate].
  apply all_returned_Return in Er. unfold pydiv.
  destruct (Qeq_bool (lenQ evs) 0) eqn:Eq; [discriminate|]. simpl.
  intros [= <-]. simpl. split; [exact Er|]. split; [|now split].
  intros ->. discriminate.
Qed.

Lemma batch_evaluation_lookup (conversations : list conversation_input)
    (facets : list string) (name : option string) (w : World)
    (b : BatchEvaluationResult) (i : nat) (ev : ConversationEvaluation) :
  fst (batch_evaluate config_weights default_model facet_batch_size clock
         backend sqrt_float conversations facets name w) = Return b ->
  evaluations b !! i = Some ev ->
  conversation_id ev = ("batch_conv_" +:+ pretty i)%string /\
  exists conversation,
    conversations !! i = Some conversation /\
    conversation_text ev
    = DataProcessor.clean_conversation_text (input_text conversation).
Proof.
  intros Hb Hi. apply batch_evaluate_returned in Hb as (Ho & _).
  assert (Hr : batch_outcomes config_weights default_model facet_batch_size
                 clock backend conversations facets name w !! i
               = Some (Return ev)).
  { rewrite Ho, list_lookup_fmap, Hi. reflexivity. }
  unfold batch_outcomes in Hr.
  apply run_all_lookup in Hr as (task & wi & Ht & Hr).
  unfold batch_tasks in Ht. rewrite list_lookup_imap in Ht.
  destruct (conversations !! i) as [conversation|] eqn:Ec; [|discriminate].
  simpl in Ht. injection Ht as <-.
  destruct (evaluate_conversation _ _ _ _ _ _ _ _ _ _) as [r w'] eqn:E.
  simpl in Hr. subst r.
  apply evaluate_conversation_fields in E as (Ht & _ & Hid & _).
  split.
  - apply Hid; [reflexivity|]. discriminate.
  - now exists conversation.
Qed.

(** A batch that returns holds one evaluation per conversation, in
    order: the [i]-th has the identifier [batch_conv_i] and the cleaned
    text of the [i]-th conversation, so the identifiers within a batch are
    pairwise distinct; the average confidence is the mean of the overall
    confidences. *)
Theorem batch_evaluate_result (conversations : list conversation_input)
    (facets : list string) (name : option string) (w : World)
    (b : BatchEvaluationResult) :
  fst (batch_evaluate config_weights default_model facet_batch_size clock
         backend sqrt_float conversations facets name w) = Return b ->
  length (evaluations b) = length conversations /\
  (forall i ev,
     evaluations b !! i = Some ev ->
     conversation_id ev = ("batch_conv_" +:+ pretty i)%string /\
     exists conversation,
       conversations !! i = Some conversation /\
       conversation_text ev
       = DataProcessor.clean_conversation_text (input_text conversation)) /\
  NoDup (map conversation_id (evaluations b)) /\
  average_confidence b
  == average (map (fun e => overall_confidence (confidence_metrics e))
               (evaluations b)).
Proof.
  intros Hb. pose proof (batch_evaluate_returned _ _ _ _ _ Hb)
    as (Ho & Hne & Havg & _).
  split; [|split; [|split]].
  - rewrite <- (batch_outcomes_length config_weights default_model
                  facet_batch_size clock backend conversations facets name w).
    now rewrite Ho, length_map.
  - intros i ev. exact (batch_evaluation_lookup _ _ _ _ _ i ev Hb).
  - apply NoDup_alt. intros i j id Hi Hj.
    rewrite list_lookup_fmap in Hi, Hj.
    destruct (evaluations b !! i) as [ei|] eqn:Ei; [|discriminate].
    destruct (evaluations b !! j) as [ej|] eqn:Ej; [|discriminate].
    simpl in Hi, Hj. injection Hi as Hi. injection Hj as Hj.
    destruct (batch_evaluation_lookup _ _ _ _ _ _ _ Hb Ei) as [Hidi _].
    destruct (batch_evaluation_lookup _ _ _ _ _ _ _ Hb Ej) as [Hidj _].
    apply batch_id_inj. congruence.
  - rewrite Havg. unfold average, lenQ. now rewrite length_map.
Qed.
End BatchResult.

Lemma batch_evaluate_result_witness :
  exists b,
    fst (batch_evaluate ∅ (Some "mock"%string) 10 tenth_clock always_loads
           no_sqrt [RawText "first"; RawText "second"] ["grammar"%string]
           None initial_world) = Return b /\
    length (evaluations b) = 2%nat /\
    NoDup (map conversation_id (evaluations b)).
Proof.
  assert (H : exists b,
             fst (batch_evaluate ∅ (Some "mock"%string) 10 tenth_clock
                    always_loads no_sqrt [RawText "first"; RawText "second"]
                    ["grammar"%string] None initial_world) = Return b).
  { eexists. vm_compute. reflexivity. }
  destruct H as [b Hb]. exists b. split; [exact Hb|].
  destruct (batch_evaluate_result _ _ _ _ _ _ _ _ _ _ _ Hb)
    as (Hlen & _ & Hnd & _).
  split; [exact Hlen | exact Hnd].
Defined.

(** ** Facet statistics and several models *)

Lemma facet_results_length (evaluations : list ConversationEvaluation)
    (f : string) :
  (length (facet_results evaluations f) <= length evaluations)%nat.
Proof.
  unfold facet_results. induction evaluations as [|e es IH]; simpl; [lia|].
  rewrite length_app. destruct (dict_get f (facet_scores e)); simpl; lia.
Qed.

Lemma extremes_ordered (xs : list Z) : xs <> [] -> (min_of xs <= max_of xs)%Z.
Proof.
  intros Hne. destruct (max_of_is_maximum xs Hne) as [_ Hmax].
  destruct (min_of_is_minimum xs Hne) as [Hin _]. now apply Hmax.
Qed.

Lemma mean_between_extremes (xs : list Z) :
  xs <> [] -> ofZ (min_of xs) <= mean xs /\ mean xs <= ofZ (max_of xs).
Proof.
  intros Hne. apply mean_bounds; [exact Hne|].
  destruct (max_of_is_maximum xs Hne) as [_ Hmax].
  destruct (min_of_is_minimum xs Hne) as [_ Hmin].
  apply Forall_forall. intros x Hx. apply list_elem_of_In in Hx.
  split; [now apply Hmin | now apply Hmax].
Qed.

Section FacetStatistics.
Variable sqrt_float : Q -> Q.
Variable evaluations : list ConversationEvaluation.

Lemma facet_statistics_step_cases (stats : list (string * FacetStatistics))
    (f : string) :
  (facet_results evaluations f = [] /\
   facet_statistics_step sqrt_float evaluations stats f = stats) \/
  (exists st,
     statistics_sound evaluations f st /\
     facet_statistics_step sqrt_float evaluations stats f
     = dict_set f st stats).
Proof.
  unfold facet_statistics_step. fold (facet_results evaluations f).
  destruct (facet_results evaluations f) as [|r rs] eqn:E; [now left|].
  right. set (results := r :: rs) in *.
  assert (Hne : map score results <> []) by discriminate.
  change (match map score results with
          | [] => stats
          | _ :: _ => ?d
          end) with d.
  eexists. split; [|reflexivity].
  unfold statistics_sound. rewrite E. fold results.
  cbn [evaluation_count mean_score min_score max_score mean_confidence].
  pose proof (facet_results_length evaluations f) as Hlen.
  rewrite E in Hlen. fold results in Hlen.
  destruct (mean_between_extremes _ Hne) as [Hlo Hhi].
  rewrite length_map. repeat split.
  - simpl. lia.
  - exact Hlen.
  - now apply extremes_ordered.
  - exact Hlo.
  - exact Hhi.
Qed.

Lemma facet_statistics_fold (facets : list string)
    (stats : list (string * FacetStatistics)) (f : string) :
  (forall st, dict_get f stats = Some st ->
              statistics_sound evaluations f st) ->
  match dict_get f
          (fold_left (facet_statistics_step sqrt_float evaluations) facets
             stats) with
  | Some st => statistics_sound evaluations f st
  | None => dict_get f stats = None /\
            (In f facets -> facet_results evaluations f = [])
  end.
Proof.
  revert stats. induction facets as [|g facets IH]; intros stats Hs; simpl.
  - destruct (dict_get f stats) as [st|]; [now apply Hs|]. now split.
  - destruct (facet_statistics_step_cases stats g)
      as [[Hnil ->]|(st & Hst & ->)].
    + specialize (IH stats Hs).
      destruct (dict_get f (fold_left _ facets stats)); [exact IH|].
      destruct IH as [Hn Hin]. split; [exact Hn|].
      intros [<-|H]; [exact Hnil | now apply Hin].
    + assert (Hs' : forall st', dict_get f (dict_set g st stats) = Some st' ->
                                statistics_sound evaluations f st').
      { intros st'. destruct (String.eqb_spec g f) as [<-|Hne].
        - rewrite dict_get_set_eq. now intros [= <-].
        - rewrite dict_get_set_ne by exact Hne. apply Hs. }
      specialize (IH _ Hs').
      destruct (dict_get f (fold_left _ facets (dict_set g st stats)));
        [exact IH|].
      destruct IH as [Hn Hin].
      destruct (String.eqb_spec g f) as [<-|Hne].
      * rewrite dict_get_set_eq in Hn. discriminate.
      * rewrite dict_get_set_ne in Hn by exact Hne. split; [exact Hn|].
        intros [H|H]; [contradiction | now apply Hin].
Qed.

Lemma facet_statistics_keys (facets : list string)
    (stats : list (string * FacetStatistics)) (f : string) :
  f ∈ dict_keys
        (fold_left (facet_statistics_step sqrt_float evaluations) facets
           stats) ->
  f ∈ dict_keys stats \/ In f facets.
Proof.
  revert stats. induction facets as [|g facets IH]; intros stats; simpl.
  - now left.
  - intros H. apply IH in H as [H|H]; [|now right; right].
    destruct (facet_statistics_step_cases stats g)
      as [[_ Heq]|(st & _ & Heq)]; rewrite Heq in H; [now left|].
    rewrite dict_keys_set in H. destruct (dict_mem g stats); [now left|].
    apply elem_of_app in H as [H|H]; [now left|].
    apply list_elem_of_singleton in H. right. now left.
Qed.

(** The facet statistics hold a record exactly for the requested facets
    that some evaluation judged.  Its count is the number of evaluations
    that judged the facet, at least one and at most the number of
    evaluations, and its mean score lies between its minimum and its
    maximum. *)
Theorem facet_statistics_sound (facets : list string) (f : string) :
  match dict_get f
          (_calculate_facet_statistics sqrt_float evaluations facets) with
  | Some st => In f facets /\ statistics_sound evaluations f st
  | None => In f facets -> facet_results evaluations f = []
  end.
Proof.
  unfold _calculate_facet_statistics.
  pose proof (facet_statistics_fold facets [] f) as H.
  destruct (dict_get f (fold_left _ facets [])) as [st|] eqn:E.
  - split; [|apply H; discriminate].
    apply dict_get_elem_of in E.
    assert (Hk : f ∈ dict_keys
                   (fold_left (facet_statistics_step sqrt_float evaluations)
                      facets [])).
    { apply list_elem_of_fmap. now exists (f, st). }
    apply facet_statistics_keys in Hk as [Hk|Hk]; [|exact Hk].
    simpl in Hk. now apply elem_of_nil in Hk.
  - apply H. discriminate.
Qed.
End FacetStatistics.

(** *** Several models *)

Lemma names_dict_keys {V} (l : list (string * V)) (d : list (string * V)) :
  NoDup (dict_keys d) ->
  NoDup (dict_keys
           (fold_left (fun d '(name, v) => dict_set name v d) l d)) /\
  forall n,
    n ∈ dict_keys (fold_left (fun d '(name, v) => dict_set name v d) l d)
    <-> n ∈ dict_keys d \/ n ∈ map fst l.
Proof.
  revert d. induction l as [|[k v] l IH]; intros d Hnd; simpl.
  - split; [exact Hnd|]. intros n. rewrite elem_of_nil. tauto.
  - destruct (IH (dict_set k v d) (dict_set_NoDup d k v Hnd)) as [Hnd' Hk].
    split; [exact Hnd'|]. intros n. rewrite Hk, dict_keys_set.
    rewrite elem_of_cons.
    destruct (dict_mem k d) eqn:E.
    + assert (Hin : k ∈ dict_keys d).
      { destruct (decide (k ∈ dict_keys d)) as [H|H]; [exact H|].
        apply dict_mem_false in H. congruence. }
      split; [tauto|]. intros [H|[->|H]]; tauto.
    + rewrite elem_of_app, list_elem_of_singleton. tauto.
Qed.

Section MultipleModels.
Variable config_weights : gmap string Q.
Variable default_model : option string.
Variable facet_batch_size : Z.
Variable clock : nat -> Q.
Variable backend : nat -> option string -> result Model.

(** The dictionary [evaluate_with_multiple_models] returns has one entry
    per distinct model name, so a repeated name leaves fewer entries than
    names, and [compare_evaluations] accepts it exactly when at least two
    distinct names were given. *)
Theorem evaluate_with_multiple_models_keys
    (conversation : conversation_input) (facets model_names : list string)
    (w : World) (d : list (string * ConversationEvaluation)) :
  fst (evaluate_with_multiple_models config_weights default_model
         facet_batch_size clock backend conversation facets model_names w)
  = Return d ->
  NoDup (dict_keys d) /\
  (forall n, n ∈ dict_keys d <-> n ∈ model_names) /\
  length d = length (remove_dups model_names) /\
  (forall e, (compare_evaluations d
              = ComparisonError e) ->
             (length (remove_dups model_names) < 2)%nat) /\
  (forall cmp, compare_evaluations d = ComparisonOk cmp ->
               (2 <= length (remove_dups model_names))%nat).
Proof.
  unfold evaluate_with_multiple_models, bind, gather, ret.
  destruct (run_all _ _) as [rs w'] eqn:E. simpl.
  destruct (all_returned rs) as [evs|e] eqn:Er; [|discriminate].
  simpl. intros [= <-].
  apply all_returned_Return in Er.
  assert (Hlen : length evs = length model_names).
  { pose proof (run_all_length
                  (map (fun name =>
                          evaluate_conversation config_weights default_model
                            facet_batch_size clock backend conversation
                            facets None (Some name)) model_names) w) as H.
    rewrite E in H. simpl in H. rewrite Er in H.
    now rewrite !length_map in H. }
  destruct (names_dict_keys (zip model_names evs) [] (NoDup_nil_2))
    as [Hnd Hk].
  assert (Hfst : map fst (zip model_names evs) = model_names).
  { apply fst_zip. lia. }
  rewrite Hfst in Hk.
  assert (Hkeys : forall n,
            n ∈ dict_keys
                  (fold_left
                     (fun d '(name, evaluation) => dict_set name evaluation d)
                     (zip model_names evs) [])
            <-> n ∈ model_names).
  { intros n. rewrite Hk. simpl. rewrite elem_of_nil. tauto. }
  assert (Hl : length (fold_left
                         (fun d '(name, evaluation) =>
                            dict_set name evaluation d)
                         (zip model_names evs) [])
               = length (remove_dups model_names)).
  { rewrite <- (length_map fst). apply Permutation_length.
    apply NoDup_Permutation; [exact Hnd | apply NoDup_remove_dups|].
    intros n. rewrite elem_of_remove_dups. apply Hkeys. }
  split; [exact Hnd|]. split; [exact Hkeys|]. split; [exact Hl|].
  unfold compare_evaluations. rewrite Hl.
  destruct (Nat.ltb_spec (length (remove_dups model_names)) 2);
    split; intros; try discriminate; assumption.
Qed.
End MultipleModels.

Lemma evaluate_with_multiple_models_keys_witness :
  exists d,
    fst (evaluate_with_multiple_models ∅ (Some "mock"%string) 10 tenth_clock
           always_loads (RawText "hi") ["grammar"%string]
           ["model_a"; "model_b"; "model_a"]%string initial_world)
    = Return d /\
    NoDup (dict_keys d) /\ length d = 2%nat.
Proof.
  assert (H : exists d,
             fst (evaluate_with_multiple_models ∅ (Some "mock"%string) 10
                    tenth_clock always_loads (RawText "hi")
                    ["grammar"%string]
                    ["model_a"; "model_b"; "model_a"]%string initial_world)
             = Return d).
  { eexists. vm_compute. reflexivity. }
  destruct H as [d Hd]. exists d. split; [exact Hd|].
  destruct (evaluate_with_multiple_models_keys _ _ _ _ _ _ _ _ _ _ Hd)
    as (Hnd & _ & Hlen & _).
  split; [exact Hnd|]. rewrite Hlen. reflexivity.
Defined.

(** ** The cache of the model manager *)

Section ManagerFacts.
Variable backend : nat -> option string -> result Model.
Variable manager_default : option string.
Hypothesis backend_names : names_models backend.

Lemma load_model_consistent (name : option string) (w : World) :
  cache_consistent w -> cache_consistent (snd (load_model backend name w)).
Proof.
  intros [Hk Hc]. unfold load_model.
  destruct (models w !! name) as [m|] eqn:E; [now split|].
  destruct (backend (load_attempts w) name) as [m|e] eqn:Eb; [|now split].
  apply backend_names in Eb. subst name. split; simpl.
  - intros key model. rewrite lookup_insert_Some.
    intros [[<- <-]|[_ H]]; [reflexivity | now apply Hk].
  - intros model [= <-]. apply lookup_insert_eq.
Qed.

Lemma get_model_consistent (name : option string) (w : World) :
  cache_consistent w ->
  cache_consistent (snd (get_model backend manager_default name w)).
Proof.
  intros H. unfold get_model. destruct (truthy name).
  - destruct (models w !! name); [exact H|]. now apply load_model_consistent.
  - destruct (current_model w); [exact H|]. now apply load_model_consistent.
Qed.

Lemma unload_model_consistent (name : string) (w : World) :
  cache_consistent w -> cache_consistent (snd (unload_model name w)).
Proof.
  intros [Hk Hc]. unfold unload_model.
  destruct (models w !! Some name) as [m|] eqn:E; [|now split].
  split; simpl.
  - intros key model. rewrite lookup_delete_Some. intros [_ H]. now apply Hk.
  - intros model. destruct (current_model w) as [cur|] eqn:Ec; [|discriminate].
    destruct (String.eqb_spec (model_name cur) name) as [Heq|Hne];
      [discriminate|].
    intros [= <-]. rewrite lookup_delete_ne by congruence. now apply Hc.
Qed.

Lemma run_calls_consistent (cs : list manager_call) (w : World) :
  cache_consistent w ->
  cache_consistent (run_calls backend manager_default cs w).
Proof.
  unfold run_calls. revert w. induction cs as [|c cs IH]; intros w H; simpl.
  - exact H.
  - apply IH. destruct c as [name|name|name]; simpl.
    + now apply load_model_consistent.
    + now apply get_model_consistent.
    + now apply unload_model_consistent.
Qed.

Lemma load_model_returned_cached (name : option string) (w : World)
    (model : Model) :
  cache_consistent w ->
  fst (load_model backend name w) = Return model ->
  models (snd (load_model backend name w)) !! Some (model_name model)
  = Some model.
Proof.
  intros [Hk _] H.
  pose proof (load_model_cached backend name w model H) as [Hm _].
  assert (Hn : name = Some (model_name model)).
  { unfold load_model in H. destruct (models w !! name) as [m|] eqn:E.
    - simpl in H. injection H as <-. now apply Hk.
    - destruct (backend (load_attempts w) name) as [m|e] eqn:Eb;
        [|discriminate].
      simpl in H. injection H as <-. now apply backend_names in Eb. }
  now rewrite <- Hn.
Qed.

Lemma get_model_returned_cached (name : option string) (w : World)
    (model : Model) :
  cache_consistent w ->
  fst (get_model backend manager_default name w) = Return model ->
  models (snd (get_model backend manager_default name w))
    !! Some (model_name model) = Some model.
Proof.
  intros Hw. pose proof Hw as [Hk Hc]. unfold get_model.
  destruct (truthy name).
  - destruct (models w !! name) as [m|] eqn:E.
    + simpl. intros [= <-]. pose proof (Hk _ _ E) as ->. exact E.
    + now apply load_model_returned_cached.
  - destruct (current_model w) as [m|] eqn:E.
    + simpl. intros [= <-]. now apply Hc.
    + now apply load_model_returned_cached.
Qed.

(** With a loader that names its models after the requested name, any
    sequence of [load_model], [get_model] and [unload_model] calls leaves
    the manager consistent: every cached model sits under its own name
    and the current model is a cached one, so [get_model] never hands out
    a model that was unloaded. *)
Theorem manager_cache_consistent (cs : list manager_call) :
  let w := run_calls backend manager_default cs initial_world in
  cache_consistent w /\
  forall name model,
    fst (get_model backend manager_default name w) = Return model ->
    models (snd (get_model backend manager_default name w))
      !! Some (model_name model) = Some model.
Proof.
  assert (H : cache_consistent
                (run_calls backend manager_default cs initial_world)).
  { apply run_calls_consistent. split; simpl.
    - intros key model. now rewrite lookup_empty.
    - discriminate. }
  split; [exact H|]. intros name model. now apply get_model_returned_cached.
Qed.
End ManagerFacts.

Lemma named_loader_names : names_models named_loader.
Proof.
  intros attempt [name|] model; simpl; [|discriminate]. now intros [= <-].
Qed.

Lemma manager_cache_consistent_witness :
  cache_consistent
    (run_calls named_loader (Some "b"%string)
       [LoadModel "a"; GetModel None; UnloadModel "a"; GetModel None]
       initial_world).
Proof.
  apply (manager_cache_consistent named_loader (Some "b"%string)
           named_loader_names
           [LoadModel "a"; GetModel None; UnloadModel "a"; GetModel None]).
Defined.

(** ** OpenWeightsModel: parsing and the per-facet loop *)

Section Parse.

Lemma search_score_absent (l : list ascii) :
  occurs score_tag l = false -> OpenWeightsModel.search_score l = None.
Proof.
  induction l as [|c l IH]; [reflexivity|].
  cbn [occurs OpenWeightsModel.search_score]. intros H.
  apply orb_false_elim in H as [Hs Ho].
  unfold OpenWeightsModel.score_at. fold score_tag. rewrite Hs. now apply IH.
Qed.

Lemma search_reasoning_absent (l : list ascii) :
  occurs reasoning_tag l = false -> OpenWeightsModel.search_reasoning l = None.
Proof.
  induction l as [|c l IH]; [reflexivity|].
  cbn [occurs OpenWeightsModel.search_reasoning]. intros H.
  apply orb_false_elim in H as [Hs Ho].
  unfold OpenWeightsModel.reasoning_at. fold reasoning_tag. rewrite Hs.
  now apply IH.
Qed.

Lemma search_score_digit (l : list ascii) (c : ascii) :
  OpenWeightsModel.search_score l = Some c -> PyStr.isdigit c = true.
Proof.
  induction l as [|a l IH]; cbn [OpenWeightsModel.search_score].
  - unfold OpenWeightsModel.score_at. simpl. discriminate.
  - destruct (OpenWeightsModel.score_at (a :: l)) as [d|] eqn:E; [|exact IH].
    intros [= <-]. unfold OpenWeightsModel.score_at in E.
    destruct (DataProcessor.starts_with _ _); [|discriminate].
    destruct (DataProcessor.lstrip _) as [|d' t]; [discriminate|].
    destruct (PyStr.isdigit d') eqn:Ed; [|discriminate].
    now injection E as <-.
Qed.

Lemma occurs_cons (p l : list ascii) (c : ascii) :
  occurs p l = true -> occurs p (c :: l) = true.
Proof. intros H. cbn [occurs]. rewrite H. apply orb_true_r. Qed.

Lemma occurs_app_l (p k l : list ascii) :
  occurs p l = true -> occurs p (k ++ l) = true.
Proof.
  intros H. induction k as [|c k IH]; [exact H|]. now apply occurs_cons.
Qed.

Lemma starts_with_app_r (p l k : list ascii) :
  DataProcessor.starts_with p l = true ->
  DataProcessor.starts_with p (l ++ k) = true.
Proof.
  revert l. induction p as [|a p IH]; intros l; [reflexivity|].
  destruct l as [|b l]; [discriminate|]. simpl.
  intros H. apply andb_true_iff in H as [-> H]. now apply IH.
Qed.

Lemma occurs_app_r (p l k : list ascii) :
  occurs p l = true -> occurs p (l ++ k) = true.
Proof.
  induction l as [|c l IH].
  - simpl. rewrite orb_false_r. intros H. destruct p; [|discriminate].
    destruct k; reflexivity.
  - cbn [occurs app]. intros H. apply orb_true_iff in H as [H|H].
    + change (c :: l ++ k) with ((c :: l) ++ k).
      rewrite (starts_with_app_r _ _ _ H). reflexivity.
    + rewrite (IH H). apply orb_true_r.
Qed.

Lemma lstrip_suffix (l : list ascii) :
  exists k, l = k ++ DataProcessor.lstrip l.
Proof.
  induction l as [|c l [k IH]]; [now exists []|]. simpl.
  destruct (DataProcessor.isspace c).
  - exists (c :: k). simpl. now f_equal.
  - now exists [].
Qed.

Lemma strip_infix (l : list ascii) :
  exists a b, l = a ++ DataProcessor.strip l ++ b.
Proof.
  unfold DataProcessor.strip, DataProcessor.rstrip.
  destruct (lstrip_suffix l) as [a Ha].
  destruct (lstrip_suffix (rev (DataProcessor.lstrip l))) as [b Hb].
  exists a, (rev b). rewrite <- rev_app_distr, <- Hb, rev_involutive.
  exact Ha.
Qed.

Lemma occurs_strip (p l : list ascii) :
  occurs p (DataProcessor.strip l) = true -> occurs p l = true.
Proof.
  intros H. destruct (strip_infix l) as (a & b & Hl). rewrite Hl.
  now apply occurs_app_l, occurs_app_r.
Qed.

Lemma isdigit_value (c : ascii) :
  PyStr.isdigit c = true -> (0 <= PyStr.int_of_digit c <= 9)%Z.
Proof.
  unfold PyStr.isdigit, PyStr.int_of_digit. intros H.
  apply andb_true_iff in H as [H1 H2].
  apply Nat.leb_le in H1, H2. lia.
Qed.

Lemma parse_evaluation_output_facts (f : string) (output : ModelOutput) :
  facet (OpenWeightsModel._parse_evaluation_output f output) = f /\
  confidence (OpenWeightsModel._parse_evaluation_output f output)
  = output_confidence output /\
  score_within 1 5 (OpenWeightsModel._parse_evaluation_output f output).
Proof.
  unfold OpenWeightsModel._parse_evaluation_output, score_within.
  cbn [facet confidence score]. split; [reflexivity|].
  split; [reflexivity|]. destruct (OpenWeightsModel.search_score _); lia.
Qed.

(** The parser never fails: the result keeps the facet and the
    confidence of the output, its score lies between 1 and 5, and score
    and reasoning fall back to 3 and to the fixed message when the text
    has no score tag or no reasoning tag. *)
Theorem parse_evaluation_output_valid (f : string) (output : ModelOutput) :
  let r := OpenWeightsModel._parse_evaluation_output f output in
  let text := list_ascii_of_string (output_text output) in
  facet r = f /\
  confidence r = output_confidence output /\
  score_within 1 5 r /\
  (occurs score_tag text = false -> score r = 3%Z) /\
  (occurs reasoning_tag text = false ->
   reasoning r = "Unable to parse evaluation"%string).
Proof.
  cbv zeta. unfold OpenWeightsModel._parse_evaluation_output.
  cbn [facet confidence score reasoning].
  split; [reflexivity|]. split; [reflexivity|]. split; [|split].
  - unfold score_within. cbn [score].
    destruct (OpenWeightsModel.search_score _); lia.
  - intros H.
    rewrite search_score_absent; [reflexivity|].
    destruct (occurs score_tag (DataProcessor.strip _)) eqn:E;
      [|reflexivity].
    apply occurs_strip in E. congruence.
  - intros H.
    rewrite search_reasoning_absent; [reflexivity|].
    destruct (occurs reasoning_tag (DataProcessor.strip _)) eqn:E;
      [|reflexivity].
    apply occurs_strip in E. congruence.
Qed.
End Parse.

(** *** A well-formed answer is read back *)

Lemma until_newline_id (l : list ascii) :
  forallb (fun c => negb (Ascii.eqb c PyStr.newline)) l = true ->
  OpenWeightsModel.until_newline l = l.
Proof.
  induction l as [|c l IH]; [reflexivity|]. simpl.
  intros H. apply andb_true_iff in H as [Hc Hl].
  destruct (Ascii.eqb c PyStr.newline); [discriminate|].
  now rewrite IH.
Qed.

Lemma no_trail_app (p r : list ascii) :
  r <> [] -> no_trail r -> no_trail (p ++ r).
Proof.
  intros Hne Hr. unfold no_trail in *. rewrite rev_app_distr.
  destruct (rev r) as [|c t] eqn:E.
  - apply (f_equal (@rev ascii)) in E. rewrite rev_involutive in E.
    now subst.
  - exact Hr.
Qed.

Lemma starts_with_refl (p l : list ascii) :
  DataProcessor.starts_with p (p ++ l) = true.
Proof.
  induction p as [|c p IH]; [reflexivity|]. simpl.
  now rewrite Ascii.eqb_refl.
Qed.

Lemma search_reasoning_skip (p l : list ascii) :
  forallb (fun c => negb (Ascii.eqb "R"%char c)) p = true ->
  OpenWeightsModel.search_reasoning (p ++ l)
  = OpenWeightsModel.search_reasoning l.
Proof.
  induction p as [|c p IH]; [reflexivity|]. cbn [forallb].
  intros H. apply andb_true_iff in H as [Hc Hp].
  change ((c :: p) ++ l) with (c :: (p ++ l)).
  cbn [OpenWeightsModel.search_reasoning].
  assert (Hat : OpenWeightsModel.reasoning_at (c :: p ++ l) = None).
  { unfold OpenWeightsModel.reasoning_at.
    change (list_ascii_of_string "Reasoning:")
      with ("R"%char :: list_ascii_of_string "easoning:").
    cbn [DataProcessor.starts_with].
    apply negb_true_iff in Hc. now rewrite Hc. }
  rewrite Hat. now apply IH.
Qed.

Lemma search_reasoning_found (l g : list ascii) :
  match DataProcessor.lstrip l with
  | c :: l' => Some (c :: OpenWeightsModel.until_newline l')
  | [] => None
  end = Some g ->
  OpenWeightsModel.search_reasoning (reasoning_tag ++ l) = Some g.
Proof.
  intros H.
  assert (Hat : OpenWeightsModel.reasoning_at (reasoning_tag ++ l) = Some g).
  { unfold OpenWeightsModel.reasoning_at. fold reasoning_tag.
    rewrite starts_with_refl.
    change (drop 10 (reasoning_tag ++ l)) with l.
    destruct (DataProcessor.lstrip l); [discriminate | exact H]. }
  change (reasoning_tag ++ l) with ("R"%char :: drop 1 (reasoning_tag ++ l))
    in *.
  cbn [OpenWeightsModel.search_reasoning]. now rewrite Hat.
Qed.

(** An answer in the format the prompt asks for, a score line with one
    digit and a reasoning of one line, is read back: the reasoning as
    written and the digit clamped to the range from 1 to 5. *)
Theorem parse_reads_formatted_answer (d : nat) (r : list ascii) (c : Q)
    (f : string) :
  (d < 10)%nat -> one_line r ->
  let output :=
    mkModelOutput (string_of_list_ascii (formatted_answer d r)) c 0 0 in
  let result := OpenWeightsModel._parse_evaluation_output f output in
  score result = Z.max 1 (Z.min 5 (Z.of_nat d)) /\
  reasoning result = string_of_list_ascii r /\
  confidence result = c /\ facet result = f.
Proof.
  intros Hd (Hne & Hlead & Htrail & Hline). cbv zeta.
  unfold OpenWeightsModel._parse_evaluation_output.
  cbn [output_text output_confidence score reasoning confidence facet].
  rewrite list_ascii_of_string_of_list_ascii.
  assert (Hs : DataProcessor.strip (formatted_answer d r)
               = formatted_answer d r).
  { apply strip_id; [reflexivity|].
    unfold formatted_answer. rewrite !app_assoc. now apply no_trail_app. }
  rewrite Hs. destruct r as [|a r]; [contradiction|].
  simpl in Hlead. simpl in Hline. apply andb_true_iff in Hline as [Ha Hline].
  assert (Hg : OpenWeightsModel.search_reasoning (formatted_answer d (a :: r))
               = Some (a :: r)).
  { unfold formatted_answer. rewrite app_assoc.
    rewrite search_reasoning_skip.
    - change (list_ascii_of_string "Reasoning: " ++ a :: r)
        with (reasoning_tag ++ " "%char :: a :: r).
      apply search_reasoning_found.
      change (DataProcessor.lstrip (" "%char :: a :: r))
        with (DataProcessor.lstrip (a :: r)).
      cbn [DataProcessor.lstrip]. rewrite Hlead.
      now rewrite (until_newline_id r Hline).
    - do 10 (destruct d as [|d]; [reflexivity|]). lia. }
  assert (Hsc : OpenWeightsModel.search_score (formatted_answer d (a :: r))
                = Some (digit_char d)).
  { do 10 (destruct d as [|d]; [vm_compute; reflexivity|]). lia. }
  rewrite Hg, Hsc. split; [|split; [|split]]; try reflexivity.
  - f_equal. f_equal. unfold PyStr.int_of_digit, digit_char.
    rewrite nat_ascii_embedding by lia. lia.
  - f_equal. apply strip_id; [exact Hlead | exact Htrail].
Qed.


Lemma parse_reads_formatted_answer_witness :
  let output :=
    mkModelOutput
      (string_of_list_ascii
         (formatted_answer 4 (list_ascii_of_string "Clear and polite.")))
      0.8 0 0 in
  score (OpenWeightsModel._parse_evaluation_output "clarity" output) = 4%Z /\
  reasoning (OpenWeightsModel._parse_evaluation_output "clarity" output)
  = "Clear and polite."%string.
Proof.
  destruct (parse_reads_formatted_answer 4
              (list_ascii_of_string "Clear and polite.") 0.8 "clarity")
    as (Hs & Hr & _).
  - lia.
  - repeat split; try reflexivity. discriminate.
  - split; [exact Hs | exact Hr].
Defined.

(** *** Confidence and the per-facet loop *)

Lemma calculate_confidence_range (prompt generated_text : string) :
  0.5 <= OpenWeightsModel._calculate_confidence prompt generated_text /\
  OpenWeightsModel._calculate_confidence prompt generated_text <= 1.
Proof.
  unfold OpenWeightsModel._calculate_confidence. cbv zeta.
  destruct ((10 <=? _) && _)%nat; destruct (existsb _ _);
    destruct (list_intersection _ _);
    match goal with
    | |- context [pymin ?a ?b] =>
        destruct (pymin_spec a b) as [[? ->]|[? ->]]
    end; lra.
Qed.

Section Loaded.
Variable pipeline : option (nat -> string -> generation).
Variable clock : nat -> Q.

Lemma generate_confidence (prompt : string) (rt : Runtime)
    (output : ModelOutput) (rt' : Runtime) :
  OpenWeightsModel.generate pipeline clock prompt rt = (Ok output, rt') ->
  0.5 <= output_confidence output /\ output_confidence output <= 1.
Proof.
  unfold OpenWeightsModel.generate. destruct pipeline as [run|];
    [|discriminate].
  destruct (run (pipeline_calls rt) prompt) as [text tokens|message];
    [|discriminate].
  intros [= <- _]. apply calculate_confidence_range.
Qed.

Lemma generate_calls (prompt : string) (rt : Runtime) :
  (pipeline_calls rt
   <= pipeline_calls (snd (OpenWeightsModel.generate pipeline clock prompt rt))
   <= S (pipeline_calls rt))%nat.
Proof.
  unfold OpenWeightsModel.generate. destruct pipeline as [run|];
    [|simpl; lia].
  destruct (run (pipeline_calls rt) prompt); simpl; lia.
Qed.

Lemma evaluate_facet_step (conversation : string)
    (results : list EvaluationResult) (rt : Runtime) (f : string) :
  exists r,
    fst (OpenWeightsModel.evaluate_facet pipeline clock conversation
           (results, rt) f) = results ++ [r] /\
    facet r = f /\ valid_result r /\
    (pipeline_calls rt
     <= pipeline_calls
          (snd (OpenWeightsModel.evaluate_facet pipeline clock conversation
                  (results, rt) f))
     <= S (pipeline_calls rt))%nat.
Proof.
  unfold OpenWeightsModel.evaluate_facet.
  pose proof (generate_calls
                (OpenWeightsModel._create_evaluation_prompt conversation f)
                rt) as Hcalls.
  destruct (OpenWeightsModel.generate pipeline clock _ rt)
    as [[output|message] rt'] eqn:E.
  - eexists. split; [reflexivity|].
    destruct (parse_evaluation_output_facts f output) as (Hf & Hc & Hs).
    split; [exact Hf|]. split; [|exact Hcalls].
    split; [exact Hs|]. unfold valid_confidence. rewrite Hc.
    apply generate_confidence in E. lra.
  - eexists. split; [reflexivity|]. split; [reflexivity|].
    split; [|exact Hcalls].
    split; [unfold score_within; simpl; lia|].
    unfold valid_confidence. simpl. lra.
Qed.

Lemma evaluate_conversation_loop (conversation : string)
    (facets : list string) (results : list EvaluationResult) (rt : Runtime) :
  exists rs,
    fst (fold_left (OpenWeightsModel.evaluate_facet pipeline clock
                      conversation) facets (results, rt))
    = results ++ rs /\
    map facet rs = facets /\ Forall valid_result rs /\
    (pipeline_calls rt
     <= pipeline_calls
          (snd (fold_left (OpenWeightsModel.evaluate_facet pipeline clock
                             conversation) facets (results, rt)))
     <= pipeline_calls rt + length facets)%nat.
Proof.
  revert results rt. induction facets as [|f facets IH]; intros results rt.
  - exists []. simpl. rewrite app_nil_r. repeat split; [constructor|lia|lia].
  - cbn [fold_left].
    destruct (evaluate_facet_step conversation results rt f)
      as (r & Hr & Hf & Hv & Hc).
    destruct (OpenWeightsModel.evaluate_facet pipeline clock conversation
                (results, rt) f) as [results' rt'].
    simpl in Hr, Hc. subst results'.
    destruct (IH (results ++ [r]) rt') as (rs & Hrs & Hfs & Hvs & Hcs).
    exists (r :: rs). rewrite Hrs, <- app_assoc. split; [reflexivity|].
    split; [simpl; now rewrite Hf, Hfs|].
    split; [now constructor|]. cbn [length]. lia.
Qed.

Lemma open_weights_results (conversation : string)
    (facets : list string) (rt : Runtime) :
  let results :=
    fst (OpenWeightsModel.evaluate_conversation pipeline clock conversation
           facets rt) in
  let rt' :=
    snd (OpenWeightsModel.evaluate_conversation pipeline clock conversation
           facets rt) in
  map facet results = facets /\
  Forall valid_result results /\
  (pipeline_calls rt <= pipeline_calls rt'
   <= pipeline_calls rt + length facets)%nat.
Proof.
  cbv zeta. unfold OpenWeightsModel.evaluate_conversation.
  destruct (evaluate_conversation_loop conversation facets [] rt)
    as (rs & Hrs & Hfs & Hvs & Hcs).
  rewrite Hrs. now repeat split.
Qed.

Lemma open_weights_batch_loop (conversations facets : list string)
    (acc : list (list EvaluationResult)) (rt : Runtime) :
  exists rss,
    fst (fold_left
           (fun '(results, rt) conversation =>
              let '(conv_results, rt') :=
                OpenWeightsModel.evaluate_conversation pipeline clock
                  conversation facets rt in
              (results ++ [conv_results], rt'))
           conversations (acc, rt))
    = acc ++ rss /\
    length rss = length conversations /\
    Forall (fun rs => map facet rs = facets /\ Forall valid_result rs) rss.
Proof.
  revert acc rt. induction conversations as [|c cs IH]; intros acc rt.
  - exists []. simpl. rewrite app_nil_r. now repeat split.
  - cbn [fold_left].
    destruct (open_weights_results c facets rt) as (Hf & Hv & _).
    destruct (OpenWeightsModel.evaluate_conversation pipeline clock c facets
                rt) as [rs rt'].
    simpl in Hf, Hv.
    destruct (IH (acc ++ [rs]) rt') as (rss & Hrss & Hlen & Hall).
    exists (rs :: rss). rewrite Hrss, <- app_assoc.
    split; [reflexivity|]. split; [simpl; now rewrite Hlen|].
    now constructor.
Qed.

(** [OpenWeightsModel.evaluate_conversation] returns one result per
    facet, in the order of the facets, whether the generations succeed or
    fail; every result has a score from 1 to 5 and a confidence in [0,1];
    the pipeline is called at most once per facet.  [batch_evaluate]
    gives one such list per conversation. *)
Theorem open_weights_results_valid (conversations facets : list string)
    (rt : Runtime) :
  (forall conversation,
     let results :=
       fst (OpenWeightsModel.evaluate_conversation pipeline clock
              conversation facets rt) in
     let rt' :=
       snd (OpenWeightsModel.evaluate_conversation pipeline clock
              conversation facets rt) in
     map facet results = facets /\
     Forall valid_result results /\
     (pipeline_calls rt <= pipeline_calls rt'
      <= pipeline_calls rt + length facets)%nat) /\
  let batch :=
    fst (OpenWeightsModel.batch_evaluate pipeline clock conversations facets
           rt) in
  length batch = length conversations /\
  Forall (fun rs => map facet rs = facets /\ Forall valid_result rs) batch.
Proof.
  split; [intros conversation; apply open_weights_results|].
  cbv zeta. unfold OpenWeightsModel.batch_evaluate.
  destruct (open_weights_batch_loop conversations facets [] rt)
    as (rss & -> & Hlen & Hall).
  now split.
Qed.
End Loaded.

Lemma unloaded_results (clock : nat -> Q) (conversation : string)
    (facets : list string) (rt : Runtime)  (acc : list EvaluationResult) :
  fold_left (OpenWeightsModel.evaluate_facet None clock conversation) facets
    (acc, rt)
  = (acc ++ map (fun f => error_result f
                            "Model not loaded. Call load_model() first.")
              facets, rt).
Proof.
  revert acc. induction facets as [|f facets IH]; intros acc; simpl.
  - now rewrite app_nil_r.
  - rewrite IH. now rewrite <- app_assoc.
Qed.

Lemma zero_confidence_denominator (config_weights : gmap string Q)
    (J : list EvaluationResult) :
  Forall (fun r => confidence r == 0) J ->
  weighted_denominator config_weights J == 0.
Proof.
  intros H. unfold weighted_denominator. apply sumQ_zero.
  apply Forall_map. eapply Forall_impl; [exact H|].
  intros r Hr. simpl. rewrite Hr. ring.
Qed.

(** A model that was not loaded judges every facet with the neutral
    score 3, confidence 0.0 and the error message as reasoning, without
    touching the pipeline or the clock, and the weighted score of these
    results is 0. *)
Theorem unloaded_model_scores_nothing (config_weights : gmap string Q)
    (clock : nat -> Q) (conversation : string) (facets : list string)
    (rt : Runtime) :
  let results :=
    fst (OpenWeightsModel.evaluate_conversation None clock conversation
           facets rt) in
  results
  = map (fun f => error_result f "Model not loaded. Call load_model() first.")
      facets /\
  snd (OpenWeightsModel.evaluate_conversation None clock conversation
         facets rt) = rt /\
  FacetEvaluator.calculate_weighted_score config_weights results == 0.
Proof.
  cbv zeta. unfold OpenWeightsModel.evaluate_conversation.
  rewrite unloaded_results. simpl. split; [reflexivity|].
  split; [reflexivity|].
  destruct (calculate_weighted_score_cases config_weights
              (map (fun f => error_result f
                               "Model not loaded. Call load_model() first.")
                 facets)) as [_ Hzero].
  apply Hzero. rewrite zero_confidence_denominator; [lra|].
  apply Forall_map, Forall_forall. intros f _. reflexivity.
Qed.

Lemma valid_result_confidence (rs : list EvaluationResult) :
  Forall valid_result rs -> Forall valid_confidence rs.
Proof. intros H. eapply Forall_impl; [exact H|]. now intros r [_ Hr]. Qed.

Lemma valid_result_score (rs : list EvaluationResult) :
  Forall valid_result rs -> Forall (score_within 1 5) rs.
Proof. intros H. eapply Forall_impl; [exact H|]. now intros r [Hr _]. Qed.

(** The results of [OpenWeightsModel.evaluate_conversation] meet what
    the aggregation needs: with positive weights the confidence calculator
    returns on them, and its four metrics lie in [0,1]. *)
Theorem open_weights_aggregation_valid (config_weights : gmap string Q)
    (pipeline : option (nat -> string -> generation)) (clock : nat -> Q)
    (conversation : string) (facets : list string) (rt : Runtime) :
  positive_weights config_weights ->
  let results :=
    fst (OpenWeightsModel.evaluate_conversation pipeline clock conversation
           facets rt) in
  exists m,
    _calculate_confidence_metrics config_weights results = Return m /\
    valid_metrics m.
Proof.
  intros Hw. cbv zeta.
  destruct (open_weights_results pipeline clock conversation facets rt)
    as (_ & Hv & _).
  apply metrics_valid; [exact Hw | now apply valid_result_confidence].
Qed.

Lemma open_weights_aggregation_valid_witness :
  let results :=
    fst (OpenWeightsModel.evaluate_conversation
           (Some (constant_pipeline "Score: 4")) tenth_clock "hi"
           ["grammar"; "clarity"]%string (mkRuntime 0 0)) in
  exists m,
    _calculate_confidence_metrics ∅ results = Return m /\ valid_metrics m.
Proof.
  exact (open_weights_aggregation_valid ∅
           (Some (constant_pipeline "Score: 4")) tenth_clock "hi"
           ["grammar"; "clarity"]%string (mkRuntime 0 0)
           (map_Forall_empty _)).
Defined.

(** ** DataProcessor: cleaned text, features, batches, facets *)

Section CleanShape.

Lemma ensure_sentence_ending_ended (l : list ascii) :
  sentence_ended (DataProcessor.ensure_sentence_ending l).
Proof.
  unfold DataProcessor.ensure_sentence_ending, sentence_ended.
  destruct (last l) as [c|] eqn:E; [|now rewrite E].
  destruct (DataProcessor.char_in c _) eqn:Ec; simpl.
  - now rewrite E.
  - now rewrite last_snoc.
Qed.

Lemma ensure_sentence_ending_length (l : list ascii) :
  (length (DataProcessor.ensure_sentence_ending l) <= S (length l))%nat.
Proof.
  unfold DataProcessor.ensure_sentence_ending.
  destruct (last l); [|lia].
  destruct (negb _); [rewrite length_app; simpl; lia | lia].
Qed.

Lemma lstrip_length (l : list ascii) :
  (length (DataProcessor.lstrip l) <= length l)%nat.
Proof.
  induction l as [|c l IH]; simpl; [lia|].
  destruct (DataProcessor.isspace c); simpl; lia.
Qed.

Lemma strip_length (l : list ascii) :
  (length (DataProcessor.strip l) <= length l)%nat.
Proof.
  unfold DataProcessor.strip, DataProcessor.rstrip.
  rewrite length_rev.
  etransitivity; [apply lstrip_length|]. rewrite length_rev.
  apply lstrip_length.
Qed.

Lemma sub_spaces_length (b : bool) (l : list ascii) :
  (length (DataProcessor.sub_spaces b l) <= length l)%nat.
Proof.
  revert b. induction l as [|c l IH]; intros b; simpl; [lia|].
  destruct (DataProcessor.isspace c).
  - destruct b; simpl; specialize (IH true); lia.
  - simpl. specialize (IH false). lia.
Qed.

Lemma starts_with_length (p l : list ascii) :
  DataProcessor.starts_with p l = true -> (length p <= length l)%nat.
Proof.
  revert l. induction p as [|a p IH]; intros l; simpl; [lia|].
  destruct l as [|b l]; [discriminate|]. simpl.
  intros H. apply andb_true_iff in H as [_ H]. apply IH in H. lia.
Qed.

Lemma replace_from_length (old new l : list ascii) (skip : nat) :
  old <> [] -> (length new <= length old)%nat -> (skip <= length l)%nat ->
  (length (DataProcessor.replace_from skip old new l) + skip
   <= length l)%nat.
Proof.
  intros Hne Hlen. revert skip.
  induction l as [|c l IH]; intros skip Hs; simpl in *; [lia|].
  destruct skip as [|k].
  - destruct (DataProcessor.starts_with old (c :: l)) eqn:E.
    + apply starts_with_length in E. simpl in E.
      assert (Ho : (0 < length old)%nat) by (destruct old; simpl; [easy|lia]).
      rewrite length_app.
      specialize (IH (length old - 1)%nat ltac:(lia)). lia.
    + simpl. specialize (IH 0%nat ltac:(lia)). lia.
  - specialize (IH k ltac:(lia)). lia.
Qed.

Lemma ListFilter_length {A} (p : A -> bool) (l : list A) :
  (length (List.filter p l) <= length l)%nat.
Proof. induction l as [|x l IH]; simpl; [lia|]. destruct (p x); simpl; lia. Qed.

Lemma clean_chars_shape (l : list ascii) :
  let y := DataProcessor.clean_chars l in
  all_kept y /\ sentence_ended y /\ (length y <= S (length l))%nat /\
  (forallb DataProcessor.isspace l = true -> y = []).
Proof.
  cbv zeta. split; [apply clean_chars_all_kept|].
  unfold DataProcessor.clean_chars.
  split; [apply ensure_sentence_ending_ended|]. split.
  - etransitivity; [apply ensure_sentence_ending_length|].
    apply le_n_S.
    etransitivity; [apply ListFilter_length|].
    rewrite !replace_same. unfold DataProcessor.replace.
    cbn [DataProcessor.line83_old app list_ascii_of_string].
    pose proof (replace_from_length DataProcessor.line83_old
                  [DataProcessor.apostrophe]
                  (DataProcessor.sub_spaces false (DataProcessor.strip l))
                  0) as H.
    cbn [DataProcessor.line83_old app list_ascii_of_string] in H.
    etransitivity; [|apply strip_length].
    etransitivity; [|apply sub_spaces_length].
    rewrite Nat.add_0_r in H. apply H; [discriminate | simpl; lia | lia].
  - intros Hws.
    assert (Hl : DataProcessor.lstrip l = []).
    { induction l as [|c l IH]; [reflexivity|]. simpl in *.
      apply andb_true_iff in Hws as [-> Hws]. now apply IH. }
    unfold DataProcessor.strip. rewrite Hl. reflexivity.
Qed.

(** The cleaned text holds only characters the filter keeps, is empty or
    ends in a full stop, an exclamation mark or a question mark, is at
    most one character longer than the input, and is empty when the input
    is made of white space only. *)
Theorem clean_conversation_text_shape (x : string) :
  let y := list_ascii_of_string (DataProcessor.clean_conversation_text x) in
  all_kept y /\ sentence_ended y /\
  (length y <= S (length (list_ascii_of_string x)))%nat /\
  (forallb DataProcessor.isspace (list_ascii_of_string x) = true ->
   DataProcessor.clean_conversation_text x = ""%string).
Proof.
  cbv zeta. unfold DataProcessor.clean_conversation_text.
  rewrite list_ascii_of_string_of_list_ascii.
  destruct (clean_chars_shape (list_ascii_of_string x))
    as (Hk & He & Hl & Hw).
  split; [exact Hk|]. split; [exact He|]. split; [exact Hl|].
  intros H. now rewrite (Hw H).
Qed.
End CleanShape.

(** *** Features *)

Lemma split_from_length (word l : list ascii) :
  (length (PyStr.split_from word l)
   <= length l + match word with [] => 0 | _ => 1 end)%nat.
Proof.
  revert word. induction l as [|c l IH]; intros word; simpl.
  - destruct word; simpl; lia.
  - destruct (DataProcessor.isspace c).
    + specialize (IH []). destruct word; simpl in *; lia.
    + specialize (IH (word ++ [c])).
      assert (E : (match word ++ [c] with [] => 0 | _ => 1 end = 1)%nat)
        by now destruct word.
      rewrite E in IH. destruct word; simpl in *; lia.
Qed.

Lemma split_length (l : list ascii) :
  (length (PyStr.split l) <= length l)%nat.
Proof.
  pose proof (split_from_length [] l) as H. unfold PyStr.split.
  simpl in H. lia.
Qed.

Lemma count_runs_length (p : ascii -> bool) (b : bool) (l : list ascii) :
  (PyStr.count_runs p b l <= length l)%nat.
Proof.
  revert b. induction l as [|c l IH]; intros b; simpl; [lia|].
  destruct (p c); [destruct b|]; [specialize (IH true) ..
                                   | specialize (IH false)]; lia.
Qed.

Lemma count_bounds (p : ascii -> bool) (l : list ascii) :
  (0 <= PyStr.count p l <= Z.of_nat (length l))%Z.
Proof.
  unfold PyStr.count. pose proof (ListFilter_length p l). lia.
Qed.

Lemma count_disjoint (p q : ascii -> bool) (l : list ascii) :
  (forall c, p c = true -> q c = false) ->
  (PyStr.count p l + PyStr.count q l <= Z.of_nat (length l))%Z.
Proof.
  intros H. unfold PyStr.count.
  induction l as [|c l IH]; simpl; [lia|].
  destruct (p c) eqn:Ep.
  - rewrite (H c Ep). simpl. lia.
  - destruct (q c); simpl; lia.
Qed.

Lemma remove_dups_length {A} `{EqDecision A} (l : list A) :
  (length (remove_dups l) <= length l)%nat.
Proof.
  induction l as [|x l IH]; simpl; [lia|].
  destruct (decide_rel elem_of x l); simpl; lia.
Qed.

Lemma guarded_div_total (guard : bool) (a b : Q) :
  0 <= a -> (guard = true -> 0 < b) ->
  exists q,
    Processing.guarded_div guard a b = Return q /\ 0 <= q /\
    (a <= b -> q <= 1) /\ (guard = true -> q == a / b) /\
    (guard = false -> q = 0).
Proof.
  intros Ha Hb. unfold Processing.guarded_div. destruct guard.
  - specialize (Hb eq_refl). exists (a / b).
    split; [apply pydiv_Return; lra|].
    split; [apply Qle_shift_div_l; lra|].
    split; [intros Hab; apply Qle_shift_div_r; lra|].
    split; [reflexivity | discriminate].
  - exists 0. split; [reflexivity|]. split; [lra|]. split; [lra|].
    split; [discriminate | reflexivity].
Qed.

Lemma lenQ_guard {A} (xs : list A) :
  negb (Nat.eqb (length xs) 0) = true -> 0 < lenQ xs.
Proof.
  intros H. apply lenQ_pos. intros ->. discriminate.
Qed.

Lemma ofZ_nonneg (a : Z) : (0 <= a)%Z -> 0 <= ofZ a.
Proof. intros H. now apply (ofZ_le 0). Qed.

Lemma sumZ_nonneg (xs : list Z) :
  Forall (fun x => (0 <= x)%Z) xs -> (0 <= sumZ xs)%Z.
Proof.
  induction 1 as [|x xs Hx _ IH]; [reflexivity|]. rewrite sumZ_cons. lia.
Qed.

Lemma extract_features_total (conversation : ConversationTurn) :
  exists f,
    Processing.extract_features conversation = Return f /\
    valid_features f /\
    (text conversation = ""%string ->
     f = mkFeatures 0 0 0 0 0 0 0 0 0 0).
Proof.
  assert (Hempty : text conversation = ""%string ->
                   Processing.extract_features conversation
                   = Return (mkFeatures 0 0 0 0 0 0 0 0 0 0)).
  { intros Ht. unfold Processing.extract_features. now rewrite Ht. }
  revert Hempty. unfold Processing.extract_features.
  set (l := list_ascii_of_string (text conversation)).
  set (words := PyStr.split l).
  set (sentences := PyStr.count_runs _ false l).
  pose proof (split_length l) as Hwords. fold words in Hwords.
  pose proof (count_runs_length
                (fun c => DataProcessor.char_in c
                            (list_ascii_of_string ".!?")) false l) as Hsent.
  fold sentences in Hsent.
  pose proof (count_bounds PyStr.isupper l) as Hup.
  pose proof (count_bounds
                (fun c => DataProcessor.char_in c
                            (list_ascii_of_string ".,!?;:")) l) as Hpunct.
  pose proof (count_bounds (Ascii.eqb "?"%char) l) as Hq.
  pose proof (count_bounds (Ascii.eqb "!"%char) l) as He.
  pose proof (count_disjoint (Ascii.eqb "?"%char) (Ascii.eqb "!"%char) l)
    as Hqe.
  pose proof (remove_dups_length words) as Huniq.
  destruct (guarded_div_total
              (negb (Nat.eqb (length (map (fun word : list ascii =>
                                             Z.of_nat (length word)) words))
                       0))
              (ofZ (sumZ (map (fun word : list ascii =>
                                 Z.of_nat (length word)) words)))
              (lenQ (map (fun word : list ascii => Z.of_nat (length word))
                       words)))
    as (q1 & -> & Hq1 & _).
  { apply ofZ_nonneg, sumZ_nonneg, Forall_map, Forall_forall.
    intros w _. lia. }
  { apply lenQ_guard. }
  destruct (guarded_div_total (negb (Nat.eqb (length l) 0))
              (ofZ (PyStr.count PyStr.isupper l)) (lenQ l))
    as (q2 & -> & Hq2 & Hq2' & _).
  { apply ofZ_nonneg. lia. }
  { apply lenQ_guard. }
  destruct (guarded_div_total (negb (Nat.eqb (length l) 0))
              (ofZ (PyStr.count
                      (fun c => DataProcessor.char_in c
                                  (list_ascii_of_string ".,!?;:")) l))
              (lenQ l))
    as (q3 & -> & Hq3 & Hq3' & _).
  { apply ofZ_nonneg. lia. }
  { apply lenQ_guard. }
  destruct (guarded_div_total (negb (Nat.eqb (length words) 0))
              (lenQ (remove_dups words)) (lenQ words))
    as (q4 & -> & Hq4 & Hq4' & _).
  { apply ofZ_nonneg. lia. }
  { apply lenQ_guard. }
  destruct (guarded_div_total (0 <? Z.of_nat sentences)%Z
              (ofZ (Z.of_nat (length words))) (ofZ (Z.of_nat sentences)))
    as (q5 & -> & Hq5 & _).
  { apply ofZ_nonneg. lia. }
  { intros H. apply Z.ltb_lt in H.
    apply (Qlt_le_trans _ (ofZ 1)); [reflexivity | apply ofZ_le; lia]. }
  intros Hempty. eexists. split; [reflexivity|]. split.
  - unfold valid_features, unit_interval.
    cbn [uppercase_ratio punctuation_ratio unique_word_ratio word_count
         char_count sentence_count question_count exclamation_count
         avg_word_length avg_sentence_length].
    repeat split; try lia; try assumption.
    + apply Hq2'. apply ofZ_le. lia.
    + apply Hq3'. apply ofZ_le. lia.
    + apply Hq4'. apply ofZ_le. lia.
    + apply Hqe. intros c Hc. apply Ascii.eqb_eq in Hc. now subst c.
  - intros Ht. specialize (Hempty Ht). congruence.
Qed.

(** [extract_features] never divides by zero: it returns for every
    conversation, its three ratios lie in [0,1], no count is negative or
    exceeds the number of characters, no average is negative, and the
    empty text gives zero throughout. *)
Theorem extract_features_valid (conversation : ConversationTurn) :
  exists f,
    Processing.extract_features conversation = Return f /\
    valid_features f /\
    (text conversation = ""%string ->
     f = mkFeatures 0 0 0 0 0 0 0 0 0 0).
Proof. apply extract_features_total. Qed.

(** *** Batches of conversations *)

Lemma chunks_nil {A} (fuel n : nat) : @chunks A fuel n [] = [].
Proof. now destruct fuel. Qed.

Lemma chunks_full {A} (n fuel : nat) (xs : list A) (i : nat) (b : list A) :
  (0 < n)%nat ->
  chunks fuel n xs !! i = Some b ->
  (S i < length (chunks fuel n xs))%nat -> length b = n.
Proof.
  intros Hn. revert xs i. induction fuel as [|fuel IH]; intros xs i.
  - destruct xs; simpl; now rewrite lookup_nil.
  - destruct xs as [|x xs]; [simpl; now rewrite lookup_nil|].
    cbn [chunks length]. destruct i as [|i]; simpl.
    + intros [= <-] Hlt. rewrite length_take.
      destruct (drop n (x :: xs)) as [|y ys] eqn:E.
      * rewrite chunks_nil in Hlt. simpl in Hlt. lia.
      * apply (f_equal length) in E. rewrite length_drop in E.
        simpl in E. simpl. lia.
    + intros Hb Hlt. apply (IH (drop n (x :: xs)) i); [exact Hb | lia].
Qed.

(** [create_conversation_batches] raises [ValueError] for the batch
    size zero and returns no batch at all for a negative one; for a
    positive size the batches are a partition of the conversations in
    order, none is empty, all but the last are full, and their number is
    the number of conversations over the size, rounded up. *)
Theorem create_conversation_batches_partition
    (conversations : list ConversationTurn) (batch_size : Z) :
  (batch_size = 0%Z /\
   Processing.create_conversation_batches conversations batch_size
   = Raise (ValueError "range() arg 3 must not be zero")) \/
  ((batch_size < 0)%Z /\
   Processing.create_conversation_batches conversations batch_size
   = Return []) \/
  ((0 < batch_size)%Z /\
   exists batches,
     Processing.create_conversation_batches conversations batch_size
     = Return batches /\
     concat batches = conversations /\
     Z.of_nat (length batches)
     = ((Z.of_nat (length conversations) + batch_size - 1) / batch_size)%Z /\
     forall i b,
       batches !! i = Some b ->
       b <> [] /\ (Z.of_nat (length b) <= batch_size)%Z /\
       ((S i < length batches)%nat -> Z.of_nat (length b) = batch_size)).
Proof.
  unfold Processing.create_conversation_batches.
  destruct (Z.eqb_spec batch_size 0) as [H0|H0]; [now left|]. right.
  destruct (Z.ltb_spec batch_size 0) as [Hneg|Hpos]; [now left|].
  right. split; [lia|]. eexists. split; [reflexivity|].
  set (n := Z.to_nat batch_size). assert (Hn : (0 < n)%nat) by lia.
  split; [apply chunks_concat; lia|]. split.
  - rewrite chunks_length by lia.
    rewrite Nat2Z.inj_div, Nat2Z.inj_sub, Nat2Z.inj_add by lia.
    replace (Z.of_nat n) with batch_size by lia. reflexivity.
  - intros i b Hb.
    pose proof (chunks_sizes n (length conversations) conversations Hn) as Hs.
    rewrite Forall_lookup in Hs. destruct (Hs i b Hb) as [Hne Hle].
    split; [exact Hne|]. split; [lia|].
    intros Hlt. rewrite (chunks_full n _ _ i b Hn Hb Hlt). lia.
Qed.

(** *** Facet definitions and evaluation data *)

Section FacetDefinitions.
Variable config_facets : list (string * list string).

Lemma load_inner (category : string) (names : list string)
    (d : list (string * FacetDefinition)) (P : string -> Prop) :
  (forall f def, dict_get f d = Some def ->
                 defines config_facets f def /\ P f) ->
  (exists all, In (category, all) config_facets /\
               forall f, In f names -> In f all) ->
  (forall f, In f names -> P f) ->
  let d' :=
    fold_left
      (fun facets facet_name =>
         dict_set facet_name
           (mkFacetDefinition facet_name category
              ("Evaluates " +:+ OpenWeightsModel.str_replace "_" " " facet_name
               +:+ " in conversations")
              (Processing._generate_keywords facet_name) 1.0)
           facets)
      names d in
  (forall f def, dict_get f d' = Some def ->
                 defines config_facets f def /\ P f) /\
  (forall f, In f names \/ dict_get f d <> None -> dict_get f d' <> None).
Proof.
  revert d. induction names as [|n names IH]; intros d Hd Hall HP; simpl.
  - split; [exact Hd|]. intros f [[]|H]. exact H.
  - destruct Hall as (all & Hin & Hsub).
    edestruct (IH (dict_set n
                     (mkFacetDefinition n category
                        ("Evaluates " +:+ OpenWeightsModel.str_replace "_" " " n
                         +:+ " in conversations")
                        (Processing._generate_keywords n) 1.0) d))
      as [H1 H2].
    + intros f def. destruct (String.eqb_spec n f) as [<-|Hne].
      * rewrite dict_get_set_eq. intros [= <-]. split.
        -- repeat split. exists all. split; [exact Hin|].
           apply Hsub. now left.
        -- apply HP. now left.
      * rewrite dict_get_set_ne by exact Hne. apply Hd.
    + exists all. split; [exact Hin|]. intros f Hf. apply Hsub. now right.
    + intros f Hf. apply HP. now right.
    + split; [exact H1|]. intros f Hf. apply H2.
      destruct (String.eqb_spec n f) as [<-|Hne].
      * right. now rewrite dict_get_set_eq.
      * rewrite dict_get_set_ne by exact Hne.
        destruct Hf as [[Hf|Hf]|Hf]; [contradiction | now left | now right].
Qed.

Lemma load_outer (config : list (string * list string))
    (d : list (string * FacetDefinition)) :
  (forall c names, In (c, names) config -> In (c, names) config_facets) ->
  (forall f def, dict_get f d = Some def ->
                 defines config_facets f def /\ configured config_facets f) ->
  let d' :=
    fold_left
      (fun facets '(category, facet_names) =>
         fold_left
           (fun facets facet_name =>
              dict_set facet_name
                (mkFacetDefinition facet_name category
                   ("Evaluates "
                    +:+ OpenWeightsModel.str_replace "_" " " facet_name
                    +:+ " in conversations")
                   (Processing._generate_keywords facet_name) 1.0)
                facets)
           facet_names facets)
      config d in
  (forall f def, dict_get f d' = Some def ->
                 defines config_facets f def /\ configured config_facets f)
  /\
  (forall f, (exists c names, In (c, names) config /\ In f names)
             \/ dict_get f d <> None ->
             dict_get f d' <> None).
Proof.
  revert d. induction config as [|[c names] config IH]; intros d Hsub Hd;
    simpl.
  - split; [exact Hd|]. intros f [(c & names & [] & _)|H]. exact H.
  - destruct (load_inner c names d (configured config_facets) Hd)
      as [H1 H2].
    + exists names. split; [apply Hsub; now left | tauto].
    + intros f Hf. exists c, names. split; [apply Hsub; now left | exact Hf].
    + edestruct IH as [H3 H4]; [|exact H1|].
      * intros c' names' H. apply Hsub. now right.
      * split; [exact H3|]. intros f Hf. apply H4.
        destruct Hf as [(c' & names' & [Heq|Hin] & Hf)|Hf].
        -- injection Heq as <- <-. right. apply H2. now left.
        -- left. now exists c', names'.
        -- right. apply H2. now right.
Qed.

Lemma facets_defined (f : string) :
  match dict_get f (Processing.facets config_facets) with
  | Some def => defines config_facets f def
  | None => ~ configured config_facets f
  end.
Proof.
  unfold Processing.facets, Processing._load_facet_definitions.
  destruct (load_outer config_facets []) as [H1 H2].
  - tauto.
  - intros g def. discriminate.
  - destruct (dict_get f (fold_left _ config_facets [])) as [def|] eqn:E.
    + now apply H1.
    + intros Hc. apply (H2 f); [now left | exact E].
Qed.

Lemma features_of_total (conversations : list ConversationTurn) :
  exists fs,
    Processing.features_of conversations = Return fs /\
    length fs = length conversations /\ Forall valid_features fs.
Proof.
  induction conversations as [|c cs (fs & Hfs & Hlen & Hv)]; simpl.
  - exists []. now repeat split.
  - destruct (extract_features_total c) as (f & -> & Hf & _).
    rewrite Hfs. exists (f :: fs).
    split; [reflexivity|]. split; [simpl; now rewrite Hlen|].
    now constructor.
Qed.

Lemma definitions_fold (valid : list string)
    (acc : list (string * FacetDefinition)) (g : string) :
  Forall (fun f => dict_get f (Processing.facets config_facets) <> None)
    valid ->
  dict_get g
    (fold_left
       (fun d f =>
          match dict_get f (Processing.facets config_facets) with
          | Some definition => dict_set f definition d
          | None => d
          end) valid acc)
  = if FacetEvaluator.str_in g valid
    then dict_get g (Processing.facets config_facets)
    else dict_get g acc.
Proof.
  revert acc. induction valid as [|f valid IH]; intros acc Hv; simpl.
  - reflexivity.
  - apply Forall_cons in Hv as [Hf Hv]. rewrite IH by exact Hv.
    destruct (dict_get f (Processing.facets config_facets)) as [def|] eqn:E;
      [|contradiction].
    destruct (FacetEvaluator.str_in g valid) eqn:Es.
    + now rewrite orb_true_r.
    + rewrite orb_false_r. destruct (String.eqb_spec g f) as [->|Hne].
      * now rewrite dict_get_set_eq.
      * rewrite dict_get_set_ne by congruence. reflexivity.
Qed.

(** [prepare_evaluation_data] always returns: requested facets that the
    configuration does not list are dropped without an error, the facets
    kept are the configured ones among those requested, each with the
    definition the constructor built for it, and there is one valid
    feature record per conversation. *)
Theorem prepare_evaluation_data_valid
    (conversations : list ConversationTurn) (requested : list string) :
  exists data,
    Processing.prepare_evaluation_data config_facets conversations requested
    = Return data /\
    data_conversations data = conversations /\
    length (data_features data) = length conversations /\
    Forall valid_features (data_features data) /\
    (forall f, In f (data_facets data)
               <-> In f requested /\ configured config_facets f) /\
    (forall f,
       match dict_get f (data_facet_definitions data) with
       | Some def => In f (data_facets data) /\ defines config_facets f def
       | None => ~ In f (data_facets data)
       end).
Proof.
  unfold Processing.prepare_evaluation_data.
  destruct (features_of_total conversations) as (fs & -> & Hlen & Hv).
  eexists. split; [reflexivity|].
  cbn [data_conversations data_features data_facets data_facet_definitions].
  split; [reflexivity|]. split; [exact Hlen|]. split; [exact Hv|].
  assert (Hmem : forall f,
            dict_mem f (Processing.facets config_facets) = true
            <-> configured config_facets f).
  { intros f. pose proof (facets_defined f) as H. unfold dict_mem.
    destruct (dict_get f (Processing.facets config_facets)) as [def|].
    - split; [|reflexivity]. intros _. destruct H as (_ & _ & _ & names & H).
      now exists (facet_category def), names.
    - split; [discriminate | contradiction]. }
  split.
  - intros f. rewrite filter_In, Hmem. reflexivity.
  - intros f. rewrite definitions_fold.
    + destruct (FacetEvaluator.str_in f _) eqn:Es.
      * apply str_in_true in Es. pose proof Es as Es'.
        apply filter_In in Es' as [_ Hm]. unfold dict_mem in Hm.
        pose proof (facets_defined f) as Hd.
        destruct (dict_get f (Processing.facets config_facets));
          [now split | discriminate].
      * simpl. intros Hin. apply str_in_true in Hin. congruence.
    + apply Forall_forall. intros g Hg. apply list_elem_of_In in Hg.
      apply filter_In in Hg as [_ Hm]. unfold dict_mem in Hm.
      destruct (dict_get g (Processing.facets config_facets)); congruence.
Qed.
End FacetDefinitions.

(** ** The facet registry: weights and categories *)

Lemma category_other (f : string) :
  FacetEvaluator._get_facet_category f = "other"%string <->
  ~ In f categorized_facets.
Proof.
  unfold FacetEvaluator._get_facet_category, categorized_facets.
  rewrite !in_app_iff, <- !str_in_true.
  destruct (FacetEvaluator.str_in f FacetEvaluator.linguistic_facets);
    [split; [discriminate | tauto]|].
  destruct (FacetEvaluator.str_in f FacetEvaluator.pragmatic_facets);
    [split; [discriminate | tauto]|].
  destruct (FacetEvaluator.str_in f FacetEvaluator.safety_facets);
    [split; [discriminate | tauto]|].
  destruct (FacetEvaluator.str_in f FacetEvaluator.emotion_facets);
    [split; [discriminate | tauto]|].
  split; [|reflexivity]. intros _ [H|[H|[H|H]]]; discriminate.
Qed.

(** The two tables of the evaluator agree: a facet has a default weight
    exactly when it has a category other than [other]; a facet without a
    category weighs 1.0 when the configuration says nothing, and every
    default weight lies between 0.5 and 2. *)
Theorem default_weight_iff_category (f : string) :
  (FacetEvaluator.default_weights !! f = None <->
   FacetEvaluator._get_facet_category f = "other"%string) /\
  (FacetEvaluator._get_facet_category f = "other"%string ->
   FacetEvaluator.weight_of ∅ f = 1.0) /\
  (forall w, FacetEvaluator.default_weights !! f = Some w ->
             1 # 2 < w /\ w <= 2).
Proof.
  assert (Hiff : FacetEvaluator.default_weights !! f = None <->
                 FacetEvaluator._get_facet_category f = "other"%string).
  { rewrite category_other. unfold FacetEvaluator.default_weights.
    rewrite <- not_elem_of_list_to_map. rewrite <- list_elem_of_In.
    reflexivity. }
  split; [exact Hiff|]. split.
  - intros Hc. apply Hiff in Hc. apply weight_of_unknown; [|exact Hc].
    apply lookup_empty.
  - intros w Hw. unfold FacetEvaluator.default_weights in Hw.
    apply elem_of_list_to_map_2, list_elem_of_In in Hw. simpl in Hw.
    repeat (destruct Hw as [Hw|Hw];
            [injection Hw as _ <-; unfold Qlt, Qle; simpl; lia|]).
    contradiction.
Qed.

(** * The formulas of the specification *)

(** ** The specification's formulas and the code's functions *)

Lemma Spec_total_sumQ (xs : list Q) : Spec.total xs == sumQ xs.
Proof.
  induction xs as [|x xs IH]; simpl.
  - reflexivity.
  - rewrite sumQ_cons, IH. reflexivity.
Qed.

Lemma Spec_total_ext {A} (f g : A -> Q) (xs : list A) :
  (forall x, f x == g x) -> Spec.total (map f xs) == Spec.total (map g xs).
Proof.
  intros H. induction xs as [|x xs IH]; simpl; [reflexivity|].
  now rewrite H, IH.
Qed.

Lemma Spec_max0_pymax (x : Q) : Spec.max0 x == pymax 0 x.
Proof.
  unfold Spec.max0.
  destruct (Qle_bool 0 x) eqn:E.
  - apply Qle_bool_iff in E.
    destruct (pymax_spec 0 x) as [[? ->]|[? ->]]; lra.
  - assert (H : x < 0).
    { apply Qnot_le_lt. intros H. apply Qle_bool_iff in H. congruence. }
    destruct (pymax_spec 0 x) as [[? ->]|[? ->]]; lra.
Qed.

Lemma Spec_clamp01_spec (x : Q) :
  (x <= 0 /\ Spec.clamp01 x == 0) \/
  (0 < x /\ x < 1 /\ Spec.clamp01 x == x) \/
  (1 <= x /\ Spec.clamp01 x == 1).
Proof.
  unfold Spec.clamp01.
  destruct (Qle_bool x 0) eqn:E0.
  - apply Qle_bool_iff in E0. left. split; [exact E0 | reflexivity].
  - assert (H0 : 0 < x).
    { apply Qnot_le_lt. intros H. apply Qle_bool_iff in H. congruence. }
    destruct (Qle_bool 1 x) eqn:E1.
    + apply Qle_bool_iff in E1. right. right. split; [exact E1 | reflexivity].
    + assert (H1 : x < 1).
      { apply Qnot_le_lt. intros H. apply Qle_bool_iff in H. congruence. }
      right. left. repeat split; [exact H0 | exact H1].
Qed.

Lemma Spec_row_default_weights (f : string) :
  FacetEvaluator.default_weights !! f = snd <$> Spec.row f Spec.registry.
Proof.
  assert (H : forall rows : list (string * (string * Q)),
    (list_to_map (map (fun e => (fst e, snd (snd e))) rows) : gmap string Q)
      !! f = snd <$> Spec.row f rows).
  { induction rows as [|[name [c w]] rows IH]; simpl.
    - apply lookup_empty.
    - destruct (String.eqb_spec f name) as [->|Hne].
      + now rewrite lookup_insert_eq.
      + rewrite lookup_insert_ne by congruence. exact IH. }
  exact (H Spec.registry).
Qed.

Lemma Spec_weight_of (overrides : gmap string Q) (f : string) :
  FacetEvaluator.weight_of overrides f = Spec.weight_of overrides f.
Proof.
  unfold Spec.weight_of.
  destruct (overrides !! f) as [w|] eqn:Hc.
  - now apply weight_of_config.
  - pose proof (Spec_row_default_weights f) as Hd.
    destruct (Spec.row f Spec.registry) as [[c w]|].
    + now apply weight_of_default.
    + now apply weight_of_unknown.
Qed.

Lemma Spec_category_of (f : string) :
  FacetEvaluator._get_facet_category f = Spec.category_of f.
Proof.
  unfold FacetEvaluator._get_facet_category, Spec.category_of,
    FacetEvaluator.str_in.
  cbn [existsb FacetEvaluator.linguistic_facets
       FacetEvaluator.pragmatic_facets FacetEvaluator.safety_facets
       FacetEvaluator.emotion_facets Spec.row Spec.registry].
  repeat match goal with
         | |- context [String.eqb f ?s] =>
             destruct (String.eqb_spec f s) as [->|?]; [reflexivity|]
         end.
  reflexivity.
Qed.



Lemma Spec_total_inject (xs : list Z) :
  Spec.total (map inject_Z xs) == ofZ (sumZ xs).
Proof.
  induction xs as [|x xs IH]; simpl; [reflexivity|].
  rewrite IH, sumZ_cons. unfold ofZ. now rewrite inject_Z_plus.
Qed.

Lemma Spec_mean (xs : list Z) : Spec.mean xs == mean xs.
Proof. unfold Spec.mean, mean. now rewrite Spec_total_inject. Qed.

Lemma Spec_variance (xs : list Z) : Spec.variance xs == population_variance xs.
Proof.
  unfold Spec.variance, population_variance.
  rewrite <- Spec_total_sumQ.
  rewrite (Spec_total_ext
             (fun x => (inject_Z x - Spec.mean xs)
                       * (inject_Z x - Spec.mean xs))
             (fun x => (ofZ x - mean xs) ^ 2)).
  - reflexivity.
  - intros x. rewrite Spec_mean. unfold ofZ. simpl. reflexivity.
Qed.

Lemma Spec_members (c : string) (J : list EvaluationResult) :
  Spec.members c J = category_scores c J.
Proof.
  unfold Spec.members, category_scores, category_of. f_equal.
  apply List.filter_ext. intros r. now rewrite Spec_category_of.
Qed.

Lemma Spec_multi_member_categories (J : list EvaluationResult) :
  Spec.multi_member_categories J
  = List.filter multi_member
      (map (fun c => category_scores c J) all_categories).
Proof.
  unfold Spec.multi_member_categories. f_equal.
  apply map_ext. intros c. apply Spec_members.
Qed.

Lemma Spec_consistency_value (xs : list Z) :
  Spec.consistency_value xs == category_consistency xs.
Proof.
  unfold Spec.consistency_value, category_consistency.
  rewrite Spec_max0_pymax.
  destruct (pymax_spec 0 (1 - Spec.variance xs / 4)) as [[? ->]|[? ->]];
    destruct (pymax_spec 0 (1 - population_variance xs / 4))
      as [[? ->]|[? ->]];
    rewrite ?Spec_variance in *; lra.
Qed.

Lemma Spec_average (J : list EvaluationResult) :
  Spec.average (map Spec.consistency_value (Spec.multi_member_categories J))
  == average (category_consistencies J).
Proof.
  unfold Spec.average, average, category_consistencies, Spec.count, lenQ.
  rewrite Spec_multi_member_categories, !length_map.
  rewrite (Spec_total_ext _ _ _ Spec_consistency_value).
  now rewrite Spec_total_sumQ.
Qed.

Lemma Spec_identical (xs : list Z) : Spec.identical xs <-> identical xs.
Proof. reflexivity. Qed.

(** ** The weighted score *)





Section WeightedScoreLimits.
Import PrimFloat.
Set Warnings "-inexact-float".


(** The scenario of the specification in binary64: the loop gives
    2.7500000000000004, one unit in the last place above the exact
    quotient 2.75. *)
Example scenario_weighted_score_binary64 :
  Binary64.calculate_weighted_score ∅
    [ Binary64.mkEvaluationResult "grammar" 5 0.9%float "";
      Binary64.mkEvaluationResult "clarity" 4 0.8%float "";
      Binary64.mkEvaluationResult "toxicity" 1 0.95%float "" ]
  = Binary64.Return 2.7500000000000004%float.
Proof. vm_compute. reflexivity. Qed.
End WeightedScoreLimits.

(** ** The consistency score *)

(** C2. [analyze_facet_consistency] groups the judgments by the category
    the registry gives their facets and returns the average, over the
    categories with at least two judgments, of [max(0, 1 - variance/4)] of
    the population variance of the category's scores; it is exactly 1.0
    when no category has two judgments, in particular for fewer than two
    judgments, and 1 when the scores within every category of at least two
    judgments are identical. *)
Theorem analyze_facet_consistency_spec (J : list EvaluationResult) :
  (Spec.multi_member_categories J <> [] ->
   FacetEvaluator.analyze_facet_consistency J
     == Spec.average
          (map Spec.consistency_value (Spec.multi_member_categories J))) /\
  (Spec.multi_member_categories J = [] ->
   FacetEvaluator.analyze_facet_consistency J = 1.0) /\
  ((length J < 2)%nat ->
   FacetEvaluator.analyze_facet_consistency J = 1.0) /\
  ((forall c, (2 <= length (Spec.members c J))%nat ->
              Spec.identical (Spec.members c J)) ->
   FacetEvaluator.analyze_facet_consistency J == 1).
Proof.
  assert (Hnil : Spec.multi_member_categories J = [] <->
                 category_consistencies J = []).
  { rewrite Spec_multi_member_categories. unfold category_consistencies.
    destruct (List.filter multi_member _); simpl; split; congruence. }
  split; [|split; [|split]].
  - intros Hne. rewrite Spec_average.
    destruct (analyze_facet_consistency_cases J) as [[E _]|[_ E]];
      [|exact E].
    contradiction Hne. now apply Hnil.
  - intros He. apply Hnil in He.
    destruct (analyze_facet_consistency_cases J) as [[_ E]|[E _]];
      [exact E | contradiction].
  - intros Hlt. unfold FacetEvaluator.analyze_facet_consistency.
    apply Nat.ltb_lt in Hlt. now rewrite Hlt.
  - intros Hid.
    destruct (analyze_facet_consistency_cases J) as [[_ ->]|[Hne ->]];
      [reflexivity|].
    apply average_ones; [exact Hne|].
    unfold category_consistencies.
    apply Forall_map, Forall_forall. intros g Hg.
    apply list_elem_of_In, filter_In in Hg as [Hin Hm].
    apply in_map_iff in Hin as [c [<- _]].
    apply category_consistency_identical.
    rewrite <- Spec_members. apply Hid. rewrite Spec_members.
    unfold multi_member in Hm. now apply Nat.leb_le in Hm.
Qed.

Lemma analyze_facet_consistency_spec_witness :
  Spec.multi_member_categories mixed_judgments = [[5; 3]%Z] /\
  FacetEvaluator.analyze_facet_consistency mixed_judgments
    == Spec.average
         (map Spec.consistency_value
            (Spec.multi_member_categories mixed_judgments)) /\
  Spec.average
    (map Spec.consistency_value (Spec.multi_member_categories mixed_judgments))
    == 0.75.
Proof.
  destruct (analyze_facet_consistency_spec mixed_judgments) as (Hsome & _).
  split; [vm_compute; reflexivity|]. split.
  - apply Hsome. vm_compute. discriminate.
  - vm_compute. reflexivity.
Defined.

(** ** The uncertainty estimate *)

Lemma pymin_one_Spec_clamp (x y : Q) :
  0 <= x -> x == y -> pymin 1.0 x == Spec.clamp01 y.
Proof.
  intros Hx Hxy.
  destruct (pymin_spec 1.0 x) as [[? Hm]|[? Hm]];
    destruct (Spec_clamp01_spec y) as [[? Hc]|[(? & ? & Hc)|[? Hc]]];
    rewrite Hm, Hc; lra.
Qed.

(** C3. For a non-empty judgment list, the uncertainty estimate of the
    metrics the calculator returns is the population variance of the raw
    scores divided by 2 and clamped to [0,1]: it lies between 0 and 1, and
    it is 0 when all raw scores are identical; the calculator does return
    when the configured weights are positive. *)
Theorem uncertainty_estimate_spec (config_weights : gmap string Q)
    (J : list EvaluationResult) :
  J <> [] ->
  (forall m,
     _calculate_confidence_metrics config_weights J = Return m ->
     uncertainty_estimate m
       == Spec.clamp01 (Spec.variance (map score J) / 2) /\
     0 <= uncertainty_estimate m /\ uncertainty_estimate m <= 1 /\
     (Spec.identical (map score J) -> uncertainty_estimate m == 0)) /\
  (positive_weights config_weights ->
   exists m, _calculate_confidence_metrics config_weights J = Return m).
Proof.
  intros HJ. split; [|now apply metrics_returns].
  intros m Hm. destruct (metrics_returned config_weights J m HJ Hm) as [_ ->].
  cbn [uncertainty_estimate].
  pose proof (score_variance_population J HJ) as Hv.
  pose proof (population_variance_nonneg (map score J)) as Hnn.
  assert (Hc : pymin 1.0 (_calculate_score_variance J / 2.0)
               == Spec.clamp01 (Spec.variance (map score J) / 2)).
  { apply pymin_one_Spec_clamp.
    - rewrite Hv, Qdiv_2. lra.
    - rewrite Hv, Spec_variance, Qdiv_2. unfold Qdiv.
      apply Qmult_comp; reflexivity. }
  split; [exact Hc|].
  destruct (pymin_spec 1.0 (_calculate_score_variance J / 2.0))
    as [[Hle Hp]|[Hle Hp]]; rewrite Hp; rewrite Hv, Qdiv_2 in *.
  - split; [lra|]. split; [lra|]. intros Hid.
    rewrite (population_variance_identical _ Hid) in Hle. lra.
  - split; [lra|]. split; [lra|]. intros Hid.
    rewrite (population_variance_identical _ Hid). lra.
Qed.

Lemma uncertainty_estimate_spec_witness :
  scenario_judgments <> [] /\
  exists m,
    _calculate_confidence_metrics ∅ scenario_judgments = Return m /\
    uncertainty_estimate m
      == Spec.clamp01 (Spec.variance (map score scenario_judgments) / 2) /\
    Spec.variance (map score scenario_judgments) / 2 == 13 # 9 /\
    uncertainty_estimate m == 1.
Proof.
  assert (HJ : scenario_judgments <> []) by discriminate.
  split; [exact HJ|].
  destruct (uncertainty_estimate_spec ∅ scenario_judgments HJ)
    as [Hspec Hreturns].
  destruct (Hreturns (map_Forall_empty _)) as [m Hm].
  exists m. split; [exact Hm|].
  destruct (Hspec m Hm) as (Hu & _ & _ & _).
  split; [exact Hu|].
  assert (Hv : Spec.variance (map score scenario_judgments) / 2 == 13 # 9)
    by (vm_compute; reflexivity).
  split; [exact Hv|].
  rewrite Hu. vm_compute. reflexivity.
Defined.

(** ** Comparison of the evaluations of several models *)

Lemma Spec_weighted_mean (js : list (string * EvaluationResult)) :
  Spec.weighted_mean js == weighted_mean js.
Proof.
  unfold Spec.weighted_mean, weighted_mean. rewrite !Spec_total_sumQ.
  assert (H1 : map (fun j => inject_Z (score (snd j)) * confidence (snd j)) js
               = map (fun '(_, r) => ofZ (score r) * confidence r) js)
    by (apply map_ext; now intros [m r]).
  assert (H2 : map (fun j => confidence (snd j)) js
               = map (fun '(_, r) => confidence r) js)
    by (apply map_ext; now intros [m r]).
  now rewrite H1, H2.
Qed.

(** C5. With at least two evaluations under distinct model names,
    [compare_evaluations] returns four maps such that, for every facet:
    when at least two models judged it, the agreement is
    [max(0, 1 - (max(scores) - min(scores))/4)], the consensus is the
    plain mean of the scores when every confidence is zero and, for
    confidences not below zero, their confidence-weighted mean otherwise,
    and the per-model scores and confidences are recorded; when fewer
    than two models judged it, the facet is absent from all four maps. *)
Theorem compare_evaluations_spec
    (evaluations : list (string * ConversationEvaluation)) :
  NoDup (dict_keys evaluations) ->
  (2 <= length evaluations)%nat ->
  exists cmp,
    compare_evaluations evaluations = ComparisonOk cmp /\
    forall f,
      let js := judged evaluations f in
      ((2 <= length js)%nat ->
       exists hi lo agreement consensus,
         is_maximum hi (judged_scores js) /\
         is_minimum lo (judged_scores js) /\
         model_agreements cmp !! f = Some agreement /\
         agreement == Spec.max0 (1 - inject_Z (hi - lo) / 4) /\
         consensus_scores cmp !! f = Some consensus /\
         (Forall (fun j => 0 <= confidence (snd j)) js ->
          ~ Forall (fun j => confidence (snd j) == 0) js ->
          consensus == Spec.weighted_mean js) /\
         (Forall (fun j => confidence (snd j) == 0) js ->
          consensus == Spec.mean (judged_scores js)) /\
         score_differences cmp !! f = Some (model_scores js) /\
         confidence_comparison cmp !! f = Some (model_confidences js)) /\
      ((length js < 2)%nat ->
       model_agreements cmp !! f = None /\
       score_differences cmp !! f = None /\
       confidence_comparison cmp !! f = None /\
       consensus_scores cmp !! f = None).
Proof.
  intros Hnd Hlen. eexists. split.
  { unfold compare_evaluations.
    destruct (Nat.ltb_spec (length evaluations) 2); [lia | reflexivity]. }
  intros f js.
  pose proof (compare_lookup evaluations f Hnd) as Hl.
  rewrite facet_entry_judged in Hl by exact Hnd. fold js in Hl.
  cbv zeta in Hl. unfold lookup4 in Hl.
  split.
  - intros Hjs. apply Nat.leb_le in Hjs. rewrite Hjs in Hl.
    simpl in Hl. injection Hl as Ha Hsd Hcc Hcs.
    assert (Hne : judged_scores js <> []).
    { unfold judged_scores. destruct js; [discriminate Hjs|discriminate]. }
    assert (Hz : Forall (fun j => confidence (snd j) == 0) js <->
                 Forall (fun '(_, r) => confidence r == 0) js).
    { split; intros H; (eapply Forall_impl; [exact H|]); now intros [m r]. }
    pose proof (facet_consensus_judged js (judged_NoDup evaluations f Hnd))
      as Hconsensus.
    exists (max_of (judged_scores js)), (min_of (judged_scores js)).
    eexists. eexists.
    split; [now apply max_of_is_maximum|].
    split; [now apply min_of_is_minimum|].
    split; [exact Ha|].
    split; [unfold facet_agreement; now rewrite Spec_max0_pymax|].
    split; [exact Hcs|]. split; [|split].
    + intros Hnn Hnz. rewrite Spec_weighted_mean.
      apply Hconsensus.
      * eapply Forall_impl; [exact Hnn|]. now intros [m r].
      * intros H. apply Hnz. now apply Hz.
    + intros Hall. rewrite Spec_mean. apply Hconsensus.
      * eapply Forall_impl; [exact Hall|]. intros [m r] Hr. simpl in Hr.
        rewrite Hr. apply Qle_refl.
      * now apply Hz.
    + split; [exact Hsd | exact Hcc].
  - intros Hjs.
    destruct (Nat.leb_spec 2 (length js)) as [|_]; [lia|].
    simpl in Hl. now injection Hl as -> -> -> ->.
Qed.

Lemma compare_evaluations_spec_witness :
  NoDup (dict_keys two_models) /\
  (2 <= length two_models)%nat /\
  exists cmp agreement consensus,
    compare_evaluations two_models = ComparisonOk cmp /\
    model_agreements cmp !! "grammar"%string = Some agreement /\
    agreement == 0 /\
    consensus_scores cmp !! "grammar"%string = Some consensus /\
    consensus == 4.6 /\
    score_differences cmp !! "fluency"%string = None.
Proof.
  assert (Hnd : NoDup (dict_keys two_models)) by compute_done.
  assert (Hlen : (2 <= length two_models)%nat) by (simpl; lia).
  split; [exact Hnd|]. split; [exact Hlen|].
  destruct (compare_evaluations_spec two_models Hnd Hlen) as [cmp [Hcmp Hf]].
  destruct (Hf "grammar"%string) as [Hjudged _].
  destruct (Hf "fluency"%string) as [_ Habsent].
  destruct Hjudged as (hi & lo & a & c & Hhi & Hlo & Ha & Hav & Hc & Hw & _).
  { simpl. lia. }
  exists cmp, a, c.
  split; [exact Hcmp|]. split; [exact Ha|]. split; [|split; [exact Hc|split]].
  - assert (hi = 5%Z).
    { destruct Hhi as [Hin Hmax]. simpl in Hin, Hmax.
      pose proof (Hmax 5%Z (or_introl eq_refl)).
      destruct Hin as [<-|[<-|[]]]; [reflexivity | lia]. }
    assert (lo = 1%Z).
    { destruct Hlo as [Hin Hmin]. simpl in Hin, Hmin.
      pose proof (Hmin 1%Z (or_intror (or_introl eq_refl))).
      destruct Hin as [<-|[<-|[]]]; [lia | reflexivity]. }
    subst hi lo. rewrite Hav. vm_compute. reflexivity.
  - rewrite Hw.
    + vm_compute. reflexivity.
    + repeat constructor; simpl; lra.
    + intros Hall. apply Forall_inv in Hall. simpl in Hall.
      vm_compute in Hall. discriminate.
  - apply Habsent. simpl. lia.
Defined.

(** ** A single judgment *)

Section MetricsSingle.
Import PrimFloat.
Set Warnings "-inexact-float".

Lemma metrics_single_binary64 (weights : gmap string float)
    (sum : list float -> float)
    (square : float -> Binary64.result float)
    (r : Binary64.EvaluationResult) :
  (forall x, sum [x] = (0 + x)%float) ->
  Binary64._calculate_confidence_metrics weights sum square [r]
  = let c := Binary64.confidence r in
    let w := Binary64.weight_of weights (Binary64.facet r) in
    if (0 + w =? 0)%float then Binary64.Raise Binary64.ZeroDivisionError
    else Binary64.Return
           (Binary64.mkConfidenceMetrics ((0 + c) / 1)%float
              ((0 + c * w) / (0 + w))%float 1%float 0%float).
Proof.
  intros Hsum. cbv zeta.
  unfold Binary64._calculate_confidence_metrics.
  cbn [map length]. rewrite !Hsum.
  change (Binary64.of_int (Z.of_nat 1)) with (Binary64.Return 1%float).
  cbn [Binary64.bind]. unfold Binary64.truediv at 1.
  change (1 =? 0)%float with false. cbn [Binary64.bind].
  unfold Binary64.truediv.
  destruct (0 + Binary64.weight_of weights (Binary64.facet r) =? 0)%float;
    reflexivity.
Qed.

(** C10. For a single judgment with confidence [c] whose facet has weight
    [w], the calculator raises [ZeroDivisionError] when [w] is zero and
    otherwise returns metrics with overall confidence [c], consistency
    exactly 1.0 and uncertainty 0, and with model confidence [c] when [w]
    is 1; its outcome is never the empty-list sentinel.  In binary64 the
    model confidence is the product [c * w] divided by [w], each
    rounded. *)
Theorem metrics_single (config_weights : gmap string Q)
    (r : EvaluationResult) :
  (Spec.weight_of config_weights (facet r) == 0 ->
   _calculate_confidence_metrics config_weights [r]
   = Raise ZeroDivisionError) /\
  (~ Spec.weight_of config_weights (facet r) == 0 ->
   exists m,
     _calculate_confidence_metrics config_weights [r] = Return m /\
     overall_confidence m == confidence r /\
     consistency_score m = 1.0 /\
     uncertainty_estimate m == 0 /\
     (Spec.weight_of config_weights (facet r) == 1 ->
      model_confidence m == confidence r)) /\
  _calculate_confidence_metrics config_weights [r]
  <> _calculate_confidence_metrics config_weights [] /\
  (forall weights sum square r64,
     (forall x, sum [x] = (0 + x)%float) ->
     Binary64._calculate_confidence_metrics weights sum square [r64]
     = let c := Binary64.confidence r64 in
       let w := Binary64.weight_of weights (Binary64.facet r64) in
       if (0 + w =? 0)%float then Binary64.Raise Binary64.ZeroDivisionError
       else Binary64.Return
              (Binary64.mkConfidenceMetrics ((0 + c) / 1)%float
                 ((0 + c * w) / (0 + w))%float 1%float 0%float)).
Proof.
  assert (Hone : [r] <> []) by discriminate.
  assert (Hsum : sumQ (map (fun r => FacetEvaluator.weight_of config_weights
                                       (facet r)) [r])
                 == Spec.weight_of config_weights (facet r)).
  { simpl. rewrite sumQ_cons, sumQ_nil, Spec_weight_of. lra. }
  split; [|split; [|split]].
  - intros Hz. apply metrics_raise_iff. split; [reflexivity|].
    split; [exact Hone|]. now rewrite Hsum.
  - intros Hnz. eexists. split.
    { apply metrics_nonempty; [exact Hone|]. apply pydiv_Return.
      now rewrite Hsum. }
    cbn [overall_confidence model_confidence consistency_score
         uncertainty_estimate].
    split; [|split; [|split]].
    + simpl map. rewrite sumQ_cons, sumQ_nil. unfold lenQ. simpl. field.
    + reflexivity.
    + vm_compute. reflexivity.
    + intros Hw1. rewrite Hsum. simpl fold_left.
      unfold weighted_confidence_step. simpl app.
      rewrite sumQ_cons, sumQ_nil, Spec_weight_of, Hw1. field.
  - destruct (_calculate_confidence_metrics config_weights [r])
      as [m|e] eqn:E; [|discriminate].
    destruct (metrics_returned config_weights [r] m Hone E) as [_ ->].
    simpl. discriminate.
  - intros weights sum square r64. apply metrics_single_binary64.
Qed.

Lemma metrics_single_witness :
  (exists m,
     _calculate_confidence_metrics ∅ [single_judgment] = Return m /\
     overall_confidence m == 0.11 /\
     consistency_score m = 1.0 /\
     uncertainty_estimate m == 0) /\
  Binary64._calculate_confidence_metrics ∅ Binary64.sum_left
    Binary64.square_mul
    [Binary64.mkEvaluationResult "coherence" 4 0.11%float ""]
  = Binary64.Return
      (Binary64.mkConfidenceMetrics 0.11%float 0.11000000000000001%float
         1%float 0%float).
Proof.
  destruct (metrics_single ∅ single_judgment) as (_ & Hret & _ & H64).
  split.
  - destruct Hret as (m & Hm & Ho & Hc & Hu & _).
    { vm_compute. discriminate. }
    exists m. split; [exact Hm|]. split; [exact Ho|].
    split; [exact Hc | exact Hu].
  - rewrite H64 by reflexivity. vm_compute. reflexivity.
Defined.

(** C10 fails as stated: in binary64 the model confidence of the
    judgment (coherence, 4, 0.11), whose facet has weight 1.2, is
    0.11000000000000001, not 0.11; and with a configured weight of zero
    for its facet the calculator raises. *)
Lemma metrics_single_not_confidence :
  Binary64._calculate_confidence_metrics ∅ Binary64.sum_left
    Binary64.square_mul
    [Binary64.mkEvaluationResult "coherence" 4 0.11%float ""]
  = Binary64.Return
      (Binary64.mkConfidenceMetrics 0.11%float 0.11000000000000001%float
         1%float 0%float) /\
  Binary64._calculate_confidence_metrics ∅ Binary64.sum_left
    Binary64.square_mul
    [Binary64.mkEvaluationResult "coherence" 4 0.11%float ""]
  <> Binary64.Return
       (Binary64.mkConfidenceMetrics 0.11%float 0.11%float 1%float 0%float) /\
  _calculate_confidence_metrics {[ "coherence"%string := 0 ]}
    [single_judgment]
  = Raise ZeroDivisionError.
Proof.
  assert (H : Binary64._calculate_confidence_metrics ∅ Binary64.sum_left
                Binary64.square_mul
                [Binary64.mkEvaluationResult "coherence" 4 0.11%float ""]
              = Binary64.Return
                  (Binary64.mkConfidenceMetrics 0.11%float
                     0.11000000000000001%float 1%float 0%float))
    by (vm_compute; reflexivity).
  split; [exact H|]. split; [|reflexivity].
  rewrite H. intros E.
  apply (f_equal (fun o => match o with
                           | Binary64.Return m =>
                               (Binary64.model_confidence m =? 0.11)%float
                           | Binary64.Raise _ => true
                           end)) in E.
  vm_compute in E. discriminate.
Qed.

End MetricsSingle.

(** ** When the confidence calculator and the evaluator raise *)

Lemma sumQ_zero_iff (xs : list Q) :
  Forall (fun x => 0 <= x) xs ->
  (sumQ xs == 0 <-> Forall (fun x => x == 0) xs).
Proof.
  intros Hnn. split; [|apply sumQ_zero].
  induction Hnn as [|x xs Hx Hnn IH]; intros Hs; [constructor|].
  rewrite sumQ_cons in Hs. pose proof (sumQ_nonneg xs Hnn).
  constructor; [lra|]. apply IH. lra.
Qed.

Lemma weights_sum_zero_iff (config_weights : gmap string Q)
    (J : list EvaluationResult) :
  nonnegative_weights config_weights ->
  (sumQ (map (fun r => FacetEvaluator.weight_of config_weights (facet r)) J)
   == 0 <->
   Forall (fun r => Spec.weight_of config_weights (facet r) == 0) J).
Proof.
  intros Hw. rewrite sumQ_zero_iff.
  - rewrite Forall_map. split; intros H; (eapply Forall_impl; [exact H|]);
      intros r Hr; simpl in *; now rewrite ?Spec_weight_of in *.
  - apply Forall_map, Forall_forall. intros r _.
    now apply weight_of_nonnegative.
Qed.

Section Raises.
Variable config_weights : gmap string Q.

(** With configured weights not below zero and scores from 1 to 5, the
    confidence calculator raises in exactly one situation: the judgments
    are not empty and every one of their facets has weight zero; the
    exception is then [ZeroDivisionError].  With a weight below zero the
    rounded sum of the weights can be zero where the exact sum is not, and
    the other way round; with a score beyond the floats the variance
    raises [OverflowError]. *)
Theorem confidence_metrics_raises (J : list EvaluationResult) (e : exn) :
  nonnegative_weights config_weights ->
  Forall (score_within 1 5) J ->
  (_calculate_confidence_metrics config_weights J = Raise e <->
   e = ZeroDivisionError /\ J <> [] /\
   Forall (fun r => Spec.weight_of config_weights (facet r) == 0) J).
Proof.
  intros Hw _. rewrite metrics_raise_iff.
  now rewrite (weights_sum_zero_iff config_weights J Hw).
Qed.
End Raises.

Lemma confidence_metrics_raises_witness :
  nonnegative_weights {[ "grammar"%string := 0 ]} /\
  Forall (score_within 1 5) [mkEvaluationResult "grammar" 3 0.5 ""] /\
  _calculate_confidence_metrics {[ "grammar"%string := 0 ]}
    [mkEvaluationResult "grammar" 3 0.5 ""]
  = Raise ZeroDivisionError.
Proof.
  assert (Hw : nonnegative_weights
                 ({[ "grammar"%string := 0 ]} : gmap string Q)).
  { apply map_Forall_singleton. discriminate. }
  assert (Hs : Forall (score_within 1 5)
                 [mkEvaluationResult "grammar" 3 0.5 ""]).
  { repeat constructor; vm_compute; discriminate. }
  split; [exact Hw|]. split; [exact Hs|].
  apply (confidence_metrics_raises _ _ _ Hw Hs).
  split; [reflexivity|]. split; [discriminate|].
  constructor; [vm_compute; reflexivity | constructor].
Defined.

Section EvaluateOutcomes.
Variable config_weights : gmap string Q.
Variable default_model : option string.
Variable facet_batch_size : Z.
Variable clock : nat -> Q.
Variable backend : nat -> option string -> result Model.

(** With configured weights not below zero and a model whose scores lie
    between 1 and 5 (the conditions under which the confidence calculator
    raises for zero weights only), [evaluate_conversation] raises in
    exactly three ways: the exception of the model manager when the model
    cannot be acquired; [ValueError] when the sub-batch size is zero;
    [ZeroDivisionError] when the model gave results and every judged
    facet has weight zero. *)
Theorem evaluate_conversation_raises (conversation : conversation_input)
    (facets : list string) (conversation_id name : option string)
    (w : World) (e : exn) :
  nonnegative_weights config_weights ->
  (forall model text fs,
     acquires backend w (requested_model default_model name) = Return model ->
     Forall (score_within 1 5) (model_evaluate_conversation model text fs)) ->
  (fst (evaluate_conversation config_weights default_model facet_batch_size
          clock backend conversation facets conversation_id name w)
   = Raise e <->
   acquires backend w (requested_model default_model name) = Raise e \/
   exists model,
     acquires backend w (requested_model default_model name) = Return model /\
     ((facet_batch_size = 0%Z /\
       e = ValueError "range() arg 3 must not be zero") \/
      (exists batches,
         facet_batches facet_batch_size facets = Return batches /\
         let results :=
           judgments model
             (DataProcessor.clean_conversation_text (input_text conversation))
             batches in
         e = ZeroDivisionError /\ results <> [] /\
         Forall (fun r => Spec.weight_of config_weights (facet r) == 0)
           results))).
Proof.
  intros Hw _.
  rewrite evaluate_conversation_raise_cases. cbv zeta.
  split; (intros [H|(model & Hm & H)]; [now left|]); right; exists model;
    (split; [exact Hm|]).
  - destruct H as [H|(bs & Hbs & H)].
    + left.
      destruct (facet_batches_cases facet_batch_size facets)
        as [[H0 Hz]|[[_ Hn]|[_ (bs & Hp & _)]]]; try congruence.
      split; [exact H0 | congruence].
    + right. exists bs. split; [exact Hbs|].
      apply metrics_raise_iff in H as (He & Hne & Hz).
      split; [exact He|]. split; [exact Hne|].
      now apply (weights_sum_zero_iff config_weights _ Hw).
  - destruct H as [[H0 ->]|(bs & Hbs & He & Hne & Hz)].
    + left.
      destruct (facet_batches_cases facet_batch_size facets)
        as [[_ Hz]|[[Hn _]|[Hp _]]]; [exact Hz | lia | lia].
    + right. exists bs. split; [exact Hbs|].
      apply metrics_raise_iff. split; [exact He|]. split; [exact Hne|].
      now apply (weights_sum_zero_iff config_weights _ Hw).
Qed.

(** What a returned evaluation records: the cleaned text, the caller's
    identifier when it is not empty and else the one made from the second
    reading of the clock, the name of the model that was acquired, which
    is cached under the requested name afterwards, a processing time that
    is a later reading of the clock minus the first reading of the call,
    and as timestamp a reading later still. *)
Theorem evaluate_conversation_record (conversation : conversation_input)
    (facets : list string) (given_id name : option string)
    (w w' : World) (ev : ConversationEvaluation) :
  evaluate_conversation config_weights default_model facet_batch_size
    clock backend conversation facets given_id name w
  = (Return ev, w') ->
  conversation_text ev
  = DataProcessor.clean_conversation_text (input_text conversation) /\
  conversation_id ev = settled_id clock given_id w /\
  (forall id, given_id = Some id -> id <> ""%string ->
              conversation_id ev = id) /\
  (exists model,
     acquires backend w (requested_model default_model name) = Return model /\
     model_used ev = model_name model /\
     models w' !! requested_model default_model name = Some model) /\
  (exists finished created,
     (clock_reads w < finished)%nat /\ (finished < created)%nat /\
     (created < clock_reads w')%nat /\
     processing_time ev = clock finished - clock (clock_reads w) /\
     timestamp ev = clock created).
Proof.
  intros H.
  destruct (evaluate_conversation_fields _ _ _ _ _ _ _ _ _ _ _ _ H)
    as (Ht & Hid & Hgiven & Hmodel & Hreads & Hp & Hs).
  split; [exact Ht|]. split; [exact Hid|]. split; [exact Hgiven|].
  split; [exact Hmodel|].
  exists (1 + id_reads given_id + clock_reads w)%nat,
         (2 + id_reads given_id + clock_reads w)%nat.
  split; [lia|]. split; [lia|]. split; [lia|]. split; [exact Hp | exact Hs].
Qed.
End EvaluateOutcomes.

Lemma evaluate_conversation_raises_witness :
  nonnegative_weights ∅ /\
  fst (evaluate_conversation ∅ (Some "mock"%string) 0 tenth_clock
         always_loads (RawText "hi") ["grammar"%string] None None
         initial_world)
  = Raise (ValueError "range() arg 3 must not be zero").
Proof.
  assert (Hw : nonnegative_weights ∅) by apply map_Forall_empty.
  split; [exact Hw|].
  apply (evaluate_conversation_raises ∅ (Some "mock"%string) 0 tenth_clock
           always_loads (RawText "hi") ["grammar"%string] None None
           initial_world _ Hw).
  - intros model text fs [= <-]. simpl.
    apply Forall_map, Forall_forall. intros f _. unfold score_within.
    simpl. lia.
  - right. exists mock_model. split; [reflexivity|]. left.
    split; reflexivity.
Defined.

Lemma evaluate_conversation_record_witness :
  exists ev w',
    sample_run = (Return ev, w') /\
    conversation_text ev
    = DataProcessor.clean_conversation_text "hi  there" /\
    conversation_id ev = "c1"%string /\
    model_used ev = "mock"%string.
Proof.
  destruct sample_run_returns as (ev & w' & H). exists ev, w'.
  split; [exact H|]. unfold sample_run in H.
  destruct (evaluate_conversation_record _ _ _ _ _ _ _ _ _ _ _ _ H)
    as (Ht & _ & Hid & (model & Hacq & Hused & _) & _).
  split; [exact Ht|]. split; [now apply Hid|].
  injection Hacq as <-. exact Hused.
Defined.
